(** * kconfig-select: build-type detection, config-store scanning,
      restore and revisioned backup

    A shallow embedding of [kconfig-select.py].  The Python methods become
    functions over an explicit [world] (directories, open descriptors, the
    two output streams and the behaviour of the environment); exceptions
    are the [Raise] results of a small state-and-exception monad. *)

From Stdlib Require Import Ascii.
From stdpp Require Import gmap strings pretty list fin_maps sorting.

Set Default Proof Using "Type".

(** ** Python string methods used by the program *)

Module PyStr.

(** [bool(s)] of a [str]: the empty string is false. *)
Definition truthy (s : string) : bool :=
  match s with "" => false | String _ _ => true end.

(** [s.startswith(p)] *)
Fixpoint startswith (s p : string) {struct p} : bool :=
  match p, s with
  | "", _ => true
  | String _ _, "" => false
  | String a p', String b s' =>
      if decide (a = b) then startswith s' p' else false
  end.

(** [s.endswith(p)] *)
Fixpoint endswith (s p : string) : bool :=
  if decide (s = p) then true
  else match s with
       | "" => false
       | String _ s' => endswith s' p
       end.

(** [s.lstrip(chars)], [s.rstrip(chars)], [s.strip(chars)], with the
    character set given as a predicate. *)
Fixpoint lstrip (P : ascii → bool) (s : string) : string :=
  match s with
  | "" => ""
  | String c r => if P c then lstrip P r else s
  end.

Fixpoint rstrip (P : ascii → bool) (s : string) : string :=
  match s with
  | "" => ""
  | String c r =>
      match rstrip P r with
      | "" => if P c then "" else String c ""
      | r' => String c r'
      end
  end.

Definition strip (P : ascii → bool) (s : string) : string :=
  rstrip P (lstrip P s).

Definition is_char (x c : ascii) : bool := bool_decide (c = x).

(** [str.isspace] on the code points below 256: TAB..CR, FS..US, SPACE,
    NEL and NBSP.  [s.strip()] without argument strips these. *)
Definition isspace (c : ascii) : bool :=
  let n := nat_of_ascii c in
  bool_decide (9 ≤ n ≤ 13) || bool_decide (28 ≤ n ≤ 32)
  || bool_decide (n = 133) || bool_decide (n = 160).

(** [s.partition(sep)[0]] for a one-character separator. *)
Fixpoint partition_head (sep : ascii) (s : string) : string :=
  match s with
  | "" => ""
  | String c r => if decide (c = sep) then "" else String c (partition_head sep r)
  end.

Fixpoint contains (x : ascii) (s : string) : bool :=
  match s with
  | "" => false
  | String c r => bool_decide (c = x) || contains x r
  end.

(** [posixpath.basename]: [p[p.rfind('/') + 1:]]. *)
Fixpoint basename (p : string) : string :=
  match p with
  | "" => ""
  | String _ r => if contains "/"%char p then basename r else p
  end.

(** [posixpath.join(a, b)] *)
Definition join (a b : string) : string :=
  if startswith b "/" then b
  else if negb (truthy a) || endswith a "/" then a +:+ b
  else a +:+ "/" +:+ b.

(** [fh.readline()] of a text-mode file with universal newlines: the
    line up to and including its terminator, which is delivered as a
    line feed whether the file has LF, CR or CR LF. *)
Fixpoint readline (s : string) : string :=
  match s with
  | "" => ""
  | String c r =>
      if decide (c = "010"%char) then String "010"%char ""
      else if decide (c = "013"%char) then String "010"%char ""
      else String c (readline r)
  end.

End PyStr.

(** ** The environment *)

Abbreviation bytes := (list Byte.byte).

Global Instance byte_eq_dec : EqDecision Byte.byte := Byte.byte_eq_dec.

(** What a directory holds under a name.  A symbolic link stores its
    target as written; targets are names of the same directory, the only
    links the program creates. *)
Inductive node :=
| File (content : bytes)
| Symlink (target : string)
| Dir.

Global Instance node_eq_dec : EqDecision node.
Proof. solve_decision. Defined.

Abbreviation directory := (gmap string node).

(** A file path is a directory path and a name in it:
    [os.path.join(d, n)], with [os.path.dirname] and [os.path.basename]
    the two projections. *)
Definition path : Type := string * string.

Definition path_str (p : path) : string := PyStr.join p.1 p.2.

Inductive exn :=
| FileNotFoundError
| FileExistsError
| IsADirectoryError
| IndexError
| OSError_EIO            (* an I/O error injected by the environment *)
| OSError_EBADF          (* a descriptor that is not open *)
| CalledProcessError
| OutOfFuel              (* a loop of the embedding ran out of fuel *)
| NotImplementedError (msg : string)
| RuntimeError (msg arg : string).

Global Instance exn_eq_dec : EqDecision exn.
Proof. solve_decision. Defined.

Inductive result (A : Type) :=
| Return (a : A)
| Raise (e : exn).
Global Arguments Return {A} a.
Global Arguments Raise {A} e.

Record world := World {
  w_dirs     : gmap string directory;   (* directory path ↦ its entries *)
  w_fds      : gmap nat path;           (* descriptors open for writing *)
  w_stdout   : list string;
  w_stderr   : list string;
  w_faults   : list bool;               (* outcome of the next fallible calls: true fails *)
  w_tmpnames : list string;             (* the random stems [mkstemp] draws *)
  w_git_dirs : gset string;             (* directories inside a git working tree *)
  w_cmds     : list (list string);      (* external commands run so far *)
  w_today    : nat * nat * nat;         (* [datetime.date.today()]: year, month, day *)
}.

Definition set_dirs (f : gmap string directory → gmap string directory) (w : world) : world :=
  World (f (w_dirs w)) (w_fds w) (w_stdout w) (w_stderr w) (w_faults w)
        (w_tmpnames w) (w_git_dirs w) (w_cmds w) (w_today w).
Definition set_fds (f : gmap nat path → gmap nat path) (w : world) : world :=
  World (w_dirs w) (f (w_fds w)) (w_stdout w) (w_stderr w) (w_faults w)
        (w_tmpnames w) (w_git_dirs w) (w_cmds w) (w_today w).
Definition set_faults (l : list bool) (w : world) : world :=
  World (w_dirs w) (w_fds w) (w_stdout w) (w_stderr w) l
        (w_tmpnames w) (w_git_dirs w) (w_cmds w) (w_today w).
Definition set_tmpnames (l : list string) (w : world) : world :=
  World (w_dirs w) (w_fds w) (w_stdout w) (w_stderr w) (w_faults w)
        l (w_git_dirs w) (w_cmds w) (w_today w).

(** The state-and-exception monad of the embedding: the world survives a
    raised exception, as it does in Python. *)
Definition M (A : Type) : Type := world → result A * world.

Definition ret {A} (a : A) : M A := λ w, (Return a, w).
Definition raise {A} (e : exn) : M A := λ w, (Raise e, w).
Definition bind {A B} (m : M A) (k : A → M B) : M B :=
  λ w, match m w with
       | (Return a, w') => k a w'
       | (Raise e, w') => (Raise e, w')
       end.

Notation "'do' x <- m ; k" := (bind m (λ x, k))
  (at level 10, x pattern, m at level 100, k at level 200).
Notation "m ;; k" := (bind m (λ _, k))
  (at level 100, k at level 200, right associativity).

(** [try: m except e: h] *)
Definition try_except {A} (m : M A) (e : exn) (h : M A) : M A :=
  λ w, match m w with
       | (Raise e', w') => if decide (e' = e) then h w' else (Raise e', w')
       | r => r
       end.

Definition modify (f : world → world) : M unit := λ w, (Return tt, f w).

(** Every fallible call asks the environment for its outcome: the next
    entry of [w_faults], or success once the list is used up. *)
Definition fault_with (e : exn) : M unit := λ w,
  match w_faults w with
  | true :: l => (Raise e, set_faults l w)
  | false :: l => (Return tt, set_faults l w)
  | [] => (Return tt, w)
  end.

Definition fault : M unit := fault_with OSError_EIO.

(** ** Files, links and descriptors *)

Definition MAXSYMLINKS : nat := 40.

(** Follow symbolic links inside directory [d]: the file or directory
    finally reached, or nothing for a missing name, a dangling link or a
    chain longer than the kernel follows. *)
Fixpoint resolve (d : directory) (fuel : nat) (n : string) : option node :=
  match d !! n with
  | Some (Symlink t) =>
      match fuel with
      | O => None
      | S fuel' => resolve d fuel' t
      end
  | x => x
  end.

(** [DirEntry.is_file(follow_symlinks=True)] *)
Definition is_file (d : directory) (n : string) : bool :=
  match resolve d MAXSYMLINKS n with
  | Some (File _) => true
  | _ => false
  end.

(** The bytes [open(p, 'rb')] will deliver. *)
Definition file_content (ds : gmap string directory) (p : path) : result bytes :=
  match ds !! p.1 with
  | None => Raise FileNotFoundError
  | Some d =>
      match resolve d MAXSYMLINKS p.2 with
      | Some (File c) => Return c
      | Some Dir => Raise IsADirectoryError
      | _ => Raise FileNotFoundError
      end
  end.

(** [open(p, 'rb')]: the file object is what is left to read. *)
Definition open_rb (p : path) : M bytes := λ w,
  (file_content (w_dirs w) p, w).

(** [fh.read(bsize)]: the next block and the advanced file object. *)
Definition fh_read (bsize : nat) (fh : bytes) : M (bytes * bytes) :=
  fault ;; ret (take bsize fh, drop bsize fh).

Definition sys_stdout_write (s : string) : M unit :=
  modify (λ w, World (w_dirs w) (w_fds w) (w_stdout w ++ [s]) (w_stderr w)
                     (w_faults w) (w_tmpnames w) (w_git_dirs w) (w_cmds w) (w_today w)).

Definition sys_stderr_write (s : string) : M unit :=
  modify (λ w, World (w_dirs w) (w_fds w) (w_stdout w) (w_stderr w ++ [s])
                     (w_faults w) (w_tmpnames w) (w_git_dirs w) (w_cmds w) (w_today w)).

(** [os.scandir(dirpath)] *)
Definition os_scandir (dirpath : string) : M directory := λ w,
  match w_dirs w !! dirpath with
  | None => (Raise FileNotFoundError, w)
  | Some d => (Return d, w)
  end.

(** The first drawn name that [O_CREAT|O_EXCL] accepts. *)
Fixpoint mkstemp_pick (d : directory) (suffix : string) (stems : list string)
  : option (string * list string) :=
  match stems with
  | [] => None
  | s :: rest =>
      let n := "tmp" +:+ s +:+ suffix in
      match d !! n with
      | None => Some (n, rest)
      | Some _ => mkstemp_pick d suffix rest
      end
  end.

(** [tempfile.mkstemp(suffix=suffix, dir=dirpath)] *)
Definition mkstemp (suffix dirpath : string) : M (nat * path) :=
  fault ;;
  λ w, match w_dirs w !! dirpath with
       | None => (Raise FileNotFoundError, w)
       | Some d =>
           match mkstemp_pick d suffix (w_tmpnames w) with
           | None => (Raise FileExistsError, set_tmpnames [] w)
           | Some (n, rest) =>
               let fd := fresh (dom (w_fds w)) in
               (Return (fd, (dirpath, n)),
                set_tmpnames rest
                  (set_fds (insert fd (dirpath, n))
                     (set_dirs (insert dirpath (<[n := File []]> d)) w)))
           end
       end.

(** [os.write(fd, block)]: the block is appended to the file the
    descriptor was opened on. *)
Definition os_write (fd : nat) (block : bytes) : M unit := λ w,
  match w_fds w !! fd with
  | None => (Raise OSError_EBADF, w)
  | Some p =>
      (fault ;;
       modify (set_dirs (alter (alter (λ n, match n with
                                            | File c => File (c ++ block)
                                            | x => x
                                            end) p.2) p.1))) w
  end.

(** [os.close(fd)].  A close that reports an error has released the
    descriptor all the same, so closing it again finds it not open. *)
Definition os_close (fd : nat) : M unit := λ w,
  match w_fds w !! fd with
  | None => (Raise OSError_EBADF, w)
  | Some _ => fault (set_fds (delete fd) w)
  end.

Definition lookup_node (ds : gmap string directory) (p : path) : option node :=
  ds !! p.1 ≫= λ d, d !! p.2.

(** [os.replace(src, dst)]: an atomic rename; a link at [dst] is replaced,
    not followed. *)
Definition os_replace (src dst : path) : M unit :=
  fault ;;
  λ w, match lookup_node (w_dirs w) src, w_dirs w !! dst.1 with
       | None, _ | _, None => (Raise FileNotFoundError, w)
       | Some n, Some dd =>
           match n, dd !! dst.2 with
           | File _, Some Dir | Symlink _, Some Dir => (Raise IsADirectoryError, w)
           | _, _ =>
               (Return tt,
                set_dirs (λ ds, alter (insert dst.2 n) dst.1
                                  (alter (delete src.2) src.1 ds)) w)
           end
       end.

(** [os.unlink(p)] *)
Definition os_unlink (p : path) : M unit :=
  fault ;;
  λ w, match lookup_node (w_dirs w) p with
       | None => (Raise FileNotFoundError, w)
       | Some Dir => (Raise IsADirectoryError, w)
       | Some _ => (Return tt, set_dirs (alter (delete p.2) p.1) w)
       end.

(** [os.symlink(target, p)] *)
Definition os_symlink (target : string) (p : path) : M unit :=
  fault ;;
  λ w, match w_dirs w !! p.1 with
       | None => (Raise FileNotFoundError, w)
       | Some d =>
           match d !! p.2 with
           | Some _ => (Raise FileExistsError, w)
           | None => (Return tt, set_dirs (alter (insert p.2 (Symlink target)) p.1) w)
           end
       end.

(** [os.makedirs(dirpath, exist_ok=True)] *)
Definition os_makedirs (dirpath : string) : M unit :=
  fault ;;
  modify (set_dirs (λ ds, match ds !! dirpath with
                          | Some _ => ds
                          | None => <[dirpath := ∅]> ds
                          end)).

Definition log_cmd (cmd : list string) : M unit :=
  modify (λ w, World (w_dirs w) (w_fds w) (w_stdout w) (w_stderr w)
                     (w_faults w) (w_tmpnames w) (w_git_dirs w) (w_cmds w ++ [cmd]) (w_today w)).

(** [subprocess.run(cmd, cwd=..., check=True)] *)
Definition subprocess_run_check (cmd : list string) : M unit :=
  log_cmd cmd ;; fault_with CalledProcessError.

Definition check_is_git_dir (dirpath : string) : M bool :=
  log_cmd ["git"; "rev-parse"; "--show-toplevel"] ;;
  λ w, (Return (bool_decide (dirpath ∈ w_git_dirs w)), w).

(** ** Build information and build types *)

Record BuildInfo := {
  src_dir     : string;
  build_dir   : string;
  config_root : string;
}.

Inductive build_class :=
| LinuxBuildType
| BuildrootBuildType
| BuildrootBusyboxBuildType
| GenericBuildType.

Global Instance build_class_eq_dec : EqDecision build_class.
Proof. solve_decision. Defined.

Definition NAME (c : build_class) : string :=
  match c with
  | LinuxBuildType => "linux"
  | BuildrootBuildType => "buildroot"
  | BuildrootBusyboxBuildType => "buildroot-busybox"
  | GenericBuildType => "generic"
  end.

Definition ALIASES (c : build_class) : list string :=
  match c with
  | BuildrootBuildType => ["br"]
  | BuildrootBusyboxBuildType => ["br-busybox"; "brb"]
  | _ => []
  end.

Definition BUILD_CONFIG_FILENAME (c : build_class) : string :=
  match c with
  | BuildrootBusyboxBuildType => "busybox.config"
  | _ => ".config"
  end.

(** An instance: its class, [self.info] and the mutable [self.ckey]. *)
Record BuildType := {
  cls  : build_class;
  info : BuildInfo;
  ckey : string;
}.

(** [x or default] on an optional string. *)
Definition str_or (x : option string) (default : string) : string :=
  match x with
  | Some s => if PyStr.truthy s then s else default
  | None => default
  end.

(** [btype_cls(info, ckey)] *)
Definition new (c : build_class) (i : BuildInfo) (k : option string) : BuildType :=
  {| cls := c; info := i; ckey := str_or k (NAME c) |}.

Definition nl : string := String "010"%char "".

Definition get_default_config_name (self : BuildType) : string := "latest".

Definition pad2 (n : nat) : string :=
  if decide (n < 10) then "0" +:+ pretty n else pretty n.

(** [date.strftime("config_%Y-%m-%d")] *)
Definition strftime_config (date : nat * nat * nat) : string :=
  let '(y, m, d) := date in
  "config_" +:+ pretty y +:+ "-" +:+ pad2 m +:+ "-" +:+ pad2 d.

Definition get_default_backup_name (self : BuildType) : M string := λ w,
  let date_today := w_today w in
  (Return (strftime_config date_today), w).

Definition get_build_config_file_path (self : BuildType) : path :=
  (build_dir (info self), BUILD_CONFIG_FILENAME (cls self)).

Definition get_config_dir_path (self : BuildType) : string :=
  if PyStr.truthy (ckey self)
  then PyStr.join (config_root (info self)) (ckey self)
  else config_root (info self).

Definition buildroot_header : string := "# Makefile for buildroot".

(** [open(p, "rt")] followed by [fh.readline().strip()]; the text is the
    file's bytes, one character each. *)
Definition read_first_line (p : path) : M string :=
  do c <- open_rb p;
  ret (PyStr.strip PyStr.isspace (PyStr.readline (String.string_of_list_byte c))).

(** [self.detect(guess_ckey)]: the answer and the instance, whose key the
    generic variant may have replaced. *)
Definition detect (self : BuildType) (guess_ckey : bool) : M (bool * BuildType) :=
  match cls self with
  | LinuxBuildType => ret (false, self)
  | BuildrootBuildType | BuildrootBusyboxBuildType =>
      try_except
        (do first_line <- read_first_line (src_dir (info self), "Makefile");
         ret (bool_decide (first_line = buildroot_header), self))
        FileNotFoundError
        (ret (false, self))
  | GenericBuildType =>
      ret (true,
           if guess_ckey
           then {| cls := cls self; info := info self;
                   ckey := PyStr.partition_head "."%char
                             (PyStr.strip (PyStr.is_char "."%char)
                                (PyStr.basename (build_dir (info self)))) |}
           else self)
  end.

Definition KNOWN_BUILD_TYPES : list build_class :=
  [ LinuxBuildType;
    BuildrootBuildType;
    BuildrootBusyboxBuildType;   (* must be listed after BuildrootBuildType *)
    GenericBuildType ].

(** [d[k] = v] on a [collections.OrderedDict]: a new key goes last, a
    known key keeps its place. *)
Fixpoint odict_set {V} (k : string) (v : V) (m : list (string * V)) : list (string * V) :=
  match m with
  | [] => [(k, v)]
  | (k', v') :: r =>
      if decide (k' = k) then (k, v) :: r else (k', v') :: odict_set k v r
  end.

Definition get_build_type_map : list (string * build_class) * gmap string build_class :=
  foldl (λ '(bmap, bmap_alias) c,
           let '(bmap, bmap_alias) :=
             if PyStr.truthy (NAME c)
             then (odict_set (NAME c) c bmap, <[NAME c := c]> bmap_alias)
             else (bmap, bmap_alias) in
           (bmap, foldl (λ m a, <[a := c]> m) bmap_alias (ALIASES c)))
        ([], ∅) KNOWN_BUILD_TYPES.

(** The [for ... else] of [main] over [build_type_map.values()]. *)
Fixpoint probe_build_types (i : BuildInfo) (classes : list build_class) : M BuildType :=
  match classes with
  | [] => raise (NotImplementedError ("no build type found for " +:+ src_dir i))
  | c :: rest =>
      do (ok, build_type) <- detect (new c i None) true;
      if ok : bool then ret build_type else probe_build_types i rest
  end.

(** [arg_config == "auto"] compares the parsed argument namespace with a
    string and is false whatever the command line was. *)
Definition arg_config_eq_auto : bool := false.

(** Lines 451-472 of [main]: [arg_type] is [arg_config.type] after its
    normalisation ([None] when the option is absent). *)
Definition select_build_type (i : BuildInfo) (arg_type : option string) : M BuildType :=
  let '(build_type_map, build_type_alias_map) := get_build_type_map in
  match arg_type with
  | Some t =>
      if negb (PyStr.truthy t) || arg_config_eq_auto
      then probe_build_types i (build_type_map.*2)
      else match build_type_alias_map !! t with
           | Some c =>
               do (ok, build_type) <- detect (new c i None) false;
               if ok : bool then ret build_type
               else raise (RuntimeError "build type mismatch" (NAME (cls build_type)))
           | None =>
               do (ok, build_type) <- detect (new GenericBuildType i (Some t)) true;
               if ok : bool then ret build_type
               else raise (RuntimeError "build type mismatch" (NAME (cls build_type)))
           end
  | None => probe_build_types i (build_type_map.*2)
  end.

(** ** The config-store scanner *)

(** An [os.DirEntry]: [e.name] and [e.path]. *)
Record DirEntry := {
  name  : string;
  epath : path;
}.

Global Instance DirEntry_eq_dec : EqDecision DirEntry.
Proof. solve_decision. Defined.

(** The condition of the dict comprehension, for a non-empty name. *)
Definition keep_name (n : string) : bool :=
  match n with
  | "" => true
  | String c _ => negb (bool_decide (c = "."%char))
  end
  && negb (PyStr.startswith n "README")
  && negb (PyStr.endswith n ".tmp").

(** [self.list_config_dir(config_dir)].  [e.name[0]] raises [IndexError]
    on an empty name, before the other two tests are made. *)
Definition list_config_dir (config_dir : string) : M (gmap string DirEntry) :=
  do d <- os_scandir config_dir;
  if is_file d "" then raise IndexError
  else ret (map_imap (λ n _, if is_file d n && keep_name n
                             then Some {| name := n; epath := (config_dir, n) |}
                             else None) d).

(** [self.get_config_dir(verbose)] *)
Definition get_config_dir (self : BuildType) (verbose : bool)
  : M (string * option (gmap string DirEntry)) :=
  let cdir := get_config_dir_path self in
  do cmap <- try_except
               (do m <- list_config_dir cdir; ret (Some m))
               FileNotFoundError
               ((if verbose
                 then sys_stderr_write ("config store directory missing: " +:+ cdir +:+ nl)
                 else ret tt) ;;
                ret None);
  ret (cdir, cmap).

(** [not cmap]: [None] and the empty dict are both false. *)
Definition not_cmap (cmap : option (gmap string DirEntry)) : bool :=
  match cmap with
  | None => true
  | Some m => bool_decide (m = ∅)
  end.

(** ** The file copier *)

Definition default_bsize : nat := 2 ^ 14.

(** [while block: os.write(tmp_fd, block); block = fh.read(bsize)] *)
Fixpoint write_loop (fuel bsize tmp_fd : nat) (block fh : bytes) : M unit :=
  match block with
  | [] => ret tt
  | _ :: _ =>
      match fuel with
      | O => raise OutOfFuel
      | S fuel' =>
          os_write tmp_fd block ;;
          do (block', fh') <- fh_read bsize fh;
          write_loop fuel' bsize tmp_fd block' fh'
      end
  end.

(** The two locals the [finally] clause of [copy_file] looks at. *)
Record copy_locals := {
  tmp_fd       : option nat;
  tmp_filepath : option path;
}.

(** The [try] suite: its outcome and the locals as it leaves them. *)
Definition copy_file_try (src dst : path) (bsize fd : nat) (tmp : path)
  : world → result unit * copy_locals * world := λ w,
  match (do fh <- open_rb src;
         do (block, fh) <- fh_read bsize fh;
         write_loop (S (length fh)) bsize fd block fh) w with
  | (Raise e, w) => (Raise e, {| tmp_fd := Some fd; tmp_filepath := Some tmp |}, w)
  | (Return _, w) =>
      match os_close fd w with
      | (Raise e, w) => (Raise e, {| tmp_fd := Some fd; tmp_filepath := Some tmp |}, w)
      | (Return _, w) =>
          match os_replace tmp dst w with
          | (Raise e, w) => (Raise e, {| tmp_fd := None; tmp_filepath := Some tmp |}, w)
          | (Return _, w) => (Return tt, {| tmp_fd := None; tmp_filepath := None |}, w)
          end
      end
  end.

(** The [finally] suite. *)
Definition copy_file_finally (l : copy_locals) : M unit :=
  match tmp_fd l with
  | Some fd => os_close fd
  | None => ret tt
  end ;;
  match tmp_filepath l with
  | Some p => os_unlink p
  | None => ret tt
  end.

(** [self.copy_file(src, dst, bsize=bsize)].  An exception raised by the
    [finally] suite replaces the one that was on its way out. *)
Definition copy_file (src dst : path) (bsize : nat) : M unit :=
  sys_stdout_write (path_str src +:+ " -> " +:+ path_str dst +:+ nl) ;;
  let dst_dir := dst.1 in
  do (fd, tmp) <- mkstemp ".tmp" dst_dir;
  λ w, let '(r, l, w1) := copy_file_try src dst bsize fd tmp w in
       match copy_file_finally l w1 with
       | (Raise e, w2) => (Raise e, w2)
       | (Return _, w2) => (r, w2)
       end.

(** ** List and restore *)

(** [print(s)] *)
Definition print (s : string) : M unit := sys_stdout_write (s +:+ nl).

(** The methods return [False] or fall off their end ([None]). *)
Definition py_False : option bool := Some false.
Definition py_None : option bool := None.

Definition entry_le (a b : DirEntry) : Prop := String.le (name a) (name b).

Global Instance entry_le_dec : RelDecision entry_le.
Proof. intros a b. unfold entry_le. apply _. Defined.

Definition run_list (self : BuildType) (long_format : bool) : M (option bool) :=
  let get_entry_str := if long_format then (λ e, path_str (epath e)) else name in
  do (cdir, cmap) <- get_config_dir self true;
  match cmap with
  | None => ret py_False
  | Some m =>
      if not_cmap cmap then ret py_False
      else foldr (λ entry k, print (get_entry_str entry) ;; k) (ret py_None)
                 (merge_sort entry_le (map_to_list m).*2)
  end.

Definition run_config (self : BuildType) (name : option string) : M (option bool) :=
  let name := str_or name (get_default_config_name self) in
  do (cdir, cmap) <- get_config_dir self true;
  match cmap with
  | None => ret py_False
  | Some m =>
      if not_cmap cmap then ret py_False
      else match m !! name with
           | None =>
               sys_stderr_write ("config file not found: " +:+ name +:+ nl) ;;
               ret py_False
           | Some cfile =>
               let bcfile := get_build_config_file_path self in
               copy_file (epath cfile) bcfile default_bsize ;;
               ret py_None
           end
  end.

(** ** Hashing and backup *)

(** [hashlib.new("sha256")]: the digest of a byte string, in hexadecimal. *)
Class Hasher := sha256_hexdigest : bytes → string.

(** [while block: hashobj.update(block); block = fh.read(bsize)], the
    hash object being the bytes it was fed. *)
Fixpoint hash_loop (fuel bsize : nat) (hashobj block fh : bytes) : M bytes :=
  match block with
  | [] => ret hashobj
  | _ :: _ =>
      match fuel with
      | O => raise OutOfFuel
      | S fuel' =>
          do (block', fh') <- fh_read bsize fh;
          hash_loop fuel' bsize (hashobj ++ block) block' fh'
      end
  end.

Definition get_file_hash `{Hasher} (filepath : path) (bsize : nat) : M string :=
  do fh <- open_rb filepath;
  do (block, fh) <- fh_read bsize fh;
  do hashobj <- hash_loop (S (length fh)) bsize [] block fh;
  ret (sha256_hexdigest hashobj).

(** The generator [fgen(basename)], by position. *)
Definition fgen (basename : string) (i : nat) : string :=
  match i with
  | O => basename
  | S _ => basename +:+ "-r" +:+ pretty i
  end.

(** The loop [for name in fgen(basename)] from its [i]-th candidate on:
    the name it stops at and [want_copy]. *)
Fixpoint probe_names `{Hasher} (fuel i : nat) (basename : string)
    (cmap : gmap string DirEntry) (bcfile_hash : string) : M (string * bool) :=
  match fuel with
  | O => raise OutOfFuel
  | S fuel' =>
      let name := fgen basename i in
      match cmap !! name with
      | None => ret (name, true)
      | Some cfile =>
          do cfile_hash <- get_file_hash (epath cfile) default_bsize;
          if decide (bcfile_hash = cfile_hash)
          then sys_stdout_write ("File not changed: " +:+ name +:+ nl) ;;
               ret (name, false)
          else probe_names fuel' (S i) basename cmap bcfile_hash
      end
  end.

Definition run_git_commit_file (dirpath : string) (filepaths : list string)
    (commit_text : string) : M unit :=
  subprocess_run_check (["git"; "add"] ++ filepaths) ;;
  subprocess_run_check (["git"; "commit"; "-m"; commit_text] ++ filepaths).

Definition run_backup `{Hasher} (self : BuildType) (name : option string) : M (option bool) :=
  do name <- match name with
             | Some n => if PyStr.truthy n then ret n else get_default_backup_name self
             | None => get_default_backup_name self
             end;
  let bcfile := get_build_config_file_path self in
  do bcfile_hash <- get_file_hash bcfile default_bsize;
  do (cdir, cmap) <- get_config_dir self false;
  do (name, want_copy) <-
    match cmap with
    | None =>
        (* cdir does not exist yet *)
        os_makedirs cdir ;; ret (name, true)
    | Some m =>
        match m !! name with
        | Some _ => probe_names (S (size m)) 0 name m bcfile_hash
        | None => ret (name, false)
        end
    end;
  let cfile := (cdir, name) in
  let cfile_link := (cdir, get_default_config_name self) in
  if want_copy : bool then
    copy_file bcfile cfile default_bsize ;;
    try_except (os_unlink cfile_link) FileNotFoundError (ret tt) ;;
    os_symlink cfile.2 cfile_link ;;
    do is_git <- check_is_git_dir cdir;
    (if is_git : bool
     then run_git_commit_file cdir [path_str cfile; path_str cfile_link] "update config"
     else ret tt) ;;
    ret py_None
  else ret py_None.

(** ** Example worlds *)

Definition bytes_of (s : string) : bytes := String.list_byte_of_string s.

(** A stand-in digest for the examples: the bytes themselves. *)
Definition plain_hasher : Hasher := String.string_of_list_byte.

Definition empty_world : world :=
  {| w_dirs := ∅; w_fds := ∅; w_stdout := []; w_stderr := []; w_faults := [];
     w_tmpnames := ["aaaaaaaa"; "bbbbbbbb"]; w_git_dirs := ∅; w_cmds := [];
     w_today := (2024, 1, 1) |}.

Definition demo_info : BuildInfo :=
  {| src_dir := "/src/app"; build_dir := "/build/.foo.bar"; config_root := "/cfg" |}.

Definition with_dirs (ds : gmap string directory) : world :=
  set_dirs (λ _, ds) empty_world.

(** ** The vocabulary of the statements *)

(** The spec's words, one function each: the name with its leading dots
    removed, and a name cut at its first dot. *)
Fixpoint strip_leading_dots (s : string) : string :=
  match s with
  | String "." r => strip_leading_dots r
  | _ => s
  end.

Fixpoint truncate_at_first_dot (s : string) : string :=
  match s with
  | "" => ""
  | String "." _ => ""
  | String c r => String c (truncate_at_first_dot r)
  end.

(** The key the spec describes for the generic variant. *)
Definition guessed_key (build_dir : string) : string :=
  truncate_at_first_dot (strip_leading_dots (PyStr.basename build_dir)).

(** [n] names a regular file of [d] once symbolic links are followed. *)
Definition regular_file (d : directory) (n : string) : Prop :=
  ∃ c, resolve d MAXSYMLINKS n = Some (File c).

(** [n] starts, respectively ends, with [p]. *)
Definition starts_with (p n : string) : Prop := ∃ r, n = p +:+ r.

Definition ends_with (p n : string) : Prop := ∃ r, n = r +:+ p.

(** The lines the program writes to its two streams. *)
Definition missing_msg (self : BuildType) : string :=
  "config store directory missing: " +:+ get_config_dir_path self +:+ nl.

Definition not_found_msg (n : string) : string :=
  "config file not found: " +:+ n +:+ nl.

(** The name a backup request stands for: the one given, or today's
    default when none (or the empty string) is given. *)
Definition backup_name (n : option string) (w : world) : string :=
  str_or n (strftime_config (w_today w)).

(** Candidate [n] is a key of the map and its stored file hashes to
    something else than [h], respectively to [h]. *)
Definition differs `{Hasher} (w : world) (m : gmap string DirEntry) (h n : string) : Prop :=
  ∃ e c, m !! n = Some e
         ∧ file_content (w_dirs w) (epath e) = Return c
         ∧ sha256_hexdigest c ≠ h.

Definition matches `{Hasher} (w : world) (m : gmap string DirEntry) (h n : string) : Prop :=
  ∃ e c, m !! n = Some e
         ∧ file_content (w_dirs w) (epath e) = Return c
         ∧ sha256_hexdigest c = h.

Definition unchanged_msg (n : string) : string := "File not changed: " +:+ n +:+ nl.

Definition copy_msg (src dst : path) : string :=
  path_str src +:+ " -> " +:+ path_str dst +:+ nl.

(** The external commands of a backup that copied: the working-tree
    query, and the two git calls when the store is under git. *)
Definition git_cmds (gd : gset string) (cdir : string) (files : list string)
  : list (list string) :=
  ["git"; "rev-parse"; "--show-toplevel"]
  :: (if bool_decide (cdir ∈ gd)
      then [ ["git"; "add"] ++ files; ["git"; "commit"; "-m"; "update config"] ++ files ]
      else []).

(** ** Example stores *)

Definition build_only : directory := {[ ".config" := File (bytes_of "CONFIG_A=y") ]}.

Definition generic_self : BuildType := new GenericBuildType demo_info None.

Definition entry_of (n : string) : DirEntry := {| name := n; epath := ("/cfg/generic", n) |}.

Definition store_mixed : directory :=
  <["a" := File (bytes_of "A")]> (<["b" := Symlink "a"]> (<[".hidden" := File []]>
  (<["README.md" := File []]> (<["x.tmp" := File []]> (<["sub" := Dir]>
  (<["dangling" := Symlink "nowhere"]> ∅)))))).

Definition mixed_world : world :=
  with_dirs (<["/cfg/generic" := store_mixed]> {[ "/build/.foo.bar" := build_only ]}).

Definition buildroot_tree : world :=
  with_dirs {[ "/src/app" := {[ "Makefile" :=
    File (bytes_of ("# Makefile for buildroot" +:+ nl +:+ "#" +:+ nl)) ]} ]}.

Definition store_filtered : directory :=
  <[".hidden" := File []]> (<["README.md" := File []]> (<["x.tmp" := File []]>
  {[ "sub" := Dir ]})).

Definition filtered_world : world :=
  with_dirs (<["/cfg/generic" := store_filtered]> {[ "/build/.foo.bar" := build_only ]}).

Definition empty_store_world : world :=
  with_dirs (<["/cfg/generic" := ∅]> {[ "/build/.foo.bar" := build_only ]}).

Definition store_r1 : directory :=
  <["config_2024-01-01" := File (bytes_of "CONFIG_A=n")]>
  (<["config_2024-01-01-r1" := File (bytes_of "CONFIG_A=y")]>
  {[ "latest" := Symlink "config_2024-01-01-r1" ]}).

Definition r1_world : world :=
  with_dirs (<["/cfg/generic" := store_r1]> {[ "/build/.foo.bar" := build_only ]}).

Definition store_one : directory :=
  <["config_2024-01-01" := File (bytes_of "CONFIG_A=n")]>
  {[ "latest" := Symlink "config_2024-01-01" ]}.

Definition collision_world : world :=
  with_dirs (<["/cfg/generic" := store_one]> {[ "/build/.foo.bar" := build_only ]}).

Definition store_one_map : gmap string DirEntry :=
  <["config_2024-01-01" := entry_of "config_2024-01-01"]>
  {[ "latest" := entry_of "latest" ]}.

Definition close_fails_world : world :=
  set_faults [false; false; false; false; true] collision_world.

(** ** Further vocabulary *)

(** The text of a file up to its first line terminator. *)
Fixpoint first_line (s : string) : string :=
  match s with
  | "" => ""
  | String c r =>
      if decide (c = "010"%char) then ""
      else if decide (c = "013"%char) then ""
      else String c (first_line r)
  end.

(** The names that select a variant on the command line. *)
Definition alias_table : list (string * build_class) :=
  [ ("linux", LinuxBuildType);
    ("buildroot", BuildrootBuildType); ("br", BuildrootBuildType);
    ("buildroot-busybox", BuildrootBusyboxBuildType);
    ("br-busybox", BuildrootBusyboxBuildType); ("brb", BuildrootBusyboxBuildType);
    ("generic", GenericBuildType) ].

Definition makefile_world (text : string) : world :=
  with_dirs {[ "/src/app" := {[ "Makefile" := File (bytes_of text) ]} ]}.

(** The Makefile of the source directory, when there is one to open, holds
    ASCII text: each byte is then one character of the text read. *)
Definition is_ascii_text (content : bytes) : bool :=
  forallb (λ b, bool_decide (Byte.to_N b < 128)%N) content.

Definition ascii_makefile (i : BuildInfo) (w : world) : Prop :=
  ∀ content, file_content (w_dirs w) (src_dir i, "Makefile") = Return content →
             is_ascii_text content = true.

(** The instance the generic detector leaves when it guesses the key. *)
Definition generic_guessed (i : BuildInfo) : BuildType :=
  {| cls := GenericBuildType; info := i; ckey := guessed_key (build_dir i) |}.

(** [w'] has the same entry as [w] under every path outside [X]. *)
Definition touches_only (X : path → Prop) (w w' : world) : Prop :=
  ∀ p, ¬ X p → lookup_node (w_dirs w') p = lookup_node (w_dirs w) p.

(** A name that is one path component, as the names of this model are. *)
Definition plain_name (n : string) : Prop :=
  PyStr.contains "/"%char n = false ∧ n ≠ "" ∧ n ≠ "." ∧ n ≠ "..".

Definition no_store_world : world :=
  with_dirs {[ "/build/.foo.bar" := build_only ]}.

(** The last character of a string. *)
Fixpoint last_char (s : string) : option ascii :=
  match s with
  | "" => None
  | String c r =>
      match last_char r with
      | None => Some c
      | x => x
      end
  end.

(** A store and no build directory. *)
Definition no_build_dir_world : world :=
  with_dirs {[ "/cfg/generic" := store_one ]}.

(** * Properties *)

(** ** String methods *)

Section strings.
Implicit Types (s p r : string) (c : ascii).

Lemma startswith_spec s p :
  PyStr.startswith s p = true ↔ ∃ r, s = p +:+ r.
Proof.
  revert s. induction p as [|a p IH]; intros s; simpl.
  - split; [intros _; by exists s | done].
  - destruct s as [|b s]; simpl.
    + split; [done | intros [r Hr]; discriminate].
    + destruct (decide (a = b)) as [->|Hne].
      * rewrite IH. split; intros [r Hr]; exists r; [by rewrite Hr | by injection Hr].
      * split; [done | intros [r Hr]; injection Hr; congruence].
Qed.

Lemma endswith_spec s p :
  PyStr.endswith s p = true ↔ ∃ r, s = r +:+ p.
Proof.
  induction s as [|b s IH]; simpl.
  - destruct (decide ("" = p)) as [<-|Hne].
    + split; [intros _; by exists "" | done].
    + split; [done | intros [[|??] Hr]; simpl in Hr; [done | discriminate]].
  - destruct (decide (String b s = p)) as [<-|Hne].
    + split; [intros _; by exists "" | done].
    + rewrite IH. split.
      * intros [r ->]. by exists (String b r).
      * intros [[|b' r] Hr]; simpl in Hr; [done|].
        injection Hr as -> ->. by exists r.
Qed.

Lemma rstrip_partition_head c s :
  PyStr.partition_head c (PyStr.rstrip (PyStr.is_char c) s)
  = PyStr.partition_head c s.
Proof.
  induction s as [|b s IH]; simpl; [done|].
  destruct (PyStr.rstrip (PyStr.is_char c) s) as [|b' s'] eqn:Hr.
  - simpl in IH. unfold PyStr.is_char. case_bool_decide as Hb; simpl.
    + by rewrite decide_True.
    + rewrite !decide_False by done. by rewrite <- IH.
  - simpl. destruct (decide (b = c)); [done|].
    f_equal. by rewrite <- IH.
Qed.

End strings.

(** ** C9: the key the generic detector guesses *)

Lemma lstrip_dots s : PyStr.lstrip (PyStr.is_char "."%char) s = strip_leading_dots s.
Proof.
  induction s as [|c s IH]; simpl; [done|].
  unfold PyStr.is_char at 1. case_bool_decide as Hc.
  - subst c. done.
  - destruct c as [[] [] [] [] [] [] [] []]; done.
Qed.

Lemma partition_head_dot s : PyStr.partition_head "."%char s = truncate_at_first_dot s.
Proof.
  induction s as [|c s IH]; simpl; [done|].
  destruct (decide (c = "."%char)) as [->|Hc]; [done|].
  rewrite IH. destruct c as [[] [] [] [] [] [] [] []]; done.
Qed.

(** C9: for every build directory (and whatever key the instance had),
    the generic detector called with [guess_ckey] set answers true and
    leaves as key the basename of the build directory with its leading
    dots stripped, cut at its first dot; [.foo.bar] gives [foo].  Without
    [guess_ckey] it answers true as well. *)
Theorem C9_generic_detect_guesses_key (i : BuildInfo) (k : option string) (w : world) :
  detect (new GenericBuildType i k) true w
  = (Return (true, {| cls := GenericBuildType; info := i;
                      ckey := guessed_key (build_dir i) |}), w)
  ∧ guessed_key "/some/where/.foo.bar" = "foo"
  ∧ (∀ g, ∃ self, detect (new GenericBuildType i k) g w = (Return (true, self), w)).
Proof.
  split; [|split].
  - unfold detect, ret, guessed_key; simpl. do 3 f_equal.
    unfold PyStr.strip. by rewrite rstrip_partition_head, partition_head_dot, lstrip_dots.
  - reflexivity.
  - intros g. unfold detect, ret; simpl. eauto.
Qed.

(** ** The monad on a quiet environment *)

Lemma fault_with_quiet e w : w_faults w = [] → fault_with e w = (Return tt, w).
Proof. intros H. unfold fault_with. by rewrite H. Qed.

Lemma set_dirs_id w : set_dirs (λ ds, ds) w = w.
Proof. by destruct w. Qed.

Lemma bind_Return {A B} (m : M A) (k : A → M B) w a w' :
  m w = (Return a, w') → bind m k w = k a w'.
Proof. intros H. unfold bind. by rewrite H. Qed.

Lemma bind_Raise {A B} (m : M A) (k : A → M B) w e w' :
  m w = (Raise e, w') → bind m k w = (Raise e, w').
Proof. intros H. unfold bind. by rewrite H. Qed.

(** ** C8: what the scanner keeps *)

Lemma is_file_spec d n : is_file d n = true ↔ regular_file d n.
Proof.
  unfold is_file, regular_file.
  destruct (resolve d MAXSYMLINKS n) as [[c| |]|]; split; try done; eauto.
  all: by intros [? ?].
Qed.

Lemma regular_file_lookup d n : regular_file d n → is_Some (d !! n).
Proof.
  intros [c Hc]. unfold MAXSYMLINKS in Hc. simpl in Hc.
  destruct (d !! n); [eauto | done].
Qed.

Lemma keep_name_spec n :
  n ≠ "" →
  keep_name n = true
  ↔ ¬ starts_with "." n ∧ ¬ starts_with "README" n ∧ ¬ ends_with ".tmp" n.
Proof.
  intros Hn. unfold keep_name, starts_with, ends_with.
  destruct n as [|c r]; [done|].
  rewrite !andb_true_iff, !negb_true_iff, <- !not_true_iff_false.
  rewrite startswith_spec, endswith_spec, bool_decide_eq_true.
  split.
  - intros [[Hc ?] ?]. split_and!; [|done..].
    intros [r' Hr']. simpl in Hr'. by injection Hr'.
  - intros (Hc & ? & ?). split_and!; [|done..].
    intros ->. apply Hc. by exists r.
Qed.

Lemma list_config_dir_present config_dir d w :
  w_dirs w !! config_dir = Some d →
  d !! "" = None →
  list_config_dir config_dir w
  = (Return (map_imap (λ n _, if is_file d n && keep_name n
                              then Some {| name := n; epath := (config_dir, n) |}
                              else None) d), w).
Proof.
  intros Hd Hnil. unfold list_config_dir, bind, os_scandir. rewrite Hd.
  unfold is_file at 1, MAXSYMLINKS. simpl. by rewrite Hnil.
Qed.

Lemma list_config_dir_missing config_dir w :
  w_dirs w !! config_dir = None →
  list_config_dir config_dir w = (Raise FileNotFoundError, w).
Proof. intros Hd. unfold list_config_dir, bind, os_scandir. by rewrite Hd. Qed.

(** C8: for a config-store directory with any mix of entries, the scanner
    returns a map (and leaves the world alone) whose keys are exactly the
    names of the directory that are regular files once links are followed,
    do not start with a dot, do not start with README and do not end with
    .tmp; each key is mapped to the entry of that name in that directory. *)
Theorem C8_scanner_keeps_exactly (config_dir : string) (d : directory) (w : world) :
  w_dirs w !! config_dir = Some d →
  d !! "" = None →
  ∃ cmap,
    list_config_dir config_dir w = (Return cmap, w)
    ∧ (∀ n, is_Some (cmap !! n)
            ↔ is_Some (d !! n) ∧ regular_file d n
              ∧ ¬ starts_with "." n ∧ ¬ starts_with "README" n ∧ ¬ ends_with ".tmp" n)
    ∧ (∀ n e, cmap !! n = Some e → name e = n ∧ epath e = (config_dir, n)).
Proof.
  intros Hd Hnil. eexists. split; [by apply list_config_dir_present|].
  split.
  - intros n. rewrite map_lookup_imap.
    destruct (decide (n = "")) as [->|Hn].
    { rewrite Hnil. simpl. split; [by intros [? ?] | by intros [[? ?] _]]. }
    destruct (d !! n) as [x|] eqn:Hx; simpl.
    + rewrite <- (keep_name_spec n Hn), <- is_file_spec.
      destruct (is_file d n), (keep_name n); simpl; split;
        try (intros [? ?]; done); try (intros (_ & ? & ?); done); eauto.
    + split; [by intros [? ?] | by intros [[? ?] _]].
  - intros n e. rewrite map_lookup_imap.
    destruct (d !! n); simpl; [|done].
    destruct (is_file d n && keep_name n); [|done].
    by intros [= <-].
Qed.

Lemma C8_scanner_keeps_exactly_witness :
  ∃ cmap,
    list_config_dir "/cfg/generic" (with_dirs {["/cfg/generic" := store_mixed]})
    = (Return cmap, with_dirs {["/cfg/generic" := store_mixed]})
    ∧ (∀ n, is_Some (cmap !! n)
            ↔ is_Some (store_mixed !! n) ∧ regular_file store_mixed n
              ∧ ¬ starts_with "." n ∧ ¬ starts_with "README" n ∧ ¬ ends_with ".tmp" n)
    ∧ (∀ n e, cmap !! n = Some e → name e = n ∧ epath e = ("/cfg/generic", n)).
Proof.
  apply (C8_scanner_keeps_exactly "/cfg/generic" store_mixed); reflexivity.
Defined.

(** ** C4, C5: choosing the build type *)

Lemma detect_world self g w : (detect self g w).2 = w.
Proof.
  unfold detect, try_except, read_first_line, bind, open_rb, ret.
  destruct (cls self); simpl; try done.
  all: destruct (file_content _ _) as [c|e]; simpl; try done.
  all: by destruct (decide (e = FileNotFoundError)).
Qed.

Lemma detect_cls self g w b s w' :
  detect self g w = (Return (b, s), w') → cls s = cls self ∧ w' = w.
Proof.
  intros H. pose proof (detect_world self g w) as Hw. rewrite H in Hw.
  simpl in Hw. split; [|done]. clear Hw. revert H.
  unfold detect, try_except, read_first_line, bind, open_rb, ret.
  destruct (cls self) eqn:Hc; simpl.
  1: by intros [= _ <-].
  3: intros [= _ <-]; by destruct g.
  all: destruct (file_content _ _) as [c|e]; simpl; [by intros [= _ <-]|].
  all: destruct (decide (e = FileNotFoundError)); [by intros [= _ <-] | done].
Qed.

Lemma build_type_map_values : (get_build_type_map.1).*2 = KNOWN_BUILD_TYPES.
Proof. reflexivity. Qed.

Lemma build_type_alias_linux : get_build_type_map.2 !! "linux" = Some LinuxBuildType.
Proof. reflexivity. Qed.

Lemma select_build_type_auto i arg_type w :
  arg_type = None ∨ arg_type = Some "" →
  select_build_type i arg_type w = probe_build_types i KNOWN_BUILD_TYPES w.
Proof.
  intros H. unfold select_build_type.
  pose proof build_type_map_values as Hv.
  destruct get_build_type_map as [bm am]. simpl in Hv.
  destruct H as [-> | ->]; simpl; by rewrite Hv.
Qed.

(** The loop of [main] returns the instance of the first class of the
    list whose detector answers true. *)
Lemma probe_build_types_first i classes w bt w' :
  probe_build_types i classes w = (Return bt, w')
  ↔ w' = w
    ∧ ∃ pre post,
        classes = pre ++ cls bt :: post
        ∧ Forall (λ c, ∃ s, detect (new c i None) true w = (Return (false, s), w)) pre
        ∧ detect (new (cls bt) i None) true w = (Return (true, bt), w).
Proof.
  induction classes as [|c rest IH]; simpl.
  - unfold raise. split; [done|]. intros (_ & [|??] & ? & ? & _); done.
  - unfold bind at 1.
    destruct (detect (new c i None) true w) as [[[ok s]|e] w1] eqn:Hd.
    + apply detect_cls in Hd as Hc. destruct Hc as [Hc ->]. simpl in Hc.
      destruct ok.
      * unfold ret. split.
        -- intros [= <- <-]. split; [done|]. exists [], rest.
           rewrite Hc. split_and!; [done|constructor|]. by rewrite Hd.
        -- intros (-> & pre & post & Hl & Hpre & Hbt).
           destruct pre as [|c' pre]; simpl in Hl; injection Hl as -> Hl.
           ++ rewrite Hd in Hbt. by injection Hbt as ->.
           ++ apply Forall_cons in Hpre as [[s' Hs'] _]. rewrite Hd in Hs'. done.
      * rewrite IH. split.
        -- intros (-> & pre & post & -> & Hpre & Hbt). split; [done|].
           exists (c :: pre), post. split_and!; [done| |done].
           constructor; [|done]. eauto.
        -- intros (-> & pre & post & Hl & Hpre & Hbt). split; [done|].
           destruct pre as [|c' pre]; simpl in Hl; injection Hl as -> Hl.
           ++ rewrite Hd in Hbt. done.
           ++ apply Forall_cons in Hpre as [_ Hpre]. eauto.
    + split; [done|]. intros (-> & pre & post & Hl & Hpre & Hbt).
      destruct pre as [|c' pre]; simpl in Hl; injection Hl as -> Hl.
      * rewrite Hd in Hbt. done.
      * apply Forall_cons in Hpre as [[s' Hs'] _]. rewrite Hd in Hs'. done.
Qed.

(** C4: with no type given, the variants are tried in the order linux,
    buildroot, buildroot-busybox, generic, each with [guess_ckey] set, and
    the instance returned is that of the first one whose detector answers
    true; a source tree that both the buildroot and the generic detector
    recognise is therefore handled as buildroot. *)
Theorem C4_auto_detection_order (i : BuildInfo) (arg_type : option string) (w : world) :
  arg_type = None ∨ arg_type = Some "" →
  (get_build_type_map.1).*2
  = [LinuxBuildType; BuildrootBuildType; BuildrootBusyboxBuildType; GenericBuildType]
  ∧ (∀ bt w',
       select_build_type i arg_type w = (Return bt, w')
       ↔ w' = w
         ∧ ∃ pre post,
             (get_build_type_map.1).*2 = pre ++ cls bt :: post
             ∧ Forall (λ c, ∃ s, detect (new c i None) true w = (Return (false, s), w)) pre
             ∧ detect (new (cls bt) i None) true w = (Return (true, bt), w))
  ∧ (∀ sb sg,
       detect (new BuildrootBuildType i None) true w = (Return (true, sb), w) →
       detect (new GenericBuildType i None) true w = (Return (true, sg), w) →
       select_build_type i arg_type w = (Return (new BuildrootBuildType i None), w)).
Proof.
  intros Harg. split; [reflexivity|]. split.
  - intros bt w'. rewrite select_build_type_auto by done.
    rewrite build_type_map_values. apply probe_build_types_first.
  - intros sb sg Hb _. rewrite select_build_type_auto by done.
    apply probe_build_types_first. split; [done|].
    exists [LinuxBuildType], [BuildrootBusyboxBuildType; GenericBuildType].
    split_and!; [done| |].
    + constructor; [|constructor]. by eexists.
    + simpl. rewrite Hb. do 3 f_equal.
      revert Hb. unfold detect, try_except, read_first_line, bind, open_rb, ret. simpl.
      destruct (file_content _ _) as [c|e]; simpl; [by intros [= _ <-]|].
      destruct (decide (e = FileNotFoundError)); [by intros [= _ <-] | done].
Qed.

Lemma C4_auto_detection_order_witness :
  select_build_type demo_info None buildroot_tree
  = (Return (new BuildrootBuildType demo_info None), buildroot_tree).
Proof.
  apply (proj2 (proj2 (C4_auto_detection_order demo_info None buildroot_tree
                         (or_introl eq_refl)))
           (new BuildrootBuildType demo_info None)
           {| cls := GenericBuildType; info := demo_info; ckey := "foo" |});
    reflexivity.
Defined.

(** C5 (as the code has it): naming the type [linux] on the command line
    ends in the "build type mismatch" error whatever the source tree is,
    because the linux detector answers false for either value of
    [guess_ckey]. *)
Theorem C5_explicit_linux_is_rejected (i : BuildInfo) (w : world) :
  (∀ g, detect (new LinuxBuildType i None) g w = (Return (false, new LinuxBuildType i None), w))
  ∧ select_build_type i (Some "linux") w
    = (Raise (RuntimeError "build type mismatch" "linux"), w).
Proof.
  split; [done|].
  unfold select_build_type.
  pose proof build_type_alias_linux as Hl.
  destruct get_build_type_map as [bm am]. simpl in Hl. simpl. by rewrite Hl.
Qed.

(** ** C6, C10: restore and list when there is nothing to take *)

Lemma get_config_dir_inv self verbose w cdir cmap w1 :
  get_config_dir self verbose w = (Return (cdir, cmap), w1) →
  cdir = get_config_dir_path self
  ∧ match cmap with
    | Some m => w1 = w ∧ list_config_dir cdir w = (Return m, w)
    | None => w_dirs w !! cdir = None
              ∧ w1 = (if verbose then sys_stderr_write (missing_msg self) w else ret tt w).2
    end.
Proof.
  unfold get_config_dir, bind at 1, try_except, bind at 1.
  destruct (list_config_dir _ w) as [[m|e] w2] eqn:Hl.
  - unfold ret. intros [= <- <- <-]. split; [done|].
    assert (w2 = w) as ->; [|done].
    revert Hl. unfold list_config_dir, bind, os_scandir.
    destruct (w_dirs w !! _); [|done].
    destruct (is_file _ _); [done|]. by intros [= _ <-].
  - assert (w2 = w ∧ (e = FileNotFoundError → w_dirs w !! get_config_dir_path self = None))
      as [-> He].
    { revert Hl. unfold list_config_dir, bind, os_scandir.
      destruct (w_dirs w !! _); [|by intros [= <- <-]].
      destruct (is_file _ _); [|done]. by intros [= <- <-]. }
    destruct (decide (e = FileNotFoundError)) as [->|]; [|done].
    unfold bind, ret. destruct verbose; simpl; intros [= <- <- <-]; eauto.
Qed.

(** C6: a restore whose name (["latest"] when none is given) is not a key
    of the config-store mapping, the mapping of a missing directory
    included, returns [False] without raising and changes no directory,
    so the build-config file is as it was.  What reaches the diagnostic
    stream is the notice of [get_config_dir] for a missing directory, the
    "config file not found" line for a missing name, and nothing for an
    empty mapping. *)
Theorem C6_restore_absent_name_fails
    (self : BuildType) (n : option string) (w w1 : world)
    (cdir : string) (cmap : option (gmap string DirEntry)) :
  get_config_dir self true w = (Return (cdir, cmap), w1) →
  (∀ m, cmap = Some m → m !! str_or n "latest" = None) →
  ∃ w',
    run_config self n w = (Return py_False, w')
    ∧ w_dirs w' = w_dirs w
    ∧ lookup_node (w_dirs w') (get_build_config_file_path self)
      = lookup_node (w_dirs w) (get_build_config_file_path self)
    ∧ w_fds w' = w_fds w
    ∧ w_stdout w' = w_stdout w
    ∧ w_stderr w'
      = w_stderr w ++ match cmap with
                      | None => [missing_msg self]
                      | Some m => if decide (m = ∅) then []
                                  else [not_found_msg (str_or n "latest")]
                      end.
Proof.
  intros Hget Habs. unfold run_config, bind at 1. rewrite Hget.
  apply get_config_dir_inv in Hget as [-> Hc].
  destruct cmap as [m|].
  - destruct Hc as [-> _]. simpl. case_bool_decide as Hm.
    + exists w. rewrite decide_True by done. by rewrite app_nil_r.
    + unfold get_default_config_name. rewrite (Habs m eq_refl).
      rewrite decide_False by done.
      eexists. split; [reflexivity|]. done.
  - destruct Hc as [_ ->]. eexists. split; [reflexivity|]. done.
Qed.

Lemma C6_restore_absent_name_fails_witness :
  ∃ w',
    run_config generic_self (Some "zz") mixed_world = (Return py_False, w')
    ∧ w_dirs w' = w_dirs mixed_world
    ∧ w_stderr w' = [not_found_msg "zz"].
Proof.
  destruct (C6_restore_absent_name_fails generic_self (Some "zz") mixed_world mixed_world
              "/cfg/generic"
              (Some (<["a" := {| name := "a"; epath := ("/cfg/generic", "a") |}]>
                       {[ "b" := {| name := "b"; epath := ("/cfg/generic", "b") |} ]})))
    as (w' & H1 & H2 & _ & _ & _ & H3).
  - vm_compute. reflexivity.
  - intros m [= <-]. reflexivity.
  - exists w'. split_and!; [done..|]. rewrite H3. reflexivity.
Defined.

(** C10: when the config-store directory exists and the scanner finds
    nothing to keep in it, list and restore both return [False] and leave
    the whole world as it was: nothing is printed on either stream and no
    file is touched.  [False] is also what both return for a missing
    directory, where no directory changes either. *)
Theorem C10_empty_store_fails_like_missing
    (self : BuildType) (n : option string) (long_format : bool) (w : world) :
  list_config_dir (get_config_dir_path self) w = (Return ∅, w) →
  run_list self long_format w = (Return py_False, w)
  ∧ run_config self n w = (Return py_False, w)
  ∧ (∀ w0, w_dirs w0 !! get_config_dir_path self = None →
           (run_list self long_format w0).1 = Return py_False
           ∧ (run_config self n w0).1 = Return py_False
           ∧ w_dirs (run_list self long_format w0).2 = w_dirs w0
           ∧ w_dirs (run_config self n w0).2 = w_dirs w0).
Proof.
  intros Hl.
  assert (get_config_dir self true w
          = (Return (get_config_dir_path self, Some ∅), w)) as Hget.
  { unfold get_config_dir, bind at 1, try_except, bind at 1. by rewrite Hl. }
  split_and!.
  - unfold run_list. by rewrite (bind_Return _ _ _ _ _ Hget).
  - unfold run_config. by rewrite (bind_Return _ _ _ _ _ Hget).
  - intros w0 H0.
    assert (get_config_dir self true w0
            = (Return (get_config_dir_path self, None),
               (sys_stderr_write (missing_msg self) w0).2)) as Hget0.
    { unfold get_config_dir, bind at 1, try_except, bind at 1.
      by rewrite list_config_dir_missing. }
    unfold run_list, run_config. by rewrite !(bind_Return _ _ _ _ _ Hget0).
Qed.

Lemma C10_empty_store_fails_like_missing_witness :
  run_list generic_self true filtered_world = (Return py_False, filtered_world)
  ∧ run_config generic_self None filtered_world = (Return py_False, filtered_world).
Proof.
  destruct (C10_empty_store_fails_like_missing generic_self None true filtered_world)
    as (H1 & H2 & _).
  - vm_compute. reflexivity.
  - by split.
Defined.

(** ** Reading and hashing on a quiet environment *)

Lemma default_bsize_pos : 0 < default_bsize.
Proof. unfold default_bsize. apply Nat.neq_0_lt_0, Nat.pow_nonzero. done. Qed.

Lemma fh_read_quiet bsize fh w :
  w_faults w = [] →
  fh_read bsize fh w = (Return (take bsize fh, drop bsize fh), w).
Proof.
  intros H. unfold fh_read, fault.
  by rewrite (bind_Return _ _ _ _ _ (fault_with_quiet _ _ H)).
Qed.

Lemma take_nil_inv {A} n (l : list A) : 0 < n → take n l = [] → l = [].
Proof. destruct n, l; simpl; intros; (done || lia). Qed.

Lemma hash_loop_quiet fuel bsize hashobj block fh w :
  w_faults w = [] →
  0 < bsize →
  (block = [] → fh = []) →
  (block ≠ [] → length fh < fuel) →
  hash_loop fuel bsize hashobj block fh w = (Return (hashobj ++ block ++ fh), w).
Proof.
  intros Hq Hb. revert hashobj block fh.
  induction fuel as [|fuel IH]; intros hashobj block fh Hnil Hlen.
  - destruct block as [|x block]; [|specialize (Hlen ltac:(done)); lia].
    rewrite (Hnil eq_refl). simpl. by rewrite app_nil_r.
  - destruct block as [|x block].
    { rewrite (Hnil eq_refl). simpl. by rewrite app_nil_r. }
    cbn [hash_loop].
    rewrite (bind_Return _ _ _ _ _ (fh_read_quiet bsize fh w Hq)).
    rewrite IH.
    + by rewrite <- !(assoc_L (++)), take_drop.
    + intros Ht. apply take_nil_inv in Ht as ->; [by rewrite drop_nil | done].
    + intros Ht. specialize (Hlen ltac:(done)). rewrite length_drop.
      destruct fh; [by rewrite take_nil in Ht|]. simpl in *. lia.
Qed.

Lemma get_file_hash_quiet `{Hasher} p bsize c w :
  w_faults w = [] →
  0 < bsize →
  file_content (w_dirs w) p = Return c →
  get_file_hash p bsize w = (Return (sha256_hexdigest c), w).
Proof.
  intros Hq Hb Hc. unfold get_file_hash.
  rewrite (bind_Return _ _ w c w) by (unfold open_rb; by rewrite Hc).
  rewrite (bind_Return _ _ _ _ _ (fh_read_quiet bsize c w Hq)).
  erewrite bind_Return; [reflexivity|].
  rewrite hash_loop_quiet; try done.
  - simpl. by rewrite take_drop.
  - intros Ht. apply take_nil_inv in Ht as ->; [by rewrite drop_nil | done].
  - intros _. lia.
Qed.

(** ** Backup: the name and the entry map *)

Lemma backup_name_step self (n : option string) w :
  match n with
  | Some n => if PyStr.truthy n then ret n else get_default_backup_name self
  | None => get_default_backup_name self
  end w = (Return (backup_name n w), w).
Proof. unfold backup_name, str_or. destruct n as [n|]; [|done]. by destruct (PyStr.truthy n). Qed.

Lemma list_config_dir_inv config_dir w m w' :
  list_config_dir config_dir w = (Return m, w') →
  w' = w
  ∧ ∃ d, w_dirs w !! config_dir = Some d
         ∧ ∀ n, m !! n = (if is_file d n && keep_name n
                          then Some {| name := n; epath := (config_dir, n) |}
                          else None).
Proof.
  unfold list_config_dir, bind, os_scandir.
  destruct (w_dirs w !! config_dir) as [d|] eqn:Hd; [|done].
  destruct (is_file d "") eqn:Hnil; [done|].
  intros [= <- <-]. split; [done|]. exists d. split; [done|].
  intros n. rewrite map_lookup_imap.
  destruct (d !! n) eqn:Hn; simpl; [done|].
  unfold is_file, MAXSYMLINKS. simpl. by rewrite Hn.
Qed.

Lemma entry_content config_dir w m n e :
  list_config_dir config_dir w = (Return m, w) →
  m !! n = Some e →
  epath e = (config_dir, n) ∧ ∃ c, file_content (w_dirs w) (epath e) = Return c.
Proof.
  intros Hl He. apply list_config_dir_inv in Hl as (_ & d & Hd & Hm).
  rewrite Hm in He. destruct (is_file d n) eqn:Hf; simpl in He; [|done].
  destruct (keep_name n); [|done]. injection He as <-. simpl. split; [done|].
  apply is_file_spec in Hf as [c Hc]. exists c.
  unfold file_content. cbn [fst snd]. by rewrite Hd, Hc.
Qed.

Lemma get_config_dir_present self verbose w m :
  list_config_dir (get_config_dir_path self) w = (Return m, w) →
  get_config_dir self verbose w = (Return (get_config_dir_path self, Some m), w).
Proof.
  intros Hl. unfold get_config_dir, try_except.
  erewrite bind_Return; [reflexivity|]. simpl.
  by rewrite (bind_Return _ _ _ _ _ Hl).
Qed.

(** ** C1: a new name in an existing store *)

(** C1 (as the code has it): when the config-store directory exists and
    the requested name is not a key of its entry map, [run_backup] reads
    the build-config file, scans the store and returns with [want_copy]
    still false: the world is exactly as before, nothing is copied and no
    ["latest"] link is made. *)
Theorem C1_new_name_in_existing_store_not_copied `{Hasher}
    (self : BuildType) (n : option string) (w : world)
    (c : bytes) (m : gmap string DirEntry) :
  w_faults w = [] →
  file_content (w_dirs w) (get_build_config_file_path self) = Return c →
  list_config_dir (get_config_dir_path self) w = (Return m, w) →
  m !! backup_name n w = None →
  run_backup self n w = (Return py_None, w).
Proof.
  intros Hq Hc Hl Hn. unfold run_backup.
  rewrite (bind_Return _ _ _ _ _ (backup_name_step self n w)).
  rewrite (bind_Return _ _ _ _ _
             (get_file_hash_quiet _ _ _ _ Hq default_bsize_pos Hc)).
  rewrite (bind_Return _ _ _ _ _ (get_config_dir_present self false w m Hl)).
  rewrite Hn. done.
Qed.

Lemma C1_new_name_in_existing_store_not_copied_witness :
  backup_name None empty_store_world = "config_2024-01-01"
  ∧ @run_backup plain_hasher generic_self None empty_store_world
    = (Return py_None, empty_store_world).
Proof.
  split; [reflexivity|].
  apply (@C1_new_name_in_existing_store_not_copied plain_hasher generic_self None
           empty_store_world (bytes_of "CONFIG_A=y") ∅); reflexivity.
Defined.

(** ** The candidate names and the probing loop *)

Lemma string_length_app (s1 s2 : string) :
  String.length (s1 +:+ s2) = String.length s1 + String.length s2.
Proof. induction s1 as [|c s1 IH]; simpl; [done | by rewrite IH]. Qed.

Lemma fgen_inj b i j : fgen b i = fgen b j → i = j.
Proof.
  destruct i as [|i], j as [|j]; simpl; intros Heq; [done| | |].
  - apply (f_equal String.length) in Heq.
    rewrite !string_length_app in Heq. simpl in Heq. lia.
  - apply (f_equal String.length) in Heq.
    rewrite !string_length_app in Heq. simpl in Heq. lia.
  - apply (inj (String.append b)) in Heq. simpl in Heq.
    injection Heq as Heq. simpl in Heq. by apply pretty_nat_inj in Heq.
Qed.

(** The candidates below [k] are [k] distinct names, so a map that has
    them all has at least [k] keys: the probing loop ends. *)
Lemma candidates_bound {V} b (m : gmap string V) k :
  (∀ j, j < k → is_Some (m !! fgen b j)) → k ≤ size m.
Proof.
  intros Hk.
  assert (fgen b <$> seq 0 k ⊆+ (map_to_list m).*1) as Hsub.
  { apply NoDup_submseteq.
    - apply NoDup_fmap_2_strong; [|apply NoDup_seq].
      intros i j _ _. apply fgen_inj.
    - intros x [j [-> Hj]]%list_elem_of_fmap.
      apply elem_of_seq in Hj. destruct (Hk j) as [v Hv]; [lia|].
      apply list_elem_of_fmap. exists (fgen b j, v). split; [done|].
      by apply elem_of_map_to_list. }
  apply submseteq_length in Hsub.
  by rewrite !length_fmap, length_seq, length_map_to_list in Hsub.
Qed.

(** Some candidate is free, and the first free one comes after candidates
    that are all taken. *)
Lemma first_free_candidate {V} b (m : gmap string V) :
  ∃ k, m !! fgen b k = None ∧ ∀ j, j < k → is_Some (m !! fgen b j).
Proof.
  assert (∀ n, (∃ k, m !! fgen b k = None ∧ ∀ j, j < k → is_Some (m !! fgen b j))
               ∨ (∀ j, j < n → is_Some (m !! fgen b j))) as Hsearch.
  { induction n as [|n [IH|IH]]; [right; intros; lia | by left |].
    destruct (m !! fgen b n) as [v|] eqn:Hn.
    - right. intros j Hj. destruct (decide (j = n)) as [->|]; [eauto|]. apply IH. lia.
    - left. eauto. }
  destruct (Hsearch (S (size m))) as [?|Hall]; [done|].
  apply candidates_bound in Hall. lia.
Qed.

Section probing.
Context `{Hasher}.

Lemma probe_names_match fuel i k b m h w :
  w_faults w = [] →
  i ≤ k → k - i < fuel →
  (∀ j, i ≤ j < k → differs w m h (fgen b j)) →
  matches w m h (fgen b k) →
  probe_names fuel i b m h w
  = (Return (fgen b k, false), (sys_stdout_write (unchanged_msg (fgen b k)) w).2).
Proof.
  intros Hq. revert i. induction fuel as [|fuel IH]; intros i Hik Hfuel Hd Hm; [lia|].
  cbn [probe_names]. destruct (decide (i = k)) as [->|Hne].
  - destruct Hm as (e & c & -> & Hc & Hh).
    rewrite (bind_Return _ _ _ _ _
               (get_file_hash_quiet _ _ _ _ Hq default_bsize_pos Hc)).
    by rewrite decide_True.
  - destruct (Hd i) as (e & c & -> & Hc & Hh); [lia|].
    rewrite (bind_Return _ _ _ _ _
               (get_file_hash_quiet _ _ _ _ Hq default_bsize_pos Hc)).
    rewrite decide_False by done.
    apply IH; [lia | lia | | done]. intros j Hj. apply Hd. lia.
Qed.

Lemma probe_names_free fuel i k b m h w :
  w_faults w = [] →
  i ≤ k → k - i < fuel →
  (∀ j, i ≤ j < k → differs w m h (fgen b j)) →
  m !! fgen b k = None →
  probe_names fuel i b m h w = (Return (fgen b k, true), w).
Proof.
  intros Hq. revert i. induction fuel as [|fuel IH]; intros i Hik Hfuel Hd Hm; [lia|].
  cbn [probe_names]. destruct (decide (i = k)) as [->|Hne].
  - by rewrite Hm.
  - destruct (Hd i) as (e & c & -> & Hc & Hh); [lia|].
    rewrite (bind_Return _ _ _ _ _
               (get_file_hash_quiet _ _ _ _ Hq default_bsize_pos Hc)).
    rewrite decide_False by done.
    apply IH; [lia | lia | | done]. intros j Hj. apply Hd. lia.
Qed.

End probing.

(** ** C3: unchanged content is not stored again *)

(** C3: when the store has the requested name and the probing, which
    starts at that name and goes on through [-r1], [-r2], ... over stored
    files of different hash, reaches a stored file whose SHA-256 digest is
    that of the build-config file, [run_backup] writes "File not changed"
    with the name of that file and returns: no directory is changed (the
    store and its ["latest"] link are as before), no descriptor is left
    open and no external command is run. *)
Theorem C3_same_hash_is_not_copied `{Hasher}
    (self : BuildType) (n : option string) (w : world)
    (c : bytes) (m : gmap string DirEntry) (k : nat) :
  w_faults w = [] →
  file_content (w_dirs w) (get_build_config_file_path self) = Return c →
  list_config_dir (get_config_dir_path self) w = (Return m, w) →
  (∀ j, j < k → differs w m (sha256_hexdigest c) (fgen (backup_name n w) j)) →
  matches w m (sha256_hexdigest c) (fgen (backup_name n w) k) →
  ∃ w',
    run_backup self n w = (Return py_None, w')
    ∧ w_dirs w' = w_dirs w
    ∧ w_fds w' = w_fds w
    ∧ w_cmds w' = w_cmds w
    ∧ w_stdout w' = w_stdout w ++ [unchanged_msg (fgen (backup_name n w) k)].
Proof.
  intros Hq Hc Hl Hd Hm. unfold run_backup.
  rewrite (bind_Return _ _ _ _ _ (backup_name_step self n w)).
  rewrite (bind_Return _ _ _ _ _
             (get_file_hash_quiet _ _ _ _ Hq default_bsize_pos Hc)).
  rewrite (bind_Return _ _ _ _ _ (get_config_dir_present self false w m Hl)).
  assert (is_Some (m !! backup_name n w)) as [e0 He0].
  { destruct k as [|k].
    - destruct Hm as (e & ? & He & _). simpl in He. eauto.
    - destruct (Hd 0) as (e & ? & He & _); [lia|]. simpl in He. eauto. }
  rewrite He0.
  assert (S k ≤ size m) as Hsize.
  { apply (candidates_bound (backup_name n w)). intros j Hj.
    destruct (decide (j = k)) as [->|].
    - destruct Hm as (e & ? & He & _). eauto.
    - destruct (Hd j) as (e & ? & He & _); [lia|]. eauto. }
  erewrite bind_Return; cycle 1.
  { apply (probe_names_match _ 0 k); try done; try lia. intros j Hj. apply Hd. lia. }
  eexists. split; [reflexivity|]. done.
Qed.

Lemma C3_same_hash_is_not_copied_witness :
  ∃ w',
    @run_backup plain_hasher generic_self None r1_world = (Return py_None, w')
    ∧ w_dirs w' = w_dirs r1_world
    ∧ w_stdout w' = [unchanged_msg "config_2024-01-01-r1"].
Proof.
  destruct (@C3_same_hash_is_not_copied plain_hasher generic_self None r1_world
              (bytes_of "CONFIG_A=y")
              (<["config_2024-01-01" := entry_of "config_2024-01-01"]>
                 (<["config_2024-01-01-r1" := entry_of "config_2024-01-01-r1"]>
                    {[ "latest" := entry_of "latest" ]}))
              1)
    as (w' & H1 & H2 & _ & _ & H3).
  - reflexivity.
  - reflexivity.
  - vm_compute. reflexivity.
  - intros j Hj. assert (j = 0) as -> by lia.
    exists (entry_of "config_2024-01-01"), (bytes_of "CONFIG_A=n").
    split_and!; [reflexivity | reflexivity | by vm_compute].
  - exists (entry_of "config_2024-01-01-r1"), (bytes_of "CONFIG_A=y").
    split_and!; reflexivity.
  - exists w'. split_and!; [done..|]. rewrite H3. reflexivity.
Defined.

(** ** The copier on a quiet environment *)

Lemma alter_Some_insert {K} `{Countable K} {V} (f : V → V) (m : gmap K V) i x :
  m !! i = Some x → alter f i m = <[i := f x]> m.
Proof.
  intros Hi. apply map_eq. intros j.
  destruct (decide (i = j)) as [->|Hne].
  - by rewrite lookup_alter_eq, lookup_insert_eq, Hi.
  - by rewrite lookup_alter_ne, lookup_insert_ne.
Qed.

Lemma mkstemp_pick_fresh d suffix stems t rest :
  mkstemp_pick d suffix stems = Some (t, rest) → d !! t = None.
Proof.
  revert t rest. induction stems as [|s stems IH]; intros t rest; simpl; [done|].
  destruct (d !! ("tmp" +:+ s +:+ suffix)) eqn:Hs; [by apply IH|].
  by intros [= <- _].
Qed.

Lemma resolve_insert_fresh (d : directory) t x fuel n y :
  d !! t = None →
  resolve d fuel n = Some y →
  resolve (<[t := x]> d) fuel n = Some y.
Proof.
  intros Ht. revert n. induction fuel as [|fuel IH]; intros n; simpl.
  - destruct (decide (n = t)) as [->|Hne]; [by rewrite Ht|].
    by rewrite lookup_insert_ne.
  - destruct (decide (n = t)) as [->|Hne]; [by rewrite Ht|].
    rewrite lookup_insert_ne by done.
    destruct (d !! n) as [[| |]|]; try done. apply IH.
Qed.

Lemma file_content_insert_fresh (ds : gmap string directory) dir d t x p c :
  ds !! dir = Some d →
  d !! t = None →
  file_content ds p = Return c →
  file_content (<[dir := <[t := x]> d]> ds) p = Return c.
Proof.
  intros Hd Ht. unfold file_content.
  destruct (decide (p.1 = dir)) as [->|Hne].
  - rewrite Hd, lookup_insert_eq.
    destruct (resolve d MAXSYMLINKS p.2) as [[c'| |]|] eqn:Hr; try done.
    by rewrite (resolve_insert_fresh _ _ _ _ _ _ Ht Hr).
  - by rewrite lookup_insert_ne.
Qed.

Lemma os_write_quiet fd block w dir t dd c0 :
  w_faults w = [] →
  w_fds w !! fd = Some (dir, t) →
  w_dirs w !! dir = Some dd →
  dd !! t = Some (File c0) →
  os_write fd block w
  = (Return tt, set_dirs (λ _, <[dir := <[t := File (c0 ++ block)]> dd]> (w_dirs w)) w).
Proof.
  intros Hq Hfd Hd Ht. unfold os_write, fault. rewrite Hfd.
  rewrite (bind_Return _ _ _ _ _ (fault_with_quiet _ _ Hq)).
  unfold modify. f_equal. destruct w; unfold set_dirs; simpl in *. f_equal.
  rewrite (alter_Some_insert _ _ _ _ Hd). f_equal.
  by rewrite (alter_Some_insert _ _ _ _ Ht).
Qed.

Lemma write_loop_quiet fuel bsize fd block fh w dir t dd c0 :
  w_faults w = [] →
  0 < bsize →
  w_fds w !! fd = Some (dir, t) →
  w_dirs w !! dir = Some dd →
  dd !! t = Some (File c0) →
  (block = [] → fh = []) →
  (block ≠ [] → length fh < fuel) →
  write_loop fuel bsize fd block fh w
  = (Return tt,
     set_dirs (λ _, <[dir := <[t := File (c0 ++ block ++ fh)]> dd]> (w_dirs w)) w).
Proof.
  intros Hq Hb Hfd. revert w dd c0 block fh Hq Hfd.
  assert (∀ w dd c0, w_dirs w !! dir = Some dd → dd !! t = Some (File c0) →
            w = set_dirs (λ _, <[dir := <[t := File (c0 ++ [] ++ [])]> dd]> (w_dirs w)) w)
    as Hid.
  { intros w dd c0 Hd Ht. destruct w; unfold set_dirs; simpl in *. f_equal.
    by rewrite app_nil_r, (insert_id dd), insert_id. }
  induction fuel as [|fuel IH]; intros w dd c0 block fh Hq Hfd Hd Ht Hnil Hlen.
  - destruct block as [|x block]; [|specialize (Hlen ltac:(done)); lia].
    rewrite (Hnil eq_refl). simpl. unfold ret. f_equal. by apply Hid.
  - destruct block as [|x block].
    { rewrite (Hnil eq_refl). simpl. unfold ret. f_equal. by apply Hid. }
    cbn [write_loop].
    rewrite (bind_Return _ _ _ _ _ (os_write_quiet _ (x :: block) _ _ _ _ _ Hq Hfd Hd Ht)).
    set (w1 := set_dirs _ w).
    assert (w_faults w1 = []) as Hq1 by done.
    rewrite (bind_Return _ _ _ _ _ (fh_read_quiet bsize fh w1 Hq1)).
    rewrite (IH w1 (<[t := File (c0 ++ x :: block)]> dd) (c0 ++ x :: block)); try done.
    + f_equal. subst w1. destruct w; unfold set_dirs; simpl. f_equal.
      rewrite !insert_insert_eq. do 3 f_equal.
      by rewrite <- !(assoc_L (++)), take_drop.
    + subst w1. simpl. by rewrite lookup_insert_eq.
    + by rewrite lookup_insert_eq.
    + intros Hk. apply take_nil_inv in Hk as ->; [by rewrite drop_nil | done].
    + intros Hk. specialize (Hlen ltac:(done)). rewrite length_drop.
      destruct fh; [by rewrite take_nil in Hk|]. simpl in *. lia.
Qed.

Lemma copy_file_quiet src dst bsize w c d t rest :
  w_faults w = [] →
  0 < bsize →
  file_content (w_dirs w) src = Return c →
  w_dirs w !! dst.1 = Some d →
  mkstemp_pick d ".tmp" (w_tmpnames w) = Some (t, rest) →
  d !! dst.2 ≠ Some Dir →
  copy_file src dst bsize w
  = (Return tt,
     World (<[dst.1 := <[dst.2 := File c]> d]> (w_dirs w)) (w_fds w)
           (w_stdout w ++ [copy_msg src dst]) (w_stderr w) []
           rest (w_git_dirs w) (w_cmds w) (w_today w)).
Proof.
  intros Hq Hb Hc Hd Hpick Hdst.
  pose proof (mkstemp_pick_fresh _ _ _ _ _ Hpick) as Ht.
  destruct w as [ds fds out err fl tn gd cmds today]. simpl in *. subst fl.
  destruct dst as [dir n]. simpl in *.
  unfold copy_file. cbn [fst snd].
  unfold sys_stdout_write, modify, bind at 1. cbn [w_dirs w_fds w_stdout w_stderr
    w_faults w_tmpnames w_git_dirs w_cmds w_today].
  unfold mkstemp, fault, bind at 1, bind at 1, fault_with.
  cbn [w_dirs w_fds w_stdout w_stderr w_faults w_tmpnames w_git_dirs w_cmds w_today].
  rewrite Hd, Hpick.
  cbn [w_dirs w_fds w_stdout w_stderr w_faults w_tmpnames w_git_dirs w_cmds w_today
       set_dirs set_fds set_tmpnames].
  set (fd := fresh (dom fds)).
  assert (fds !! fd = None) as Hfd.
  { apply not_elem_of_dom. apply is_fresh. }
  set (w1 := set_tmpnames rest _).
  assert (copy_file_try src (dir, n) bsize fd (dir, t) w1
          = (Return tt, {| tmp_fd := None; tmp_filepath := None |},
             World (<[dir := <[n := File c]> d]> ds) fds
                   (out ++ [copy_msg src (dir, n)]) err [] rest gd cmds today)) as ->.
  { unfold copy_file_try.
    assert (file_content (w_dirs w1) src = Return c) as Hc1.
    { subst w1. simpl. by apply file_content_insert_fresh. }
    rewrite (bind_Return _ _ w1 c w1) by (unfold open_rb; by rewrite Hc1).
    rewrite (bind_Return _ _ _ _ _ (fh_read_quiet bsize c w1 eq_refl)).
    rewrite (write_loop_quiet _ _ _ _ _ w1 dir t (<[t := File []]> d) []); try done.
    - subst w1. unfold os_close, set_dirs, set_tmpnames, set_fds.
      cbn [w_dirs w_fds w_stdout w_stderr w_faults w_tmpnames w_git_dirs w_cmds w_today].
      rewrite lookup_insert_eq. unfold fault, fault_with, set_fds.
      cbn [w_dirs w_fds w_stdout w_stderr w_faults w_tmpnames w_git_dirs w_cmds w_today].
      unfold os_replace, fault, bind, fault_with, lookup_node, set_dirs.
      cbn [w_dirs w_fds w_stdout w_stderr w_faults w_tmpnames w_git_dirs w_cmds w_today
           fst snd].
      rewrite !insert_insert_eq, (delete_insert_id fds) by done.
      rewrite lookup_insert_eq. cbn [mbind option_bind].
      rewrite lookup_insert_eq. simpl app. rewrite take_drop.
      assert (<[t := File c]> d !! n ≠ Some Dir) as Hn.
      { destruct (decide (t = n)) as [->|]; [by rewrite lookup_insert_eq|].
        by rewrite lookup_insert_ne. }
      destruct (<[t := File c]> d !! n) as [[| |]|] eqn:Hn'; try done.
      all: do 3 f_equal.
      all: rewrite (alter_Some_insert _ _ dir _ (lookup_insert_eq _ _ _)).
      all: rewrite insert_insert_eq.
      all: rewrite (alter_Some_insert _ _ dir _ (lookup_insert_eq _ _ _)).
      all: by rewrite insert_insert_eq, delete_insert_id.
    - subst w1. simpl. by rewrite lookup_insert_eq.
    - subst w1. simpl. by rewrite lookup_insert_eq.
    - by rewrite lookup_insert_eq.
    - intros Hk. apply take_nil_inv in Hk as ->; [by rewrite drop_nil | done].
    - intros _. lia. }
  done.
Qed.

(** ** C2: a collision with different content makes the next revision *)

Lemma contains_app x s1 s2 :
  PyStr.contains x (s1 +:+ s2) = PyStr.contains x s1 || PyStr.contains x s2.
Proof.
  induction s1 as [|c s1 IH]; simpl; [done|]. rewrite IH. by rewrite orb_assoc.
Qed.

Lemma fgen_revision_not_latest b k : 0 < k → fgen b k ≠ "latest".
Proof.
  destruct k as [|k]; [lia|]. intros _ Heq.
  apply (f_equal (PyStr.contains "-"%char)) in Heq.
  cbn [fgen] in Heq. rewrite contains_app in Heq. simpl in Heq.
  by rewrite orb_true_r in Heq.
Qed.

(** Repointing ["latest"] once the new file is in place. *)
Lemma relink_latest_quiet (w : world) cdir (d : directory) target :
  w_faults w = [] →
  w_dirs w !! cdir = Some d →
  d !! "latest" ≠ Some Dir →
  (try_except (os_unlink (cdir, "latest")) FileNotFoundError (ret tt) ;;
   os_symlink target (cdir, "latest")) w
  = (Return tt, set_dirs (λ _, <[cdir := <["latest" := Symlink target]> d]> (w_dirs w)) w).
Proof.
  intros Hq Hd Hl.
  destruct w as [ds fds out err fl tn gd cmds today]. simpl in *. subst fl.
  unfold bind at 1, try_except, os_unlink, fault, bind at 1, fault_with, lookup_node.
  cbn [w_dirs w_faults fst snd]. rewrite Hd. cbn [mbind option_bind].
  destruct (d !! "latest") as [[c'|tg|]|] eqn:Hlatest; try done.
  1, 2: unfold os_symlink, fault, bind, fault_with, set_dirs;
        cbn [w_dirs w_faults fst snd];
        rewrite (alter_Some_insert _ _ cdir _ Hd), lookup_insert_eq, lookup_delete_eq;
        do 2 f_equal;
        rewrite (alter_Some_insert _ _ cdir _ (lookup_insert_eq _ _ _));
        by rewrite insert_insert_eq, insert_delete_eq.
  rewrite decide_True by done.
  unfold ret, os_symlink, fault, bind, fault_with, set_dirs.
  cbn [w_dirs w_faults fst snd]. rewrite Hd, Hlatest.
  by rewrite (alter_Some_insert _ _ cdir _ Hd).
Qed.

Lemma git_commit_quiet (w : world) cdir files :
  w_faults w = [] →
  (do is_git <- check_is_git_dir cdir;
   (if is_git : bool
    then run_git_commit_file cdir files "update config"
    else ret tt) ;;
   ret py_None) w
  = (Return py_None,
     World (w_dirs w) (w_fds w) (w_stdout w) (w_stderr w) (w_faults w) (w_tmpnames w)
           (w_git_dirs w) (w_cmds w ++ git_cmds (w_git_dirs w) cdir files) (w_today w)).
Proof.
  intros Hq.
  destruct w as [ds fds out err fl tn gd cmds today]. simpl in *. subst fl.
  unfold git_cmds, check_is_git_dir, log_cmd, modify, bind at 1, bind at 1.
  cbn [w_dirs w_fds w_stdout w_stderr w_faults w_tmpnames w_git_dirs w_cmds w_today].
  case_bool_decide; [|done].
  unfold run_git_commit_file, subprocess_run_check, log_cmd, modify, bind, fault_with, ret.
  cbn [w_dirs w_fds w_stdout w_stderr w_faults w_tmpnames w_git_dirs w_cmds w_today].
  by rewrite <- !(assoc_L (++)).
Qed.

Lemma bind_assoc {A B C} (m : M A) (k : A → M B) (k' : B → M C) w :
  bind (bind m k) k' w = bind m (λ a, bind (k a) k') w.
Proof. unfold bind. by destruct (m w) as [[a|e] w']. Qed.

(** C2: when the store has the requested name and every stored candidate
    of the sequence [base], [base-r1], [base-r2], ... hashes differently
    from the build-config file, [run_backup] picks the first candidate the
    entry map does not have (a revision, since [base] itself is taken),
    writes the build-config content under that name and points ["latest"]
    at that name.  Every other name of the store, and every other
    directory, is as before; the temporary file is gone and no descriptor
    stays open.  The environment is quiet: no call fails, [mkstemp] finds
    a free name, and neither a candidate name nor ["latest"] is a
    directory. *)
Theorem C2_collision_creates_next_revision `{Hasher}
    (self : BuildType) (n : option string) (w : world)
    (c : bytes) (d : directory) (m : gmap string DirEntry)
    (t : string) (rest : list string) :
  let cdir := get_config_dir_path self in
  let bcfile := get_build_config_file_path self in
  let base := backup_name n w in
  w_faults w = [] →
  file_content (w_dirs w) bcfile = Return c →
  w_dirs w !! cdir = Some d →
  list_config_dir cdir w = (Return m, w) →
  is_Some (m !! base) →
  (∀ j, is_Some (m !! fgen base j) → differs w m (sha256_hexdigest c) (fgen base j)) →
  mkstemp_pick d ".tmp" (w_tmpnames w) = Some (t, rest) →
  (∀ j, d !! fgen base j ≠ Some Dir) →
  d !! "latest" ≠ Some Dir →
  ∃ k w',
    0 < k
    ∧ (∀ j, j < k → is_Some (m !! fgen base j))
    ∧ m !! fgen base k = None
    ∧ fgen base k ≠ "latest"
    ∧ run_backup self n w = (Return py_None, w')
    ∧ w_dirs w'
      = <[cdir := <["latest" := Symlink (fgen base k)]> (<[fgen base k := File c]> d)]>
          (w_dirs w)
    ∧ (∀ x, x ≠ fgen base k → x ≠ "latest" →
            lookup_node (w_dirs w') (cdir, x) = lookup_node (w_dirs w) (cdir, x))
    ∧ lookup_node (w_dirs w') (cdir, fgen base k) = Some (File c)
    ∧ lookup_node (w_dirs w') (cdir, "latest") = Some (Symlink (fgen base k))
    ∧ w_fds w' = w_fds w
    ∧ w_stdout w' = w_stdout w ++ [copy_msg bcfile (cdir, fgen base k)]
    ∧ w_cmds w'
      = w_cmds w ++ git_cmds (w_git_dirs w) cdir
                      [path_str (cdir, fgen base k); path_str (cdir, "latest")].
Proof.
  intros cdir bcfile base Hq Hc Hd Hl [e0 He0] Hdiff Hpick Hnodir Hlatest.
  destruct (first_free_candidate base m) as (k & Hfree & Htaken).
  assert (0 < k) as Hk.
  { destruct k; [|lia]. simpl in Hfree. by rewrite He0 in Hfree. }
  pose proof (fgen_revision_not_latest base k Hk) as Hnl.
  pose proof (candidates_bound base m k Htaken) as Hsize.
  set (w2 := World (<[cdir := <[fgen base k := File c]> d]> (w_dirs w)) (w_fds w)
                   (w_stdout w ++ [copy_msg bcfile (cdir, fgen base k)]) (w_stderr w) []
                   rest (w_git_dirs w) (w_cmds w) (w_today w)).
  set (w3 := set_dirs (λ _, <[cdir := <["latest" := Symlink (fgen base k)]>
                                       (<[fgen base k := File c]> d)]> (w_dirs w2)) w2).
  exists k,
    (World (w_dirs w3) (w_fds w3) (w_stdout w3) (w_stderr w3) (w_faults w3) (w_tmpnames w3)
           (w_git_dirs w3)
           (w_cmds w3 ++ git_cmds (w_git_dirs w3) cdir
                           [path_str (cdir, fgen base k); path_str (cdir, "latest")])
           (w_today w3)).
  do 4 (split; [done|]). split.
  { unfold run_backup.
    rewrite (bind_Return _ _ _ _ _ (backup_name_step self n w)).
    rewrite (bind_Return _ _ _ _ _
               (get_file_hash_quiet _ _ _ _ Hq default_bsize_pos Hc)).
    rewrite (bind_Return _ _ _ _ _ (get_config_dir_present self false w m Hl)).
    fold base. rewrite He0.
    erewrite bind_Return; cycle 1.
    { apply (probe_names_free _ 0 k); try done; try lia.
      intros j Hj. apply Hdiff, Htaken. lia. }
    cbn iota beta.
    rewrite (bind_Return _ _ w tt w2); cycle 1.
    { apply (copy_file_quiet _ (get_config_dir_path self, fgen base k) _ _ c d t rest);
        try done; first [apply default_bsize_pos | apply Hnodir]. }
    rewrite <- bind_assoc.
    rewrite (bind_Return _ _ w2 tt w3); cycle 1.
    { apply relink_latest_quiet; [done| |].
      - subst w2. simpl. by rewrite lookup_insert_eq.
      - by rewrite lookup_insert_ne. }
    rewrite (git_commit_quiet w3) by done. reflexivity. }
  subst w3 w2. unfold set_dirs, lookup_node. cbn [w_dirs w_fds w_stdout w_cmds w_git_dirs fst snd].
  rewrite insert_insert_eq. split_and!; try done.
  - intros x Hx1 Hx2. rewrite lookup_insert_eq, Hd. simpl.
    by rewrite !lookup_insert_ne.
  - rewrite lookup_insert_eq. simpl. rewrite lookup_insert_ne by done.
    by rewrite lookup_insert_eq.
  - rewrite lookup_insert_eq. simpl. by rewrite lookup_insert_eq.
Qed.

Lemma C2_collision_creates_next_revision_witness :
  ∃ w',
    @run_backup plain_hasher generic_self None collision_world = (Return py_None, w')
    ∧ lookup_node (w_dirs w') ("/cfg/generic", "config_2024-01-01-r1")
      = Some (File (bytes_of "CONFIG_A=y"))
    ∧ lookup_node (w_dirs w') ("/cfg/generic", "latest")
      = Some (Symlink "config_2024-01-01-r1").
Proof.
  assert (map_Forall (λ k _, k = "config_2024-01-01" ∨ k = "latest") store_one_map)
    as Hkeys.
  { apply map_Forall_insert_2; [by left|]. apply map_Forall_singleton. by right. }
  assert (map_Forall (λ _ x, x ≠ Dir) store_one) as Hnodes.
  { apply map_Forall_insert_2; [done|]. by apply map_Forall_singleton. }
  assert (∀ j, is_Some (store_one_map !! fgen "config_2024-01-01" j) → j = 0) as Hzero.
  { intros j [e He]. destruct (Hkeys _ _ He) as [Hj|Hj].
    - by apply (fgen_inj "config_2024-01-01" j 0).
    - destruct j; [done|]. by apply fgen_revision_not_latest in Hj; [|lia]. }
  destruct (@C2_collision_creates_next_revision plain_hasher generic_self None
              collision_world (bytes_of "CONFIG_A=y") store_one store_one_map
              "tmpaaaaaaaa.tmp" ["bbbbbbbb"])
    as (k & w' & Hk & Htaken & Hfree & _ & Hrun & _ & _ & Hnew & Hlink & _).
  - reflexivity.
  - reflexivity.
  - reflexivity.
  - vm_compute. reflexivity.
  - by eexists.
  - intros j Hj. rewrite (Hzero j Hj).
    exists (entry_of "config_2024-01-01"), (bytes_of "CONFIG_A=n").
    split_and!; [reflexivity | reflexivity | by vm_compute].
  - reflexivity.
  - intros j Hj. by apply (Hnodes _ _ Hj).
  - done.
  - assert (k = 1) as ->.
    { destruct k as [|[|k]]; [lia | reflexivity |].
      specialize (Hzero 1 (Htaken 1 ltac:(lia))). discriminate Hzero. }
    exists w'. split; [exact Hrun | split; [exact Hnew | exact Hlink]].
Defined.

(** ** C7: the copier when something fails *)

Ltac world_fields :=
  cbn [w_dirs w_fds w_stdout w_stderr w_faults w_tmpnames w_git_dirs w_cmds w_today
       set_dirs set_fds set_faults set_tmpnames fst snd].

(** A failed [os.close] has released the descriptor. *)
Lemma os_close_failed fd p l w :
  w_fds w !! fd = Some p →
  w_faults w = true :: l →
  os_close fd w = (Raise OSError_EIO, set_faults l (set_fds (delete fd) w)).
Proof.
  intros Hfd Hf. unfold os_close, fault, fault_with. rewrite Hfd.
  destruct w. simpl in *. by rewrite Hf.
Qed.

(** With the descriptor gone, the [finally] suite stops at its first
    statement: the second [os.close] raises and [os.unlink] is not
    reached. *)
Lemma copy_file_finally_closed_fd fd p w :
  w_fds w !! fd = None →
  copy_file_finally {| tmp_fd := Some fd; tmp_filepath := Some p |} w
  = (Raise OSError_EBADF, w).
Proof.
  intros Hfd. unfold copy_file_finally, bind, os_close. simpl. by rewrite Hfd.
Qed.

(** With the descriptor closed by the [try] suite, the [finally] suite
    unlinks the temporary file. *)
Lemma copy_file_finally_unlinks p w c :
  w_faults w = [] →
  lookup_node (w_dirs w) p = Some (File c) →
  copy_file_finally {| tmp_fd := None; tmp_filepath := Some p |} w
  = (Return tt, set_dirs (alter (delete p.2) p.1) w).
Proof.
  intros Hq Hp. unfold copy_file_finally, bind, ret, os_unlink, fault, bind, fault_with.
  cbn [tmp_fd tmp_filepath]. by rewrite Hq, Hp.
Qed.

(** The rename refused because the destination is a directory: the
    [finally] suite removes the temporary file, and every directory is as
    it was before the call. *)
Lemma copy_file_onto_directory src dst bsize w c d t rest :
  w_faults w = [] →
  0 < bsize →
  file_content (w_dirs w) src = Return c →
  w_dirs w !! dst.1 = Some d →
  mkstemp_pick d ".tmp" (w_tmpnames w) = Some (t, rest) →
  d !! dst.2 = Some Dir →
  copy_file src dst bsize w
  = (Raise IsADirectoryError,
     World (w_dirs w) (w_fds w) (w_stdout w ++ [copy_msg src dst]) (w_stderr w) []
           rest (w_git_dirs w) (w_cmds w) (w_today w)).
Proof.
  intros Hq Hb Hc Hd Hpick Hdst.
  pose proof (mkstemp_pick_fresh _ _ _ _ _ Hpick) as Ht.
  destruct w as [ds fds out err fl tn gd cmds today]. simpl in *. subst fl.
  destruct dst as [dir n]. simpl in *.
  assert (t ≠ n) as Htn by (intros ->; congruence).
  unfold copy_file. world_fields.
  unfold sys_stdout_write, modify, bind at 1. world_fields.
  unfold mkstemp, fault, bind at 1, bind at 1, fault_with. world_fields.
  rewrite Hd, Hpick. world_fields.
  set (fd := fresh (dom fds)).
  assert (fds !! fd = None) as Hfd by (apply not_elem_of_dom, is_fresh).
  set (w1 := set_tmpnames rest _).
  assert (copy_file_try src (dir, n) bsize fd (dir, t) w1
          = (Raise IsADirectoryError, {| tmp_fd := None; tmp_filepath := Some (dir, t) |},
             World (<[dir := <[t := File c]> d]> ds) fds
                   (out ++ [copy_msg src (dir, n)]) err [] rest gd cmds today)) as ->.
  { unfold copy_file_try.
    assert (file_content (w_dirs w1) src = Return c) as Hc1.
    { subst w1. simpl. by apply file_content_insert_fresh. }
    rewrite (bind_Return _ _ w1 c w1) by (unfold open_rb; by rewrite Hc1).
    rewrite (bind_Return _ _ _ _ _ (fh_read_quiet bsize c w1 eq_refl)).
    rewrite (write_loop_quiet _ _ _ _ _ w1 dir t (<[t := File []]> d) []); try done.
    - subst w1. unfold os_close, set_dirs, set_tmpnames, set_fds. world_fields.
      rewrite lookup_insert_eq. unfold fault, fault_with, set_fds. world_fields.
      unfold os_replace, fault, bind, fault_with, lookup_node, set_dirs. world_fields.
      rewrite !insert_insert_eq, (delete_insert_id fds) by done.
      rewrite lookup_insert_eq. cbn [mbind option_bind].
      rewrite lookup_insert_eq, lookup_insert_ne, Hdst by done.
      simpl app. by rewrite take_drop.
    - subst w1. simpl. by rewrite lookup_insert_eq.
    - subst w1. simpl. by rewrite lookup_insert_eq.
    - by rewrite lookup_insert_eq.
    - intros Hk. apply take_nil_inv in Hk as ->; [by rewrite drop_nil | done].
    - intros _. lia. }
  rewrite (copy_file_finally_unlinks _ _ c); [|done|]; cycle 1.
  { unfold lookup_node. world_fields. rewrite lookup_insert_eq. cbn [mbind option_bind].
    by rewrite lookup_insert_eq. }
  unfold set_dirs. world_fields. do 2 f_equal.
  rewrite (alter_Some_insert _ _ dir _ (lookup_insert_eq _ _ _)).
  by rewrite insert_insert_eq, delete_insert_id, insert_id.
Qed.

(** C7 (as the code has it): when the file fits in one block, nothing
    fails up to the last write and the [os.close] of the [try] suite then
    reports an error, [copy_file] ends with the "bad descriptor" error of
    the second [os.close], made by the [finally] suite before it could
    unlink: the temporary file stays in the destination directory with
    the bytes written so far.  The destination itself is as it was. *)
Theorem C7_failed_close_leaves_temporary_file
    (src dst : path) (bsize : nat) (w : world)
    (c : bytes) (d : directory) (t : string) (rest : list string) (l : list bool) :
  w_faults w = [false; false; false; false; true] ++ l →
  c ≠ [] →
  length c ≤ bsize →
  file_content (w_dirs w) src = Return c →
  w_dirs w !! dst.1 = Some d →
  mkstemp_pick d ".tmp" (w_tmpnames w) = Some (t, rest) →
  t ≠ dst.2 →
  ∃ w',
    copy_file src dst bsize w = (Raise OSError_EBADF, w')
    ∧ lookup_node (w_dirs w) (dst.1, t) = None
    ∧ lookup_node (w_dirs w') (dst.1, t) = Some (File c)
    ∧ lookup_node (w_dirs w') dst = lookup_node (w_dirs w) dst.
Proof.
  intros Hf Hne Hlen Hc Hd Hpick Htn.
  pose proof (mkstemp_pick_fresh _ _ _ _ _ Hpick) as Ht.
  destruct w as [ds fds out err fl tn gd cmds today]. simpl in *. subst fl.
  destruct dst as [dir n]. simpl in *.
  unfold copy_file. world_fields.
  unfold sys_stdout_write, modify, bind at 1. world_fields.
  unfold mkstemp, fault, bind at 1, bind at 1, fault_with. world_fields.
  rewrite Hd, Hpick. world_fields.
  set (fd := fresh (dom fds)).
  assert (fds !! fd = None) as Hfd by (apply not_elem_of_dom, is_fresh).
  unfold set_tmpnames, set_fds, set_dirs. world_fields.
  unfold copy_file_try, bind at 1, open_rb. world_fields.
  rewrite (file_content_insert_fresh _ _ _ _ _ _ _ Hd Ht Hc).
  unfold fh_read at 1, fault, bind at 1, bind at 1, fault_with, ret. world_fields.
  rewrite take_ge, drop_ge by done.
  destruct c as [|b c]; [done|]. cbn [length write_loop].
  unfold os_write, bind at 1. world_fields. rewrite lookup_insert_eq.
  unfold fault, bind at 1, fault_with, modify. world_fields.
  unfold fh_read, fault, bind at 1, bind at 1, fault_with, ret. world_fields.
  rewrite take_nil. cbn [write_loop]. unfold ret.
  unfold os_close at 1. world_fields. rewrite lookup_insert_eq.
  unfold fault, fault_with. world_fields.
  rewrite copy_file_finally_closed_fd by (world_fields; apply lookup_delete_eq).
  eexists. split; [reflexivity|]. unfold lookup_node. world_fields.
  rewrite Hd. cbn [mbind option_bind]. split; [done|].
  rewrite (alter_Some_insert _ _ dir _ (lookup_insert_eq _ _ _)).
  rewrite insert_insert_eq, !lookup_insert_eq. cbn [mbind option_bind].
  rewrite (alter_Some_insert _ _ t _ (lookup_insert_eq _ _ _)).
  rewrite insert_insert_eq, lookup_insert_eq, lookup_insert_ne by done.
  done.
Qed.

Lemma C7_failed_close_leaves_temporary_file_witness :
  ∃ w',
    copy_file ("/build/.foo.bar", ".config") ("/cfg/generic", "config_2024-01-01-r1")
              default_bsize close_fails_world
    = (Raise OSError_EBADF, w')
    ∧ lookup_node (w_dirs close_fails_world) ("/cfg/generic", "tmpaaaaaaaa.tmp") = None
    ∧ lookup_node (w_dirs w') ("/cfg/generic", "tmpaaaaaaaa.tmp")
      = Some (File (bytes_of "CONFIG_A=y"))
    ∧ lookup_node (w_dirs w') ("/cfg/generic", "config_2024-01-01-r1")
      = lookup_node (w_dirs close_fails_world) ("/cfg/generic", "config_2024-01-01-r1").
Proof.
  apply (C7_failed_close_leaves_temporary_file
           ("/build/.foo.bar", ".config") ("/cfg/generic", "config_2024-01-01-r1")
           default_bsize close_fails_world (bytes_of "CONFIG_A=y") store_one
           "tmpaaaaaaaa.tmp" ["bbbbbbbb"] []).
  - reflexivity.
  - discriminate.
  - transitivity 14; [simpl; lia|].
    apply Nat.lt_le_incl, Nat.pow_gt_lin_r. lia.
  - reflexivity.
  - reflexivity.
  - reflexivity.
  - discriminate.
Defined.

(** ** The loops are given fuel enough *)

Lemma fh_read_inv bsize fh w r w' :
  fh_read bsize fh w = (r, w') →
  r = Return (take bsize fh, drop bsize fh) ∨ r = Raise OSError_EIO.
Proof.
  unfold fh_read, fault, bind, fault_with, ret.
  destruct (w_faults w) as [|[] l]; intros [= <- _]; auto.
Qed.

Lemma os_write_exn fd block w e w' :
  os_write fd block w = (Raise e, w') → e ≠ OutOfFuel.
Proof.
  unfold os_write, fault, bind, fault_with, modify.
  destruct (w_fds w !! fd); [|by intros [= <- _]].
  destruct (w_faults w) as [|[] l]; by intros [= <- _].
Qed.

(** Whatever the environment does, the copy loop started with more fuel
    than bytes left to read does not run out of it. *)
Lemma write_loop_fuel fuel bsize fd block fh w w' :
  (block ≠ [] → length fh < fuel) →
  write_loop fuel bsize fd block fh w ≠ (Raise OutOfFuel, w').
Proof.
  revert block fh w. induction fuel as [|fuel IH]; intros block fh w Hlen.
  - destruct block; [done|]. specialize (Hlen ltac:(done)). lia.
  - destruct block as [|x block]; [done|]. cbn [write_loop]. unfold bind at 1.
    destruct (os_write fd (x :: block) w) as [[[]|e] w1] eqn:Hw.
    + unfold bind at 1.
      destruct (fh_read bsize fh w1) as [r w2] eqn:Hr.
      destruct (fh_read_inv _ _ _ _ _ Hr) as [-> | ->]; [|done].
      apply IH. intros Hk. specialize (Hlen ltac:(done)). rewrite length_drop.
      destruct bsize; [done|]. destruct fh; [done|]. simpl in *. lia.
    + intros [= -> _]. by apply os_write_exn in Hw.
Qed.

Lemma hash_loop_fuel fuel bsize hashobj block fh w w' :
  (block ≠ [] → length fh < fuel) →
  hash_loop fuel bsize hashobj block fh w ≠ (Raise OutOfFuel, w').
Proof.
  revert hashobj block fh w. induction fuel as [|fuel IH]; intros hashobj block fh w Hlen.
  - destruct block; [done|]. specialize (Hlen ltac:(done)). lia.
  - destruct block as [|x block]; [done|]. cbn [hash_loop]. unfold bind at 1.
    destruct (fh_read bsize fh w) as [r w2] eqn:Hr.
    destruct (fh_read_inv _ _ _ _ _ Hr) as [-> | ->]; [|done].
    apply IH. intros Hk. specialize (Hlen ltac:(done)). rewrite length_drop.
    destruct bsize; [done|]. destruct fh; [done|]. simpl in *. lia.
Qed.

Lemma get_file_hash_fuel `{Hasher} p bsize w w' :
  get_file_hash p bsize w ≠ (Raise OutOfFuel, w').
Proof.
  unfold get_file_hash, bind at 1, open_rb.
  destruct (file_content (w_dirs w) p) as [c|e] eqn:Hc.
  - unfold bind at 1. destruct (fh_read bsize c w) as [r w1] eqn:Hr.
    destruct (fh_read_inv _ _ _ _ _ Hr) as [-> | ->]; [|done].
    unfold bind at 1.
    destruct (hash_loop _ _ _ _ _ w1) as [[a|e] w2] eqn:Hh; [done|].
    intros [= -> _]. revert Hh. apply hash_loop_fuel. intros _. lia.
  - intros [= -> _]. revert Hc. unfold file_content.
    destruct (w_dirs w !! p.1); [|done].
    by destruct (resolve _ _ _) as [[| |]|].
Qed.

(** The probing loop is started with one more unit of fuel than the map
    has keys, and the candidates are distinct names: it stops before the
    fuel is used up, whatever the files and the environment are. *)
Lemma probe_names_fuel `{Hasher} fuel i b (m : gmap string DirEntry) h w w' :
  (∀ j, j < i → is_Some (m !! fgen b j)) →
  size m < fuel + i →
  probe_names fuel i b m h w ≠ (Raise OutOfFuel, w').
Proof.
  revert i w. induction fuel as [|fuel IH]; intros i w Htaken Hsize.
  - apply candidates_bound in Htaken. lia.
  - cbn [probe_names]. destruct (m !! fgen b i) as [cfile|] eqn:Hi; [|done].
    unfold bind at 1.
    destruct (get_file_hash (epath cfile) default_bsize w) as [[h'|e] w1] eqn:Hh.
    + destruct (decide (h = h')); [done|].
      apply IH; [|lia]. intros j Hj.
      destruct (decide (j = i)) as [->|]; [eauto|]. apply Htaken. lia.
    + intros [= -> _]. by apply get_file_hash_fuel in Hh.
Qed.

(** * Further properties of the program *)

(** ** The guessed key *)

Lemma basename_no_slash p : PyStr.contains "/"%char (PyStr.basename p) = false.
Proof.
  induction p as [|c p IH]; [done|].
  cbn [PyStr.basename]. destruct (PyStr.contains "/"%char (String c p)) eqn:Hc; done.
Qed.

Lemma strip_leading_dots_contains x s :
  PyStr.contains x s = false → PyStr.contains x (strip_leading_dots s) = false.
Proof.
  induction s as [|c s IH]; [done|]. intros Hc.
  simpl in Hc. apply orb_false_iff in Hc as [Hc1 Hc2].
  assert (strip_leading_dots (String c s) = strip_leading_dots s
          ∨ strip_leading_dots (String c s) = String c s) as [-> | ->].
  { destruct c as [[] [] [] [] [] [] [] []]; simpl; auto. }
  - by apply IH.
  - simpl. by rewrite Hc1, Hc2.
Qed.

Lemma truncate_at_first_dot_contains x s :
  PyStr.contains x s = false → PyStr.contains x (truncate_at_first_dot s) = false.
Proof.
  induction s as [|c s IH]; [done|]. intros Hc.
  simpl in Hc. apply orb_false_iff in Hc as [Hc1 Hc2].
  assert (truncate_at_first_dot (String c s) = ""
          ∨ truncate_at_first_dot (String c s) = String c (truncate_at_first_dot s))
    as [-> | ->].
  { destruct c as [[] [] [] [] [] [] [] []]; simpl; auto. }
  - done.
  - simpl. by rewrite Hc1, IH.
Qed.

Lemma truncate_at_first_dot_no_dot s :
  PyStr.contains "."%char (truncate_at_first_dot s) = false.
Proof.
  induction s as [|c s IH]; [done|].
  destruct (decide (c = "."%char)) as [->|Hc]; [done|].
  assert (truncate_at_first_dot (String c s) = String c (truncate_at_first_dot s)) as ->.
  { destruct c as [[] [] [] [] [] [] [] []]; simpl; done. }
  simpl. rewrite IH. by rewrite bool_decide_eq_false_2.
Qed.

Lemma truncate_nil_inv s :
  truncate_at_first_dot s = "" → s = "" ∨ ∃ r, s = String "."%char r.
Proof.
  destruct s as [|c s]; [auto|]. intros H. right.
  destruct (decide (c = "."%char)) as [->|Hc]; [eauto|].
  destruct c as [[] [] [] [] [] [] [] []]; simpl in H; done.
Qed.

Lemma strip_leading_dots_head s r : strip_leading_dots s ≠ String "."%char r.
Proof.
  induction s as [|c s IH]; [done|].
  destruct (decide (c = "."%char)) as [->|Hc]; [done|].
  assert (strip_leading_dots (String c s) = String c s) as ->.
  { destruct c as [[] [] [] [] [] [] [] []]; simpl; done. }
  congruence.
Qed.

(** X1: For every build directory the key the generic detector guesses is a
    single path component without a dot, and it is empty exactly when the
    basename of the build directory consists of dots only (or is empty);
    the store directory is then the config root itself. *)
Theorem guessed_key_is_one_plain_component (i : BuildInfo) (k : option string) (w : world) :
  ∃ self',
    detect (new GenericBuildType i k) true w = (Return (true, self'), w)
    ∧ PyStr.contains "/"%char (ckey self') = false
    ∧ PyStr.contains "."%char (ckey self') = false
    ∧ (ckey self' = "" ↔ strip_leading_dots (PyStr.basename (build_dir i)) = "")
    ∧ (ckey self' = "" → get_config_dir_path self' = config_root i)
    ∧ (ckey self' ≠ "" →
       get_config_dir_path self' = PyStr.join (config_root i) (ckey self')).
Proof.
  eexists. split; [reflexivity|]. cbn [ckey info new cls].
  unfold PyStr.strip. rewrite rstrip_partition_head, partition_head_dot, lstrip_dots.
  split_and!.
  - apply truncate_at_first_dot_contains, strip_leading_dots_contains, basename_no_slash.
  - apply truncate_at_first_dot_no_dot.
  - split.
    + intros [H|[r H]]%truncate_nil_inv; [done|]. by apply strip_leading_dots_head in H.
    + by intros ->.
  - unfold get_config_dir_path. cbn [ckey info new cls]. by intros ->.
  - unfold get_config_dir_path. cbn [ckey info new cls].
    by destruct (truncate_at_first_dot _).
Qed.

(** ** Buildroot detection *)

Lemma lstrip_app P s t :
  PyStr.lstrip P (s +:+ t)
  = match PyStr.lstrip P s with
    | "" => PyStr.lstrip P t
    | r => r +:+ t
    end.
Proof.
  induction s as [|c s IH]; simpl; [done|].
  by destruct (P c).
Qed.

Lemma rstrip_app_one P s c :
  P c = true → PyStr.rstrip P (s +:+ String c "") = PyStr.rstrip P s.
Proof.
  intros Hc. induction s as [|a s IH]; simpl; [by rewrite Hc|]. by rewrite IH.
Qed.

Lemma strip_app_one P s c :
  P c = true → PyStr.strip P (s +:+ String c "") = PyStr.strip P s.
Proof.
  intros Hc. unfold PyStr.strip. rewrite lstrip_app.
  destruct (PyStr.lstrip P s) as [|a r] eqn:Hs.
  - simpl. by rewrite Hc.
  - by rewrite (rstrip_app_one P (String a r) c Hc).
Qed.

Lemma readline_first_line s :
  PyStr.readline s = first_line s ∨ PyStr.readline s = first_line s +:+ nl.
Proof.
  induction s as [|c s IH]; simpl; [by left|].
  destruct (decide (c = "010"%char)); [by right|].
  destruct (decide (c = "013"%char)); [by right|].
  destruct IH as [-> | ->]; [by left | by right].
Qed.

Lemma strip_readline s :
  PyStr.strip PyStr.isspace (PyStr.readline s) = PyStr.strip PyStr.isspace (first_line s).
Proof.
  destruct (readline_first_line s) as [-> | ->]; [done|].
  by apply strip_app_one.
Qed.

Lemma buildroot_detect_first_line
    (c : build_class) (i : BuildInfo) (k : option string) (g : bool) (w : world) :
  c = BuildrootBuildType ∨ c = BuildrootBusyboxBuildType →
  detect (new c i k) g w
  = (match file_content (w_dirs w) (src_dir i, "Makefile") with
     | Return content =>
         Return (bool_decide (PyStr.strip PyStr.isspace
                                (first_line (String.string_of_list_byte content))
                              = buildroot_header),
                 new c i k)
     | Raise FileNotFoundError => Return (false, new c i k)
     | Raise e => Raise e
     end, w).
Proof.
  intros Hc. unfold detect, try_except, read_first_line, bind, open_rb, ret.
  assert (cls (new c i k) = c) as -> by done. cbn [info new src_dir].
  destruct Hc as [-> | ->].
  all: destruct (file_content _ _) as [content|e]; [by rewrite strip_readline|].
  all: destruct (decide (e = FileNotFoundError)) as [->|]; [done|by destruct e].
Qed.

(** X2: The buildroot detectors (buildroot and buildroot-busybox alike, for
    either value of [guess_ckey]) look at the first line of the Makefile
    of the source directory only, here a Makefile of ASCII text: the
    answer is whether that line, its terminator and surrounding white
    space left aside, is the Buildroot header.  A missing Makefile is the
    answer false, not an error; any other failure to open it is raised.
    Neither the world nor the instance changes. *)
Theorem buildroot_detect_reads_first_line
    (c : build_class) (i : BuildInfo) (k : option string) (g : bool) (w : world) :
  c = BuildrootBuildType ∨ c = BuildrootBusyboxBuildType →
  ascii_makefile i w →
  detect (new c i k) g w
  = (match file_content (w_dirs w) (src_dir i, "Makefile") with
     | Return content =>
         Return (bool_decide (PyStr.strip PyStr.isspace
                                (first_line (String.string_of_list_byte content))
                              = buildroot_header),
                 new c i k)
     | Raise FileNotFoundError => Return (false, new c i k)
     | Raise e => Raise e
     end, w).
Proof. intros Hc _. by apply buildroot_detect_first_line. Qed.

Lemma buildroot_detect_reads_first_line_witness :
  detect (new BuildrootBusyboxBuildType demo_info None) false
         (makefile_world ("  # Makefile for buildroot " +:+ String "013"%char nl +:+ "all:"))
  = (Return (true, new BuildrootBusyboxBuildType demo_info None),
     makefile_world ("  # Makefile for buildroot " +:+ String "013"%char nl +:+ "all:")).
Proof.
  rewrite (buildroot_detect_reads_first_line BuildrootBusyboxBuildType demo_info None false _
             (or_intror eq_refl)).
  - reflexivity.
  - intros content Hc. injection Hc as <-. reflexivity.
Defined.

(** ** Choosing the build type: the other branches of [main] *)

Lemma build_type_alias_map_is_table : get_build_type_map.2 = list_to_map alias_table.
Proof. vm_compute. reflexivity. Qed.

Lemma select_build_type_explicit i t w :
  PyStr.truthy t = true →
  select_build_type i (Some t) w
  = match (list_to_map alias_table : gmap string build_class) !! t with
    | Some c =>
        do (ok, build_type) <- detect (new c i None) false;
        if ok : bool then ret build_type
        else raise (RuntimeError "build type mismatch" (NAME (cls build_type)))
    | None =>
        do (ok, build_type) <- detect (new GenericBuildType i (Some t)) true;
        if ok : bool then ret build_type
        else raise (RuntimeError "build type mismatch" (NAME (cls build_type)))
    end w.
Proof.
  intros Ht. unfold select_build_type.
  pose proof build_type_alias_map_is_table as Hm.
  destruct get_build_type_map as [bm am]. simpl in Hm. subst am.
  by rewrite Ht.
Qed.

Lemma alias_table_lookup t c :
  (t, c) ∈ alias_table →
  PyStr.truthy t = true
  ∧ (list_to_map alias_table : gmap string build_class) !! t = Some c.
Proof.
  unfold alias_table. intros H.
  repeat (apply elem_of_cons in H as [[= -> ->]|H]; [by split|]).
  by apply elem_of_nil in H.
Qed.

Lemma detect_generic_guess i k w :
  detect (new GenericBuildType i k) true w = (Return (true, generic_guessed i), w).
Proof.
  unfold detect, ret, generic_guessed, guessed_key. cbn [cls info new]. do 3 f_equal.
  unfold PyStr.strip. by rewrite rstrip_partition_head, partition_head_dot, lstrip_dots.
Qed.

(** X3: A type given (after its normalisation) as one of the seven names
    of the alias table selects that class: its detector is asked without key
    guessing, the instance is returned when it agrees, and the "build type
    mismatch" error carries the class name (not the alias) when it does
    not.  For [generic] the instance keeps the key ["generic"]. *)
Theorem explicit_type_goes_through_alias_table
    (i : BuildInfo) (t : string) (c : build_class) (w : world) :
  (t, c) ∈ alias_table →
  select_build_type i (Some t) w
  = match detect (new c i None) false w with
    | (Return (true, build_type), w') => (Return build_type, w')
    | (Return (false, _), w') => (Raise (RuntimeError "build type mismatch" (NAME c)), w')
    | (Raise e, w') => (Raise e, w')
    end
  ∧ (c = GenericBuildType →
     select_build_type i (Some t) w = (Return (new GenericBuildType i None), w)
     ∧ ckey (new GenericBuildType i None) = "generic").
Proof.
  intros [Ht Hl]%alias_table_lookup.
  rewrite (select_build_type_explicit _ _ _ Ht), Hl. split.
  - unfold bind.
    destruct (detect (new c i None) false w) as [[[ok bt]|e] w'] eqn:Hd; [|done].
    apply detect_cls in Hd as [Hc _]. destruct ok; [done|].
    unfold raise. by rewrite Hc.
  - by intros ->.
Qed.

Lemma explicit_type_goes_through_alias_table_witness :
  select_build_type demo_info (Some "brb") empty_world
  = (Raise (RuntimeError "build type mismatch" "buildroot-busybox"), empty_world).
Proof.
  rewrite (proj1 (explicit_type_goes_through_alias_table demo_info "brb"
                    BuildrootBusyboxBuildType empty_world ltac:(set_solver))).
  reflexivity.
Defined.

(** X4: A type string that is not in the alias table, ["auto"] among them,
    makes a generic instance; the string is passed as its key, but the
    detector is then asked to guess and replaces it: the instance
    returned has the key guessed from the build directory, whatever the
    string was, and the source tree is not looked at. *)
Theorem unknown_type_string_is_discarded (i : BuildInfo) (t : string) (w : world) :
  PyStr.truthy t = true →
  t ∉ alias_table.*1 →
  select_build_type i (Some t) w = (Return (generic_guessed i), w).
Proof.
  intros Ht Hn. rewrite (select_build_type_explicit _ _ _ Ht).
  rewrite (not_elem_of_list_to_map_1 _ _ Hn).
  by rewrite (bind_Return _ _ _ _ _ (detect_generic_guess i (Some t) w)).
Qed.

Lemma unknown_type_string_is_discarded_witness :
  select_build_type demo_info (Some "auto") buildroot_tree
  = (Return {| cls := GenericBuildType; info := demo_info; ckey := "foo" |}, buildroot_tree).
Proof.
  apply (unknown_type_string_is_discarded demo_info "auto" buildroot_tree).
  - reflexivity.
  - apply (bool_decide_unpack _). vm_compute. exact I.
Defined.

(** X5: Without a type, what the probing returns is decided by the Makefile
    of the source directory alone (a Makefile of ASCII text): a buildroot
    instance when its first line is the Buildroot header, the generic
    instance with the guessed key when it is not or when there is no
    Makefile, and the error of opening the Makefile otherwise.  The linux
    and buildroot-busybox variants are never chosen and "no build type
    found" is never raised. *)
Theorem auto_detection_outcomes (i : BuildInfo) (w : world) :
  ascii_makefile i w →
  let outcome :=
    (match file_content (w_dirs w) (src_dir i, "Makefile") with
     | Return content =>
         if bool_decide (PyStr.strip PyStr.isspace
                           (first_line (String.string_of_list_byte content))
                         = buildroot_header)
         then Return (new BuildrootBuildType i None)
         else Return (generic_guessed i)
     | Raise FileNotFoundError => Return (generic_guessed i)
     | Raise e => Raise e
     end, w) in
  select_build_type i None w = outcome
  ∧ select_build_type i (Some "") w = outcome.
Proof.
  intros _ outcome.
  rewrite !select_build_type_auto by auto.
  cut (probe_build_types i KNOWN_BUILD_TYPES w = outcome); [done|].
  subst outcome. unfold KNOWN_BUILD_TYPES. cbn [probe_build_types].
  rewrite (bind_Return _ _ w (false, new LinuxBuildType i None) w) by done.
  cbn iota beta. unfold bind.
  rewrite !(buildroot_detect_first_line _ i None true w) by auto.
  pose proof (buildroot_detect_first_line BuildrootBusyboxBuildType i None true w
                (or_intror eq_refl)) as Hbb.
  destruct (file_content _ _) as [content|e].
  - case_bool_decide; [done|]. cbn beta iota. rewrite Hbb.
    by rewrite detect_generic_guess.
  - destruct e; try done. cbn beta iota. rewrite Hbb.
    by rewrite detect_generic_guess.
Qed.

Lemma auto_detection_outcomes_witness :
  select_build_type demo_info None (makefile_world ("all:" +:+ nl))
  = (Return (generic_guessed demo_info), makefile_world ("all:" +:+ nl)).
Proof.
  rewrite (proj1 (auto_detection_outcomes demo_info (makefile_world ("all:" +:+ nl))
                    ltac:(intros content Hc; injection Hc as <-; reflexivity))).
  reflexivity.
Defined.

(** ** What the copier may touch, whatever fails *)

Lemma bind_inv {A B} (m : M A) (k : A → M B) w r w' :
  bind m k w = (r, w') →
  (∃ a w1, m w = (Return a, w1) ∧ k a w1 = (r, w'))
  ∨ (∃ e, m w = (Raise e, w') ∧ r = Raise e).
Proof.
  unfold bind. destruct (m w) as [[a|e] w1]; [by eauto|].
  intros [= <- <-]. eauto.
Qed.

Lemma touches_only_refl X w : touches_only X w w.
Proof. by intros p _. Qed.

Lemma touches_only_trans X w1 w2 w3 :
  touches_only X w1 w2 → touches_only X w2 w3 → touches_only X w1 w3.
Proof. intros H1 H2 p Hp. by rewrite H2, H1. Qed.

Lemma touches_only_weaken (X Y : path → Prop) w w' :
  (∀ p, X p → Y p) → touches_only X w w' → touches_only Y w w'.
Proof. intros HXY H p Hp. apply H. intros Hx. by apply Hp, HXY. Qed.

Lemma touches_only_same_dirs X w w' : w_dirs w' = w_dirs w → touches_only X w w'.
Proof. intros H p _. by rewrite H. Qed.

(** Changing one name of one directory changes one path. *)
Lemma lookup_node_alter_other (ds : gmap string directory) (g : directory → directory) p0 p :
  (∀ d n, n ≠ p0.2 → g d !! n = d !! n) →
  p ≠ p0 →
  lookup_node (alter g p0.1 ds) p = lookup_node ds p.
Proof.
  intros Hg Hp. unfold lookup_node.
  destruct (decide (p.1 = p0.1)) as [Heq|Hne].
  - rewrite Heq, lookup_alter_eq. destruct (ds !! p0.1) as [d|]; [|done]. simpl.
    apply Hg. intros H2. apply Hp. destruct p, p0; simpl in *; congruence.
  - by rewrite lookup_alter_ne.
Qed.

Lemma fault_with_inv e w r w' :
  fault_with e w = (r, w') →
  w_dirs w' = w_dirs w ∧ w_fds w' = w_fds w ∧ (r = Return tt ∨ r = Raise e).
Proof.
  unfold fault_with. destruct (w_faults w) as [|[] l]; intros [= <- <-]; auto.
Qed.

Lemma fh_read_frame bsize fh w r w' :
  fh_read bsize fh w = (r, w') → w_dirs w' = w_dirs w ∧ w_fds w' = w_fds w.
Proof.
  unfold fh_read, fault. intros [(a & w1 & H1 & H2) | (e & H1 & _)]%bind_inv.
  - apply fault_with_inv in H1 as (? & ? & _). by injection H2 as _ <-.
  - by apply fault_with_inv in H1 as (? & ? & _).
Qed.

Lemma os_write_frame fd block w r w' p0 :
  w_fds w !! fd = Some p0 →
  os_write fd block w = (r, w') →
  w_fds w' = w_fds w ∧ touches_only (λ p, p = p0) w w'.
Proof.
  intros Hfd. unfold os_write, fault.
  destruct (w_fds w !! fd) as [q|] eqn:Hq; [|congruence].
  assert (q = p0) as -> by congruence.
  intros [(a & w1 & H1 & H2) | (e & H1 & _)]%bind_inv.
  - apply fault_with_inv in H1 as (Hd & Hf & _).
    unfold modify in H2. injection H2 as _ <-. split; [done|].
    intros p Hp. unfold set_dirs. cbn [w_dirs]. rewrite Hd.
    apply lookup_node_alter_other; [|done].
    intros d n Hn. by rewrite lookup_alter_ne.
  - apply fault_with_inv in H1 as (Hd & Hf & _). split; [done|].
    by apply touches_only_same_dirs.
Qed.

Lemma os_close_frame fd w r w' :
  os_close fd w = (r, w') →
  w_dirs w' = w_dirs w ∧ w_fds w' = delete fd (w_fds w).
Proof.
  unfold os_close. destruct (w_fds w !! fd) eqn:Hfd.
  - unfold fault. intros (Hd & Hf & _)%fault_with_inv. by destruct w.
  - intros [= _ <-]. split; [done|]. by rewrite delete_id.
Qed.

Lemma os_replace_frame src dst w r w' :
  os_replace src dst w = (r, w') →
  w_fds w' = w_fds w
  ∧ touches_only (λ p, p = src ∨ p = dst) w w'
  ∧ (r ≠ Return tt → w_dirs w' = w_dirs w).
Proof.
  unfold os_replace, fault. intros [(a & w1 & H1 & H2) | (e & H1 & ->)]%bind_inv.
  - apply fault_with_inv in H1 as (Hd & Hf & _). rewrite Hd in H2.
    destruct (lookup_node (w_dirs w) src) as [n|]; cycle 1.
    { injection H2 as <- <-. split_and!; [done| |done]. by apply touches_only_same_dirs. }
    destruct (w_dirs w !! dst.1) as [dd|]; cycle 1.
    { injection H2 as <- <-. split_and!; [done| |done]. by apply touches_only_same_dirs. }
    assert (r = Raise IsADirectoryError ∧ w' = w1
            ∨ r = Return tt
              ∧ w' = set_dirs (λ ds, alter (insert dst.2 n) dst.1
                                       (alter (delete src.2) src.1 ds)) w1)
      as [[-> ->] | [-> ->]].
    { destruct n, (dd !! dst.2) as [[| |]|]; injection H2 as <- <-; auto. }
    + split_and!; [done| |done]. by apply touches_only_same_dirs.
    + split_and!; [by destruct w1| |done].
      intros p Hp. unfold set_dirs. cbn [w_dirs]. rewrite Hd.
      rewrite lookup_node_alter_other; [| |tauto].
      * apply lookup_node_alter_other; [|tauto].
        intros d n' Hn. by rewrite lookup_delete_ne.
      * intros d n' Hn. by rewrite lookup_insert_ne.
  - apply fault_with_inv in H1 as (Hd & Hf & _).
    split_and!; [done| |done]. by apply touches_only_same_dirs.
Qed.

Lemma os_unlink_frame p0 w r w' :
  os_unlink p0 w = (r, w') →
  w_fds w' = w_fds w ∧ touches_only (λ p, p = p0) w w'.
Proof.
  unfold os_unlink, fault. intros [(a & w1 & H1 & H2) | (e & H1 & ->)]%bind_inv.
  - apply fault_with_inv in H1 as (Hd & Hf & _). rewrite Hd in H2.
    destruct (lookup_node (w_dirs w) p0) as [[| |]|]; injection H2 as <- <-.
    1, 2: split; [by destruct w1|];
          intros p Hp; unfold set_dirs; cbn [w_dirs]; rewrite Hd;
          apply lookup_node_alter_other; [|done];
          intros d n' Hn; by rewrite lookup_delete_ne.
    all: split; [done|]; by apply touches_only_same_dirs.
  - apply fault_with_inv in H1 as (Hd & Hf & _).
    split; [done|]. by apply touches_only_same_dirs.
Qed.

Lemma write_loop_frame fuel bsize fd block fh w r w' p0 :
  w_fds w !! fd = Some p0 →
  write_loop fuel bsize fd block fh w = (r, w') →
  w_fds w' = w_fds w ∧ touches_only (λ p, p = p0) w w'.
Proof.
  revert block fh w. induction fuel as [|fuel IH]; intros block fh w Hfd.
  - destruct block; intros [= _ <-]; split; auto using touches_only_refl.
  - destruct block as [|x block].
    { intros [= _ <-]; split; auto using touches_only_refl. }
    cbn [write_loop].
    intros [(a & w1 & H1 & H2) | (e & H1 & ->)]%bind_inv.
    + apply (os_write_frame _ _ _ _ _ _ Hfd) in H1 as [Hf1 Ht1].
      apply bind_inv in H2 as [([b' fh'] & w2 & H2 & H3) | (e & H2 & ->)].
      * apply fh_read_frame in H2 as [Hd2 Hf2].
        apply IH in H3 as [Hf3 Ht3]; [|by rewrite Hf2, Hf1].
        split; [by rewrite Hf3, Hf2, Hf1|].
        eapply touches_only_trans; [exact Ht1|].
        eapply touches_only_trans; [|exact Ht3]. by apply touches_only_same_dirs.
      * apply fh_read_frame in H2 as [Hd2 Hf2]. split; [by rewrite Hf2, Hf1|].
        eapply touches_only_trans; [exact Ht1|]. by apply touches_only_same_dirs.
    + by apply (os_write_frame _ _ _ _ _ _ Hfd) in H1.
Qed.

Lemma lookup_node_insert_other (ds : gmap string directory) dir (d : directory) t x p :
  ds !! dir = Some d →
  p ≠ (dir, t) →
  lookup_node (<[dir := <[t := x]> d]> ds) p = lookup_node ds p.
Proof.
  intros Hd Hp. unfold lookup_node. destruct p as [pd pn]. cbn [fst snd].
  destruct (decide (pd = dir)) as [->|Hne].
  - rewrite lookup_insert_eq, Hd. simpl. apply lookup_insert_ne. congruence.
  - by rewrite lookup_insert_ne.
Qed.

Lemma mkstemp_inv suffix dir w r w1 :
  mkstemp suffix dir w = (r, w1) →
  (∃ e, r = Raise e ∧ w_dirs w1 = w_dirs w ∧ w_fds w1 = w_fds w)
  ∨ (∃ fd t d,
       r = Return (fd, (dir, t))
       ∧ w_fds w !! fd = None
       ∧ w_fds w1 = <[fd := (dir, t)]> (w_fds w)
       ∧ w_dirs w !! dir = Some d
       ∧ d !! t = None
       ∧ w_dirs w1 = <[dir := <[t := File []]> d]> (w_dirs w)).
Proof.
  unfold mkstemp, fault. intros [(a & w0 & H1 & H2) | (e & H1 & ->)]%bind_inv.
  - apply fault_with_inv in H1 as (Hd & Hf & _). rewrite Hd, Hf in H2.
    destruct (w_dirs w !! dir) as [d|] eqn:Hdir.
    + destruct (mkstemp_pick d suffix (w_tmpnames w0)) as [[t rest]|] eqn:Hpick.
      * injection H2 as <- <-. right. exists (fresh (dom (w_fds w))), t, d.
        split_and!; try done.
        -- apply not_elem_of_dom, is_fresh.
        -- cbn. by rewrite Hf.
        -- by apply mkstemp_pick_fresh in Hpick.
        -- cbn. by rewrite Hd.
      * injection H2 as <- <-. left. eexists. by split_and!.
    + injection H2 as <- <-. left. eexists. by split_and!.
  - apply fault_with_inv in H1 as (Hd & Hf & _). left. eauto.
Qed.

Lemma copy_file_try_frame src dst bsize fd tmp w1 r l w2 :
  w_fds w1 !! fd = Some tmp →
  copy_file_try src dst bsize fd tmp w1 = (r, l, w2) →
  delete fd (w_fds w2) = delete fd (w_fds w1)
  ∧ (tmp_fd l = Some fd ∨ tmp_fd l = None ∧ w_fds w2 !! fd = None)
  ∧ (tmp_filepath l = Some tmp ∨ tmp_filepath l = None)
  ∧ (r = Return tt → l = {| tmp_fd := None; tmp_filepath := None |})
  ∧ touches_only (λ p, p = tmp ∨ p = dst ∧ r = Return tt) w1 w2.
Proof.
  intros Hfd. unfold copy_file_try.
  destruct (bind _ _ w1) as [[[]|e] wa] eqn:Hloop.
  - assert (w_fds wa = w_fds w1 ∧ touches_only (λ p, p = tmp) w1 wa) as [Hfa Hta].
    { apply bind_inv in Hloop as [(fh & wb & H1 & H2) | (e & H1 & ?)]; [|done].
      unfold open_rb in H1. injection H1 as _ <-.
      apply bind_inv in H2 as [([block fh'] & wc & H2 & H3) | (e & H2 & ?)]; [|done].
      apply fh_read_frame in H2 as [Hdc Hfc].
      apply (write_loop_frame _ _ _ _ _ _ _ _ tmp) in H3 as [Hf3 Ht3];
        [|by rewrite Hfc].
      split; [by rewrite Hf3, Hfc|].
      eapply touches_only_trans; [|exact Ht3]. by apply touches_only_same_dirs. }
    destruct (os_close fd wa) as [[[]|e] wb] eqn:Hclose.
    + apply os_close_frame in Hclose as [Hdb Hfb].
      destruct (os_replace tmp dst wb) as [[[]|e] wc] eqn:Hrep.
      * apply os_replace_frame in Hrep as (Hfc & Htc & _).
        intros [= <- <- <-]. cbn [tmp_fd tmp_filepath].
        split_and!; [|right|auto|done|].
        -- by rewrite Hfc, Hfb, Hfa, delete_delete_eq.
        -- split; [done|]. by rewrite Hfc, Hfb, lookup_delete_eq.
        -- eapply touches_only_trans;
             [eapply touches_only_weaken; [|exact Hta]; tauto|].
           eapply touches_only_trans;
             [apply (touches_only_same_dirs _ wa wb Hdb)|].
           eapply touches_only_weaken; [|exact Htc]. intros p [-> | ->]; auto.
      * apply os_replace_frame in Hrep as (Hfc & _ & Hdc).
        intros [= <- <- <-]. cbn [tmp_fd tmp_filepath].
        split_and!; [|right|auto|done|].
        -- by rewrite Hfc, Hfb, Hfa, delete_delete_eq.
        -- split; [done|]. by rewrite Hfc, Hfb, lookup_delete_eq.
        -- eapply touches_only_trans;
             [eapply touches_only_weaken; [|exact Hta]; tauto|].
           apply touches_only_same_dirs. by rewrite Hdc, Hdb.
    + apply os_close_frame in Hclose as [Hdb Hfb].
      intros [= <- <- <-]. cbn [tmp_fd tmp_filepath].
      split_and!; [|auto|auto|done|].
      * by rewrite Hfb, Hfa, delete_delete_eq.
      * eapply touches_only_trans;
          [eapply touches_only_weaken; [|exact Hta]; tauto|].
        by apply touches_only_same_dirs.
  - assert (w_fds wa = w_fds w1 ∧ touches_only (λ p, p = tmp) w1 wa) as [Hfa Hta].
    { apply bind_inv in Hloop as [(fh & wb & H1 & H2) | (e' & H1 & ?)]; cycle 1.
      { unfold open_rb in H1. injection H1 as _ <-.
        split; [done|apply touches_only_refl]. }
      unfold open_rb in H1. injection H1 as _ <-.
      apply bind_inv in H2 as [([block fh'] & wc & H2 & H3) | (e' & H2 & ?)].
      - apply fh_read_frame in H2 as [Hdc Hfc].
        apply (write_loop_frame _ _ _ _ _ _ _ _ tmp) in H3 as [Hf3 Ht3];
          [|by rewrite Hfc].
        split; [by rewrite Hf3, Hfc|].
        eapply touches_only_trans; [|exact Ht3]. by apply touches_only_same_dirs.
      - apply fh_read_frame in H2 as [Hdc Hfc].
        split; [done|]. by apply touches_only_same_dirs. }
    intros [= <- <- <-]. cbn [tmp_fd tmp_filepath].
    split_and!; [by rewrite Hfa|auto|auto|done|].
    eapply touches_only_weaken; [|exact Hta]. tauto.
Qed.

Lemma copy_file_finally_frame fd tmp l w2 r w3 :
  (tmp_fd l = Some fd ∨ tmp_fd l = None) →
  (tmp_filepath l = Some tmp ∨ tmp_filepath l = None) →
  copy_file_finally l w2 = (r, w3) →
  w_fds w3 = match tmp_fd l with
             | Some _ => delete fd (w_fds w2)
             | None => w_fds w2
             end
  ∧ touches_only (λ p, p = tmp) w2 w3
  ∧ (l = {| tmp_fd := None; tmp_filepath := None |} → r = Return tt).
Proof.
  intros Hl1 Hl2. unfold copy_file_finally.
  intros [([] & wa & H1 & H2) | (e & H1 & ->)]%bind_inv.
  - assert (w_dirs wa = w_dirs w2
            ∧ w_fds wa = match tmp_fd l with
                         | Some _ => delete fd (w_fds w2)
                         | None => w_fds w2
                         end) as [Hda Hfa].
    { destruct Hl1 as [Hl1|Hl1]; rewrite Hl1 in H1 |- *.
      - by apply os_close_frame in H1.
      - by injection H1 as <-. }
    destruct Hl2 as [Hl2|Hl2]; rewrite Hl2 in H2.
    + apply os_unlink_frame in H2 as [Hf3 Ht3]. split_and!.
      * by rewrite Hf3.
      * eapply touches_only_trans; [|exact Ht3]. by apply touches_only_same_dirs.
      * intros ->. done.
    + injection H2 as <- <-. split_and!; [done| |done].
      by apply touches_only_same_dirs.
  - destruct Hl1 as [Hl1|Hl1]; rewrite Hl1 in H1 |- *.
    + apply os_close_frame in H1 as [Hd Hf]. split_and!; [done| |by intros ->].
      by apply touches_only_same_dirs.
    + done.
Qed.

Lemma copy_file_frame_strong
    (src dst : path) (bsize : nat) (w w' : world) (r : result unit) :
  copy_file src dst bsize w = (r, w') →
  w_fds w' = w_fds w
  ∧ (w_dirs w' = w_dirs w
     ∨ ∃ t, lookup_node (w_dirs w) (dst.1, t) = None
            ∧ touches_only (λ p, p = (dst.1, t) ∨ p = dst ∧ r = Return tt) w w').
Proof.
  unfold copy_file.
  intros [([] & w0 & H0 & H1) | (e & H0 & _)]%bind_inv; [|done].
  unfold sys_stdout_write, modify in H0. injection H0 as <-. cbn [fst] in H1.
  apply bind_inv in H1 as [([fd tmp] & w1 & H1 & H2) | (e & H1 & ->)].
  - apply mkstemp_inv in H1 as [(? & ? & _) | (fd' & t & d & Heq & Hfd & Hf1 & Hd & Ht & Hd1)];
      [done|].
    injection Heq as -> ->. cbn [w_dirs w_fds] in *.
    destruct (copy_file_try src dst bsize fd' (dst.1, t) w1) as [[rt l] w2] eqn:Htry.
    apply copy_file_try_frame in Htry as (Hf2 & Hl1 & Hl2 & Hret & Ht2);
      [|by rewrite Hf1, lookup_insert_eq].
    destruct (copy_file_finally l w2) as [rf w3] eqn:Hfin.
    apply (copy_file_finally_frame fd' (dst.1, t)) in Hfin as (Hf3 & Ht3 & Hretf);
      [|tauto..].
    assert (w' = w3 ∧ (rt = Return tt → r = Return tt)) as [-> Hr].
    { destruct rf as [[]|e]; injection H2 as <- <-; [done|]. split; [done|].
      intros Hrt. by specialize (Hretf (Hret Hrt)). }
    split.
    + rewrite Hf3. destruct Hl1 as [Hl1 | [Hl1 Hnone]]; rewrite Hl1.
      * by rewrite Hf2, Hf1, delete_insert_id.
      * rewrite <- (delete_id (w_fds w2) fd') by done.
        by rewrite Hf2, Hf1, delete_insert_id.
    + right. exists t. split.
      { unfold lookup_node. cbn [fst snd]. rewrite Hd. simpl. exact Ht. }
      intros p Hp.
      rewrite Ht3 by tauto. rewrite Ht2 by (intros [?|[? ?]]; apply Hp; auto).
      rewrite Hd1. apply lookup_node_insert_other; [done|]. tauto.
  - apply mkstemp_inv in H1 as [(? & _ & Hd & Hf) | (? & ? & ? & ? & _)]; [|done].
    split; [done|]. by left.
Qed.

Lemma copy_file_frame (src dst : path) (bsize : nat) (w w' : world) (r : result unit) :
  copy_file src dst bsize w = (r, w') →
  w_fds w' = w_fds w
  ∧ ∀ p, is_Some (lookup_node (w_dirs w) p) →
         p ≠ dst ∨ r ≠ Return tt →
         lookup_node (w_dirs w') p = lookup_node (w_dirs w) p.
Proof.
  intros [Hf [Hd | (t & Ht & Htouch)]]%copy_file_frame_strong; (split; [done|]).
  - intros p _ _. by rewrite Hd.
  - intros p Hp Hcase. apply Htouch. intros [-> | [-> Hr]].
    + rewrite Ht in Hp. by destruct Hp.
    + by destruct Hcase.
Qed.


(** X6: Whatever the environment does during [copy_file] - any call may
    fail, in any combination - no descriptor is left open, every entry
    that existed before and is not the destination is as it was, and
    when the copy fails the destination, if it existed, is as it was
    too. *)
Theorem copy_file_touches_destination_only (src dst : path) (bsize : nat) (w : world) :
  let res := copy_file src dst bsize w in
  w_fds res.2 = w_fds w
  ∧ ∀ p, is_Some (lookup_node (w_dirs w) p) →
         p ≠ dst ∨ res.1 ≠ Return tt →
         lookup_node (w_dirs res.2) p = lookup_node (w_dirs w) p.
Proof.
  intros res. subst res.
  destruct (copy_file src dst bsize w) as [r w'] eqn:Hcopy.
  apply copy_file_frame in Hcopy as [Hf Hp]. cbn [fst snd]. by split.
Qed.

(** ** The copier when nothing fails, and when one call does *)

(** X7: In a quiet environment [copy_file] announces the copy, leaves the
    bytes of the source (links followed) as a regular file at the
    destination, replacing what was there unless it is a directory, and
    changes nothing else: no other entry, no temporary file left, no
    descriptor open. *)
Theorem copy_file_copies
    (src dst : path) (bsize : nat) (w : world)
    (c : bytes) (d : directory) (t : string) (rest : list string) :
  w_faults w = [] →
  0 < bsize →
  file_content (w_dirs w) src = Return c →
  w_dirs w !! dst.1 = Some d →
  mkstemp_pick d ".tmp" (w_tmpnames w) = Some (t, rest) →
  d !! dst.2 ≠ Some Dir →
  ∃ w',
    copy_file src dst bsize w = (Return tt, w')
    ∧ lookup_node (w_dirs w') dst = Some (File c)
    ∧ (∀ p, p ≠ dst → lookup_node (w_dirs w') p = lookup_node (w_dirs w) p)
    ∧ w_fds w' = w_fds w
    ∧ w_stdout w' = w_stdout w ++ [copy_msg src dst]
    ∧ w_stderr w' = w_stderr w.
Proof.
  intros Hq Hb Hc Hd Hpick Hdst.
  eexists. split; [by eapply copy_file_quiet|]. cbn [w_dirs w_fds w_stdout w_stderr].
  split_and!; try done.
  - unfold lookup_node. rewrite lookup_insert_eq. simpl. by rewrite lookup_insert_eq.
  - intros p Hp. apply lookup_node_insert_other; [done|]. by destruct dst.
Qed.

Lemma copy_file_copies_witness :
  ∃ w',
    copy_file ("/cfg/generic", "latest") ("/build/.foo.bar", ".config") default_bsize
              collision_world = (Return tt, w')
    ∧ lookup_node (w_dirs w') ("/build/.foo.bar", ".config")
      = Some (File (bytes_of "CONFIG_A=n")).
Proof.
  destruct (copy_file_copies ("/cfg/generic", "latest") ("/build/.foo.bar", ".config")
              default_bsize collision_world (bytes_of "CONFIG_A=n") build_only
              "tmpaaaaaaaa.tmp" ["bbbbbbbb"]) as (w' & H1 & H2 & _).
  - reflexivity.
  - apply default_bsize_pos.
  - reflexivity.
  - reflexivity.
  - reflexivity.
  - discriminate.
  - exists w'. split; [exact H1 | exact H2].
Defined.

(** X8: When the rename is refused because the destination is a directory,
    [copy_file] raises that error after its [finally] suite has removed
    the temporary file: every directory is exactly as before the call. *)
Theorem copy_file_refused_rename_cleans_up
    (src dst : path) (bsize : nat) (w : world)
    (c : bytes) (d : directory) (t : string) (rest : list string) :
  w_faults w = [] →
  0 < bsize →
  file_content (w_dirs w) src = Return c →
  w_dirs w !! dst.1 = Some d →
  mkstemp_pick d ".tmp" (w_tmpnames w) = Some (t, rest) →
  d !! dst.2 = Some Dir →
  ∃ w',
    copy_file src dst bsize w = (Raise IsADirectoryError, w')
    ∧ w_dirs w' = w_dirs w
    ∧ w_fds w' = w_fds w.
Proof.
  intros Hq Hb Hc Hd Hpick Hdst.
  eexists. split; [by eapply copy_file_onto_directory|]. done.
Qed.

Lemma copy_file_refused_rename_cleans_up_witness :
  ∃ w',
    copy_file ("/build/.foo.bar", ".config") ("/cfg/generic", "sub") default_bsize
              mixed_world = (Raise IsADirectoryError, w')
    ∧ w_dirs w' = w_dirs mixed_world.
Proof.
  destruct (copy_file_refused_rename_cleans_up
              ("/build/.foo.bar", ".config") ("/cfg/generic", "sub") default_bsize
              mixed_world (bytes_of "CONFIG_A=y") store_mixed
              "tmpaaaaaaaa.tmp" ["bbbbbbbb"]) as (w' & H1 & H2 & _).
  - reflexivity.
  - apply default_bsize_pos.
  - reflexivity.
  - reflexivity.
  - reflexivity.
  - reflexivity.
  - exists w'. split; [exact H1 | exact H2].
Defined.

(** X9: An I/O error on the first read of the source, or on the first write
    to the temporary file: [copy_file] raises it after its [finally]
    suite has closed the descriptor and removed the temporary file, so
    every directory is exactly as before the call. *)
Theorem copy_file_early_error_cleans_up
    (src dst : path) (bsize : nat) (w : world)
    (c : bytes) (d : directory) (t : string) (rest : list string) :
  w_faults w = [false; true] ∨ w_faults w = [false; false; true] ∧ take bsize c ≠ [] →
  file_content (w_dirs w) src = Return c →
  w_dirs w !! dst.1 = Some d →
  mkstemp_pick d ".tmp" (w_tmpnames w) = Some (t, rest) →
  ∃ w',
    copy_file src dst bsize w = (Raise OSError_EIO, w')
    ∧ w_dirs w' = w_dirs w
    ∧ w_fds w' = w_fds w.
Proof.
  intros Hf Hc Hd Hpick.
  pose proof (mkstemp_pick_fresh _ _ _ _ _ Hpick) as Ht.
  destruct w as [ds fds out err fl tn gd cmds today]. simpl in *.
  destruct dst as [dir n]. simpl in *.
  assert (fds !! fresh (dom fds) = None) as Hfd by (apply not_elem_of_dom, is_fresh).
  assert (<[dir := delete t (<[t := File []]> d)]> ds = ds) as Hback.
  { by rewrite delete_insert_id, insert_id. }
  destruct Hf as [-> | [-> Hne]].
  - unfold copy_file. world_fields.
    unfold sys_stdout_write, modify, bind at 1. world_fields.
    unfold mkstemp, fault, bind at 1, bind at 1, fault_with. world_fields.
    rewrite Hd, Hpick. unfold set_tmpnames, set_fds, set_dirs. world_fields.
    unfold copy_file_try, bind at 1, open_rb. world_fields.
    rewrite (file_content_insert_fresh _ _ _ _ _ _ _ Hd Ht Hc).
    unfold fh_read at 1, fault, bind at 1, bind at 1, fault_with. world_fields.
    unfold copy_file_finally, bind at 1, os_close. cbn [tmp_fd tmp_filepath].
    world_fields. rewrite lookup_insert_eq. unfold fault, fault_with. world_fields.
    unfold os_unlink, fault, bind, fault_with, lookup_node. world_fields.
    rewrite lookup_insert_eq. cbn [mbind option_bind]. rewrite lookup_insert_eq.
    eexists. split; [reflexivity|]. unfold set_dirs. world_fields.
    rewrite (alter_Some_insert _ _ dir _ (lookup_insert_eq _ _ _)).
    by rewrite insert_insert_eq, Hback, delete_insert_id.
  - unfold copy_file. world_fields.
    unfold sys_stdout_write, modify, bind at 1. world_fields.
    unfold mkstemp, fault, bind at 1, bind at 1, fault_with. world_fields.
    rewrite Hd, Hpick. unfold set_tmpnames, set_fds, set_dirs. world_fields.
    unfold copy_file_try, bind at 1, open_rb. world_fields.
    rewrite (file_content_insert_fresh _ _ _ _ _ _ _ Hd Ht Hc).
    unfold fh_read at 1, fault, bind at 1, bind at 1, fault_with, ret. world_fields.
    destruct (take bsize c) as [|b blk] eqn:Hblk; [done|]. cbn [write_loop].
    unfold os_write, bind at 1. world_fields. rewrite lookup_insert_eq.
    unfold fault, bind at 1, fault_with. world_fields.
    unfold copy_file_finally, bind at 1, os_close. cbn [tmp_fd tmp_filepath].
    world_fields. rewrite lookup_insert_eq. unfold fault, fault_with. world_fields.
    unfold os_unlink, fault, bind, fault_with, lookup_node. world_fields.
    rewrite lookup_insert_eq. cbn [mbind option_bind]. rewrite lookup_insert_eq.
    eexists. split; [reflexivity|]. unfold set_dirs. world_fields.
    rewrite (alter_Some_insert _ _ dir _ (lookup_insert_eq _ _ _)).
    by rewrite insert_insert_eq, Hback, delete_insert_id.
Qed.

Lemma copy_file_early_error_cleans_up_witness :
  ∃ w',
    copy_file ("/build/.foo.bar", ".config") ("/cfg/generic", "config_2024-01-01")
              default_bsize (set_faults [false; true] collision_world)
    = (Raise OSError_EIO, w')
    ∧ w_dirs w' = w_dirs collision_world.
Proof.
  destruct (copy_file_early_error_cleans_up
              ("/build/.foo.bar", ".config") ("/cfg/generic", "config_2024-01-01")
              default_bsize (set_faults [false; true] collision_world)
              (bytes_of "CONFIG_A=y") store_one "tmpaaaaaaaa.tmp" ["bbbbbbbb"])
    as (w' & H1 & H2 & _).
  - left. reflexivity.
  - reflexivity.
  - reflexivity.
  - reflexivity.
  - exists w'. split; [exact H1 | exact H2].
Defined.

(** ** Restore and list *)

Lemma get_config_dir_frame self verbose w r w1 :
  get_config_dir self verbose w = (r, w1) →
  w_dirs w1 = w_dirs w ∧ w_fds w1 = w_fds w ∧ w_stdout w1 = w_stdout w
  ∧ w_faults w1 = w_faults w ∧ w_tmpnames w1 = w_tmpnames w ∧ w_cmds w1 = w_cmds w
  ∧ r ≠ Raise FileNotFoundError.
Proof.
  unfold get_config_dir, try_except.
  intros [(cmap & wa & H1 & H2) | (e & H1 & ->)]%bind_inv.
  - injection H2 as <- <-.
    destruct (bind _ _ w) as [[m|e] wb] eqn:Hl.
    + injection H1 as <- <-.
      apply bind_inv in Hl as [(m' & wc & Hl & Hr) | (? & _ & ?)]; [|done].
      injection Hr as <- <-. unfold list_config_dir, bind, os_scandir in Hl.
      destruct (w_dirs w !! _); [|done]. destruct (is_file _ _); [done|].
      by injection Hl as _ <-.
    + assert (wb = w) as ->.
      { apply bind_inv in Hl as [(m' & wc & _ & ?) | (? & Hl & _)]; [done|].
        unfold list_config_dir, bind, os_scandir in Hl.
        destruct (w_dirs w !! _); [|by injection Hl as _ <-].
        destruct (is_file _ _); [|done]. by injection Hl as _ <-. }
      destruct (decide (e = FileNotFoundError)); [|done].
      destruct verbose; by injection H1 as <- <-.
  - destruct (bind _ _ w) as [[m|e'] wb] eqn:Hl; [done|].
    assert (wb = w) as ->.
    { apply bind_inv in Hl as [(m' & wc & _ & ?) | (? & Hl & _)]; [done|].
      unfold list_config_dir, bind, os_scandir in Hl.
      destruct (w_dirs w !! _); [|by injection Hl as _ <-].
      destruct (is_file _ _); [|done]. by injection Hl as _ <-. }
    destruct (decide (e' = FileNotFoundError)) as [->|Hne].
    + destruct verbose; done.
    + injection H1 as <- <-. split_and!; try done. congruence.
Qed.

(** X10: A restore of a name the store has, in a quiet environment: the
    build-config file of the build directory receives the bytes of the
    stored file (links such as ["latest"] followed), the call returns
    [None], and nothing else changes - the store entry included. *)
Theorem run_config_restores
    (self : BuildType) (n : option string) (w : world)
    (m : gmap string DirEntry) (cfile : DirEntry)
    (c : bytes) (d : directory) (t : string) (rest : list string) :
  let bcfile := get_build_config_file_path self in
  w_faults w = [] →
  list_config_dir (get_config_dir_path self) w = (Return m, w) →
  m !! str_or n "latest" = Some cfile →
  file_content (w_dirs w) (epath cfile) = Return c →
  w_dirs w !! bcfile.1 = Some d →
  mkstemp_pick d ".tmp" (w_tmpnames w) = Some (t, rest) →
  d !! bcfile.2 ≠ Some Dir →
  ∃ w',
    run_config self n w = (Return py_None, w')
    ∧ lookup_node (w_dirs w') bcfile = Some (File c)
    ∧ (∀ p, p ≠ bcfile → lookup_node (w_dirs w') p = lookup_node (w_dirs w) p)
    ∧ w_fds w' = w_fds w
    ∧ w_stdout w' = w_stdout w ++ [copy_msg (epath cfile) bcfile]
    ∧ w_stderr w' = w_stderr w.
Proof.
  intros bcfile Hq Hl Hm Hc Hd Hpick Hdst.
  pose proof (copy_file_quiet (epath cfile) bcfile default_bsize w c d t rest
                Hq default_bsize_pos Hc Hd Hpick Hdst) as Hcopy.
  eexists. split.
  { unfold run_config.
    rewrite (bind_Return _ _ _ _ _ (get_config_dir_present self true w m Hl)).
    unfold not_cmap. rewrite bool_decide_eq_false_2; cycle 1.
    { intros ->. by rewrite lookup_empty in Hm. }
    unfold get_default_config_name. rewrite Hm.
    by rewrite (bind_Return _ _ _ _ _ Hcopy). }
  cbn [w_dirs w_fds w_stdout w_stderr]. split_and!; try done.
  - unfold lookup_node. rewrite lookup_insert_eq. simpl. by rewrite lookup_insert_eq.
  - intros p Hp. apply lookup_node_insert_other; [done|]. by destruct bcfile.
Qed.

Lemma run_config_restores_witness :
  ∃ w',
    run_config generic_self None collision_world = (Return py_None, w')
    ∧ lookup_node (w_dirs w') ("/build/.foo.bar", ".config")
      = Some (File (bytes_of "CONFIG_A=n")).
Proof.
  destruct (run_config_restores generic_self None collision_world store_one_map
              (entry_of "latest") (bytes_of "CONFIG_A=n") build_only
              "tmpaaaaaaaa.tmp" ["bbbbbbbb"]) as (w' & H1 & H2 & _).
  - reflexivity.
  - vm_compute. reflexivity.
  - reflexivity.
  - reflexivity.
  - reflexivity.
  - reflexivity.
  - discriminate.
  - exists w'. split; [exact H1 | exact H2].
Defined.

(** X11: A restore into a build directory that does not exist does not
    return [False]: the [FileNotFoundError] of [mkstemp] leaves
    [run_config], after the copy has been announced, and no directory is
    changed. *)
Theorem run_config_missing_build_dir
    (self : BuildType) (n : option string) (w : world)
    (m : gmap string DirEntry) (cfile : DirEntry) :
  w_faults w = [] →
  list_config_dir (get_config_dir_path self) w = (Return m, w) →
  m !! str_or n "latest" = Some cfile →
  w_dirs w !! build_dir (info self) = None →
  ∃ w',
    run_config self n w = (Raise FileNotFoundError, w')
    ∧ w_dirs w' = w_dirs w
    ∧ w_fds w' = w_fds w
    ∧ w_stdout w' = w_stdout w ++ [copy_msg (epath cfile) (get_build_config_file_path self)].
Proof.
  intros Hq Hl Hm Hd.
  unfold run_config.
  rewrite (bind_Return _ _ _ _ _ (get_config_dir_present self true w m Hl)).
  unfold not_cmap. rewrite bool_decide_eq_false_2; cycle 1.
  { intros ->. by rewrite lookup_empty in Hm. }
  unfold get_default_config_name. rewrite Hm.
  destruct w as [ds fds out err fl tn gd cmds today]. simpl in *. subst fl.
  unfold bind at 1, copy_file, bind at 1, sys_stdout_write, modify. world_fields.
  unfold mkstemp, fault, bind, fault_with, get_build_config_file_path. world_fields.
  rewrite Hd. eexists. split; [reflexivity|]. done.
Qed.

Lemma run_config_missing_build_dir_witness :
  ∃ w',
    run_config generic_self None no_build_dir_world = (Raise FileNotFoundError, w')
    ∧ w_dirs w' = w_dirs no_build_dir_world.
Proof.
  destruct (run_config_missing_build_dir generic_self None no_build_dir_world
              store_one_map (entry_of "latest")) as (w' & H1 & H2 & _).
  - reflexivity.
  - vm_compute. reflexivity.
  - reflexivity.
  - reflexivity.
  - exists w'. split; [exact H1 | exact H2].
Defined.

Lemma run_config_frame
    (self : BuildType) (n : option string) (w w' : world) (r : result (option bool)) :
  run_config self n w = (r, w') →
  w_fds w' = w_fds w
  ∧ ∀ p, is_Some (lookup_node (w_dirs w) p) →
         p ≠ get_build_config_file_path self ∨ r ≠ Return py_None →
         lookup_node (w_dirs w') p = lookup_node (w_dirs w) p.
Proof.
  unfold run_config.
  intros [([cdir cmap] & w1 & H1 & H2) | (e & H1 & ->)]%bind_inv.
  - apply get_config_dir_frame in H1 as (Hd1 & Hf1 & _).
    assert (r = Return py_False ∧ w_dirs w' = w_dirs w1 ∧ w_fds w' = w_fds w1
            ∨ ∃ cfile,
                (copy_file (epath cfile) (get_build_config_file_path self) default_bsize ;;
                 ret py_None) w1 = (r, w')) as [(-> & Hd & Hf) | [cfile Hcopy]].
    { destruct cmap as [m|]; [|left; by injection H2 as <- <-].
      destruct (not_cmap (Some m)); [left; by injection H2 as <- <-|].
      destruct (m !! _) as [cfile|]; [right; eauto|].
      left. by injection H2 as <- <-. }
    + split; [by rewrite Hf, Hf1|]. intros p _ _. by rewrite Hd, Hd1.
    + apply bind_inv in Hcopy as [([] & w2 & Hcopy & Hret) | (e & Hcopy & ->)].
      * injection Hret as <- <-.
        apply copy_file_frame in Hcopy as [Hf Hp].
        split; [by rewrite Hf, Hf1|]. intros p Hsome Hcase. rewrite <- Hd1.
        apply Hp; [by rewrite Hd1|]. destruct Hcase as [?|Hc]; [by left|done].
      * apply copy_file_frame in Hcopy as [Hf Hp].
        split; [by rewrite Hf, Hf1|]. intros p Hsome Hcase. rewrite <- Hd1.
        apply Hp; [by rewrite Hd1|]. by right.
  - apply get_config_dir_frame in H1 as (Hd1 & Hf1 & _).
    split; [done|]. intros p _ _. by rewrite Hd1.
Qed.

(** X12: Whatever the environment does, a restore leaves every entry that
    existed before as it was, the build-config file excepted, and that
    one too unless the call returns [None]; no descriptor stays open. *)
Theorem run_config_touches_build_config_only
    (self : BuildType) (n : option string) (w : world) :
  let res := run_config self n w in
  w_fds res.2 = w_fds w
  ∧ ∀ p, is_Some (lookup_node (w_dirs w) p) →
         p ≠ get_build_config_file_path self ∨ res.1 ≠ Return py_None →
         lookup_node (w_dirs res.2) p = lookup_node (w_dirs w) p.
Proof.
  intros res. subst res.
  destruct (run_config self n w) as [r w'] eqn:Hrun.
  apply run_config_frame in Hrun as [Hf Hp]. cbn [fst snd]. by split.
Qed.

Lemma foldr_print (f : DirEntry → string) (l : list DirEntry) (w : world) :
  foldr (λ entry k, print (f entry) ;; k) (ret py_None) l w
  = (Return py_None,
     World (w_dirs w) (w_fds w) (w_stdout w ++ ((λ e, f e +:+ nl) <$> l)) (w_stderr w)
           (w_faults w) (w_tmpnames w) (w_git_dirs w) (w_cmds w) (w_today w)).
Proof.
  revert w. induction l as [|e l IH]; intros w; simpl.
  - unfold ret. rewrite app_nil_r. by destruct w.
  - unfold bind, print, sys_stdout_write, modify. rewrite IH. cbn.
    by rewrite <- (assoc_L (++)).
Qed.

(** X13: A listing of a store whose scanner map is not empty prints one line
    per key of the map, each key once, in ascending order of the names
    (character by character), the name alone or, in long format, joined
    to the store directory.  It returns [None] and changes nothing but
    the standard output. *)
Theorem run_list_prints_sorted_names
    (self : BuildType) (long_format : bool) (w : world) (m : gmap string DirEntry) :
  let cdir := get_config_dir_path self in
  list_config_dir cdir w = (Return m, w) →
  m ≠ ∅ →
  ∃ names w',
    run_list self long_format w = (Return py_None, w')
    ∧ names ≡ₚ (map_to_list m).*1
    ∧ NoDup names
    ∧ StronglySorted String.le names
    ∧ w_stdout w'
      = w_stdout w ++ ((λ n, (if long_format then PyStr.join cdir n else n) +:+ nl) <$> names)
    ∧ w_dirs w' = w_dirs w ∧ w_fds w' = w_fds w ∧ w_stderr w' = w_stderr w.
Proof.
  intros cdir Hl Hm.
  assert (∀ k e, (k, e) ∈ map_to_list m → name e = k ∧ epath e = (cdir, k)) as Hentries.
  { intros k e He%elem_of_map_to_list.
    apply list_config_dir_inv in Hl as (_ & d & _ & Hlook). rewrite Hlook in He.
    destruct (is_file d k && keep_name k); [|done]. by injection He as <-. }
  assert (name <$> (map_to_list m).*2 = (map_to_list m).*1) as Hnames.
  { induction (map_to_list m) as [|[k e] l IH]; [done|]. simpl. f_equal.
    - apply Hentries. by left.
    - apply IH. intros k' e' He'. apply Hentries. by right. }
  set (L := merge_sort entry_le (map_to_list m).*2).
  assert (L ≡ₚ (map_to_list m).*2) as Hperm by apply merge_sort_Permutation.
  exists (name <$> L). eexists. split_and!.
  - unfold run_list.
    rewrite (bind_Return _ _ _ _ _ (get_config_dir_present self true w m Hl)).
    unfold not_cmap. rewrite bool_decide_eq_false_2 by done.
    apply foldr_print.
  - by rewrite Hperm, Hnames.
  - rewrite Hperm, Hnames. apply NoDup_fst_map_to_list.
  - apply (StronglySorted_fmap _ entry_le); [done|].
    apply StronglySorted_merge_sort.
    + intros a b c. unfold entry_le. apply transitivity.
    + intros a b. unfold entry_le. apply String.le_total.
  - cbn [w_stdout]. f_equal. rewrite <- list_fmap_compose.
    apply Forall_fmap_ext_1.
    apply Forall_forall. intros e He.
    assert (∃ k, (k, e) ∈ map_to_list m) as [k Hk].
    { rewrite Hperm in He. apply list_elem_of_fmap in He as [[k e'] [-> He]]. eauto. }
    destruct (Hentries _ _ Hk) as [Hn Hp]. simpl.
    destruct long_format; [|done]. unfold path_str. by rewrite Hp, Hn.
  - done.
  - done.
  - done.
Qed.

Lemma run_list_prints_sorted_names_witness :
  ∃ names w',
    run_list generic_self true mixed_world = (Return py_None, w')
    ∧ names ≡ₚ ["a"; "b"]
    ∧ StronglySorted String.le names
    ∧ w_stdout w' = (λ n, PyStr.join "/cfg/generic" n +:+ nl) <$> names.
Proof.
  destruct (run_list_prints_sorted_names generic_self true mixed_world
              (<["a" := entry_of "a"]> {[ "b" := entry_of "b" ]}))
    as (names & w' & H1 & H2 & _ & H3 & H4 & _).
  - vm_compute. reflexivity.
  - apply insert_non_empty.
  - exists names, w'. split_and!; [exact H1| |exact H3|exact H4].
    rewrite H2. vm_compute. reflexivity.
Defined.

Lemma run_list_frame (self : BuildType) (long_format : bool) (w : world) :
  let res := run_list self long_format w in
  w_dirs res.2 = w_dirs w ∧ w_fds res.2 = w_fds w
  ∧ w_faults res.2 = w_faults w ∧ w_cmds res.2 = w_cmds w
  ∧ (res.1 = Return py_False ∨ res.1 = Return py_None ∨ res.1 = Raise IndexError).
Proof.
  intros res. subst res. unfold run_list.
  destruct (get_config_dir self true w) as [[[cdir cmap]|e] w1] eqn:Hget.
  - rewrite (bind_Return _ _ _ _ _ Hget).
    apply get_config_dir_frame in Hget as (Hd & Hf & _ & Hq & _ & Hc & _).
    destruct cmap as [m|]; [|by split_and!; auto].
    destruct (not_cmap (Some m)); [by split_and!; auto|].
    rewrite foldr_print. cbn. split_and!; auto.
  - rewrite (bind_Raise _ _ _ _ _ Hget). cbn [fst snd].
    assert (e = IndexError) as ->.
    { revert Hget. unfold get_config_dir, try_except.
      intros [(? & ? & _ & ?) | (e' & H1 & [= ->])]%bind_inv; [done|].
      destruct (bind _ _ w) as [[m|e''] wb] eqn:Hl; [done|].
      apply bind_inv in Hl as [(? & ? & _ & ?) | (? & Hl & [= <-])]; [done|].
      destruct (decide (e'' = FileNotFoundError)); [by destruct true|].
      injection H1 as -> _.
      unfold list_config_dir, bind, os_scandir in Hl.
      destruct (w_dirs w !! _); [|by injection Hl as <-].
      destruct (is_file _ _); [|done]. by injection Hl as <-. }
    apply get_config_dir_frame in Hget as (Hd & Hf & _ & Hq & _ & Hc & _).
    split_and!; auto.
Qed.

(** X14: Whatever the store holds, a listing is read-only: it changes no
    directory, leaves no descriptor open and runs no command.  A missing
    store directory does not leave it as an exception either: the
    [FileNotFoundError] of the scan is caught on the way. *)
Theorem run_list_changes_output_only
    (self : BuildType) (long_format : bool) (w : world) :
  let res := run_list self long_format w in
  w_dirs res.2 = w_dirs w ∧ w_fds res.2 = w_fds w ∧ w_cmds res.2 = w_cmds w
  ∧ res.1 ≠ Raise FileNotFoundError.
Proof.
  intros res. destruct (run_list_frame self long_format w) as (Hd & Hf & _ & Hc & Hr).
  fold res in Hd, Hf, Hc, Hr. split_and!; [done..|].
  by destruct Hr as [-> | [-> | ->]].
Qed.

(** ** Backup: the remaining branches *)

Lemma get_file_hash_error `{Hasher} p bsize w e :
  file_content (w_dirs w) p = Raise e →
  get_file_hash p bsize w = (Raise e, w).
Proof.
  intros Hc. unfold get_file_hash.
  apply bind_Raise. unfold open_rb. by rewrite Hc.
Qed.

(** X15: A backup whose build-config file cannot be opened (missing, or a
    directory) raises that error before anything else happens: the store
    directory is not created, nothing is printed, the world is as
    before, whatever the store and the environment are. *)
Theorem run_backup_without_build_config `{Hasher}
    (self : BuildType) (n : option string) (w : world) (e : exn) :
  file_content (w_dirs w) (get_build_config_file_path self) = Raise e →
  run_backup self n w = (Raise e, w).
Proof.
  intros Hc. unfold run_backup.
  rewrite (bind_Return _ _ _ _ _ (backup_name_step self n w)).
  by rewrite (bind_Raise _ _ _ _ _ (get_file_hash_error _ _ _ _ Hc)).
Qed.

Lemma run_backup_without_build_config_witness :
  @run_backup plain_hasher generic_self None no_build_dir_world
  = (Raise FileNotFoundError, no_build_dir_world).
Proof.
  apply (@run_backup_without_build_config plain_hasher generic_self None
           no_build_dir_world FileNotFoundError).
  reflexivity.
Defined.

Lemma get_config_dir_missing self w :
  w_dirs w !! get_config_dir_path self = None →
  get_config_dir self false w = (Return (get_config_dir_path self, None), w).
Proof.
  intros Hd. unfold get_config_dir, try_except.
  erewrite bind_Return; [reflexivity|].
  rewrite (bind_Raise _ _ _ _ _ (list_config_dir_missing _ _ Hd)).
  by rewrite decide_True.
Qed.

Lemma resolve_link_to_file (d : directory) n c :
  n ≠ "latest" →
  resolve (<["latest" := Symlink n]> (<[n := File c]> d)) MAXSYMLINKS "latest"
  = Some (File c).
Proof.
  intros Hn. unfold MAXSYMLINKS. cbn [resolve]. rewrite lookup_insert_eq.
  cbn [resolve]. rewrite lookup_insert_ne by done. by rewrite lookup_insert_eq.
Qed.

(** X16: The first backup of a build type, in a quiet environment: the store
    directory does not exist, so it is created, the build-config bytes
    are stored under the name, ["latest"] is made a link to that name and
    the two paths are handed to git when the directory is in a working
    tree.  ["latest"] then leads to the stored bytes, unless the name
    given is ["latest"] itself: then the file just written is unlinked
    again and the store holds nothing but a link to itself. *)
Theorem run_backup_creates_store `{Hasher}
    (self : BuildType) (n : option string) (w : world)
    (c : bytes) (s : string) (rest : list string) :
  let cdir := get_config_dir_path self in
  let bcfile := get_build_config_file_path self in
  let name := backup_name n w in
  w_faults w = [] →
  plain_name name →
  file_content (w_dirs w) bcfile = Return c →
  w_dirs w !! cdir = None →
  w_tmpnames w = s :: rest →
  ∃ w',
    run_backup self n w = (Return py_None, w')
    ∧ w_dirs w' = <[cdir := <["latest" := Symlink name]> {[ name := File c ]}]> (w_dirs w)
    ∧ (name ≠ "latest" → file_content (w_dirs w') (cdir, "latest") = Return c)
    ∧ (name = "latest" → w_dirs w' !! cdir = Some {[ "latest" := Symlink "latest" ]})
    ∧ w_fds w' = w_fds w
    ∧ w_stdout w' = w_stdout w ++ [copy_msg bcfile (cdir, name)]
    ∧ w_cmds w'
      = w_cmds w ++ git_cmds (w_git_dirs w) cdir
                      [path_str (cdir, name); path_str (cdir, "latest")].
Proof.
  intros cdir bcfile name Hq _ Hc Hd Htmp.
  set (w1 := set_dirs (λ ds, <[cdir := ∅]> ds) w).
  set (w2 := World (<[cdir := <[name := File c]> ∅]> (w_dirs w1)) (w_fds w1)
                   (w_stdout w1 ++ [copy_msg bcfile (cdir, name)]) (w_stderr w1) []
                   rest (w_git_dirs w1) (w_cmds w1) (w_today w1)).
  set (w3 := set_dirs (λ _, <[cdir := <["latest" := Symlink name]>
                                       (<[name := File c]> ∅)]> (w_dirs w2)) w2).
  assert (bcfile.1 ≠ cdir) as Hne.
  { intros Heq. unfold file_content in Hc. by rewrite Heq, Hd in Hc. }
  exists (World (w_dirs w3) (w_fds w3) (w_stdout w3) (w_stderr w3) (w_faults w3)
                (w_tmpnames w3) (w_git_dirs w3)
                (w_cmds w3 ++ git_cmds (w_git_dirs w3) cdir
                                [path_str (cdir, name); path_str (cdir, "latest")])
                (w_today w3)).
  split.
  { unfold run_backup.
    rewrite (bind_Return _ _ _ _ _ (backup_name_step self n w)).
    rewrite (bind_Return _ _ _ _ _
               (get_file_hash_quiet _ _ _ _ Hq default_bsize_pos Hc)).
    rewrite (bind_Return _ _ _ _ _ (get_config_dir_missing self w Hd)).
    rewrite (bind_Return _ _ w (backup_name n w, true) w1); cycle 1.
    { unfold os_makedirs, fault, bind at 1, bind at 1.
      rewrite (fault_with_quiet _ _ Hq). unfold modify, ret.
      subst w1. unfold set_dirs. unfold cdir in Hd |- *. by rewrite Hd. }
    cbn iota beta.
    rewrite (bind_Return _ _ w1 tt w2); cycle 1.
    { apply (copy_file_quiet _ (cdir, name) _ w1 c ∅ ("tmp" +:+ s +:+ ".tmp") rest);
        try done.
      - apply default_bsize_pos.
      - subst w1. unfold file_content, set_dirs. cbn [w_dirs].
        rewrite lookup_insert_ne by done. exact Hc.
      - subst w1. cbn. by rewrite lookup_insert_eq.
      - subst w1. cbn [w_tmpnames set_dirs]. rewrite Htmp. cbn [mkstemp_pick].
        by rewrite lookup_empty. }
    rewrite <- bind_assoc.
    rewrite (bind_Return _ _ w2 tt w3); cycle 1.
    { apply relink_latest_quiet; [done| |].
      - subst w2. cbn [w_dirs fst]. by rewrite lookup_insert_eq.
      - destruct (decide (name = "latest")) as [->|].
        + by rewrite lookup_insert_eq.
        + rewrite lookup_insert_ne by done. by rewrite lookup_empty. }
    rewrite (git_commit_quiet w3) by done. reflexivity. }
  subst w3 w2 w1. unfold set_dirs.
  cbn [w_dirs w_fds w_stdout w_cmds w_git_dirs fst snd].
  rewrite !insert_insert_eq. split_and!; try done.
  - intros Hn. unfold file_content. cbn [fst snd]. rewrite lookup_insert_eq.
    by rewrite resolve_link_to_file.
  - intros ->. rewrite lookup_insert_eq. by rewrite insert_insert_eq.
Qed.

Lemma run_backup_creates_store_witness :
  ∃ w',
    @run_backup plain_hasher generic_self None no_store_world = (Return py_None, w')
    ∧ w_dirs w' !! "/cfg/generic"
      = Some (<["latest" := Symlink "config_2024-01-01"]>
                {[ "config_2024-01-01" := File (bytes_of "CONFIG_A=y") ]})
    ∧ file_content (w_dirs w') ("/cfg/generic", "latest") = Return (bytes_of "CONFIG_A=y").
Proof.
  destruct (@run_backup_creates_store plain_hasher generic_self None no_store_world
              (bytes_of "CONFIG_A=y") "aaaaaaaa" ["bbbbbbbb"])
    as (w' & H1 & H2 & H3 & _).
  - reflexivity.
  - repeat split; discriminate.
  - reflexivity.
  - reflexivity.
  - reflexivity.
  - exists w'. split; [exact H1|]. split.
    + rewrite H2. apply lookup_insert_eq.
    + apply H3. discriminate.
Defined.

(** ** Hashing, probing and what a backup may touch *)

(** X17: In a quiet environment the digest [get_file_hash] returns is that
    of the whole content of the file, links followed, for every positive
    block size, and the world is unchanged: the block size does not
    matter. *)
Theorem get_file_hash_any_block_size `{Hasher}
    (p : path) (bsize1 bsize2 : nat) (c : bytes) (w : world) :
  w_faults w = [] →
  0 < bsize1 → 0 < bsize2 →
  file_content (w_dirs w) p = Return c →
  get_file_hash p bsize1 w = (Return (sha256_hexdigest c), w)
  ∧ get_file_hash p bsize2 w = get_file_hash p bsize1 w.
Proof.
  intros Hq H1 H2 Hc.
  rewrite (get_file_hash_quiet p bsize1 c w Hq H1 Hc).
  by rewrite (get_file_hash_quiet p bsize2 c w Hq H2 Hc).
Qed.

Lemma get_file_hash_any_block_size_witness :
  @get_file_hash plain_hasher ("/cfg/generic", "latest") 3 collision_world
  = (Return "CONFIG_A=n", collision_world)
  ∧ @get_file_hash plain_hasher ("/cfg/generic", "latest") 4 collision_world
    = @get_file_hash plain_hasher ("/cfg/generic", "latest") 3 collision_world.
Proof.
  apply (@get_file_hash_any_block_size plain_hasher ("/cfg/generic", "latest") 3 4
           (bytes_of "CONFIG_A=n") collision_world); [reflexivity|lia|lia|reflexivity].
Defined.

Lemma probe_names_more_fuel `{Hasher} fuel extra i b (m : gmap string DirEntry) h w :
  (probe_names fuel i b m h w).1 ≠ Raise OutOfFuel →
  probe_names (fuel + extra) i b m h w = probe_names fuel i b m h w.
Proof.
  revert i w. induction fuel as [|fuel IH]; intros i w Hne; [done|].
  cbn [Nat.add probe_names] in *.
  destruct (m !! fgen b i) as [cfile|]; [|done].
  unfold bind in *.
  destruct (get_file_hash (epath cfile) default_bsize w) as [[h'|e] w1]; [|done].
  destruct (decide (h = h')); [done|]. by apply IH.
Qed.

(** X18: The generator of candidate names is unbounded, yet the probing loop
    of a backup ends: started on a map of [n] keys it looks at [n + 1]
    candidates at most, whatever the stored files hold and whatever
    fails, because the candidates are pairwise different names.  More
    fuel than that changes nothing. *)
Theorem revision_probing_terminates `{Hasher}
    (b : string) (m : gmap string DirEntry) (h : string) (w : world) (extra : nat) :
  (∀ i j, fgen b i = fgen b j → i = j)
  ∧ (probe_names (S (size m)) 0 b m h w).1 ≠ Raise OutOfFuel
  ∧ probe_names (S (size m) + extra) 0 b m h w = probe_names (S (size m)) 0 b m h w.
Proof.
  assert ((probe_names (S (size m)) 0 b m h w).1 ≠ Raise OutOfFuel) as Hne.
  { destruct (probe_names (S (size m)) 0 b m h w) as [r w'] eqn:Hp.
    cbn [fst]. intros ->. revert Hp. apply probe_names_fuel; [|lia]. intros j Hj. lia. }
  split_and!; [apply fgen_inj | done | by apply probe_names_more_fuel].
Qed.











(** ** After a backup that made a revision *)

(** The world a backup leaves when it makes a revision. *)
Lemma run_backup_collision_result `{Hasher}
    (self : BuildType) (n : option string) (w : world)
    (c : bytes) (d : directory) (m : gmap string DirEntry)
    (t : string) (rest : list string) :
  let cdir := get_config_dir_path self in
  let bcfile := get_build_config_file_path self in
  let base := backup_name n w in
  w_faults w = [] →
  file_content (w_dirs w) bcfile = Return c →
  w_dirs w !! cdir = Some d →
  list_config_dir cdir w = (Return m, w) →
  is_Some (m !! base) →
  (∀ j, is_Some (m !! fgen base j) → differs w m (sha256_hexdigest c) (fgen base j)) →
  mkstemp_pick d ".tmp" (w_tmpnames w) = Some (t, rest) →
  (∀ j, d !! fgen base j ≠ Some Dir) →
  d !! "latest" ≠ Some Dir →
  ∃ k,
    0 < k
    ∧ (∀ j, j < k → is_Some (m !! fgen base j))
    ∧ m !! fgen base k = None
    ∧ run_backup self n w
      = (Return py_None,
         World (<[cdir := <["latest" := Symlink (fgen base k)]>
                            (<[fgen base k := File c]> d)]> (w_dirs w))
               (w_fds w) (w_stdout w ++ [copy_msg bcfile (cdir, fgen base k)])
               (w_stderr w) [] rest (w_git_dirs w)
               (w_cmds w ++ git_cmds (w_git_dirs w) cdir
                              [path_str (cdir, fgen base k); path_str (cdir, "latest")])
               (w_today w)).
Proof.
  intros cdir bcfile base Hq Hc Hd Hl [e0 He0] Hdiff Hpick Hnodir Hlatest.
  destruct (first_free_candidate base m) as (k & Hfree & Htaken).
  assert (0 < k) as Hk.
  { destruct k; [|lia]. simpl in Hfree. by rewrite He0 in Hfree. }
  pose proof (fgen_revision_not_latest base k Hk) as Hnl.
  pose proof (candidates_bound base m k Htaken) as Hsize.
  set (w2 := World (<[cdir := <[fgen base k := File c]> d]> (w_dirs w)) (w_fds w)
                   (w_stdout w ++ [copy_msg bcfile (cdir, fgen base k)]) (w_stderr w) []
                   rest (w_git_dirs w) (w_cmds w) (w_today w)).
  set (w3 := set_dirs (λ _, <[cdir := <["latest" := Symlink (fgen base k)]>
                                       (<[fgen base k := File c]> d)]> (w_dirs w2)) w2).
  exists k. do 3 (split; [done|]).
  unfold run_backup.
  rewrite (bind_Return _ _ _ _ _ (backup_name_step self n w)).
  rewrite (bind_Return _ _ _ _ _
             (get_file_hash_quiet _ _ _ _ Hq default_bsize_pos Hc)).
  rewrite (bind_Return _ _ _ _ _ (get_config_dir_present self false w m Hl)).
  fold base. rewrite He0.
  erewrite bind_Return; cycle 1.
  { apply (probe_names_free _ 0 k); try done; try lia.
    intros j Hj. apply Hdiff, Htaken. lia. }
  cbn iota beta.
  rewrite (bind_Return _ _ w tt w2); cycle 1.
  { apply (copy_file_quiet _ (get_config_dir_path self, fgen base k) _ _ c d t rest);
      try done; first [apply default_bsize_pos | apply Hnodir]. }
  rewrite <- bind_assoc.
  rewrite (bind_Return _ _ w2 tt w3); cycle 1.
  { apply relink_latest_quiet; [done| |].
    - subst w2. simpl. by rewrite lookup_insert_eq.
    - by rewrite lookup_insert_ne. }
  rewrite (git_commit_quiet w3) by done.
  subst w3 w2. unfold set_dirs. cbn [w_dirs w_fds w_stdout w_stderr w_faults w_tmpnames
    w_git_dirs w_cmds w_today]. by rewrite insert_insert_eq.
Qed.

(** X20: After a backup that made a revision (the conditions are those of a
    name collision with different content, in a quiet environment), the
    ["latest"] link of the store leads to the bytes of the build-config
    file, as does the new name, and the digest of ["latest"] is the
    digest the build-config file had. *)
Theorem backup_revision_is_latest `{Hasher}
    (self : BuildType) (n : option string) (w : world)
    (c : bytes) (d : directory) (m : gmap string DirEntry)
    (t : string) (rest : list string) :
  let cdir := get_config_dir_path self in
  let bcfile := get_build_config_file_path self in
  let base := backup_name n w in
  w_faults w = [] →
  file_content (w_dirs w) bcfile = Return c →
  w_dirs w !! cdir = Some d →
  list_config_dir cdir w = (Return m, w) →
  is_Some (m !! base) →
  (∀ j, is_Some (m !! fgen base j) → differs w m (sha256_hexdigest c) (fgen base j)) →
  mkstemp_pick d ".tmp" (w_tmpnames w) = Some (t, rest) →
  (∀ j, d !! fgen base j ≠ Some Dir) →
  d !! "latest" ≠ Some Dir →
  ∃ k w',
    run_backup self n w = (Return py_None, w')
    ∧ file_content (w_dirs w') (cdir, fgen base k) = Return c
    ∧ file_content (w_dirs w') (cdir, "latest") = Return c
    ∧ get_file_hash (cdir, "latest") default_bsize w' = (Return (sha256_hexdigest c), w').
Proof.
  intros cdir bcfile base Hq Hc Hd Hl Hbase Hdiff Hpick Hnodir Hlatest.
  destruct (run_backup_collision_result self n w c d m t rest
              Hq Hc Hd Hl Hbase Hdiff Hpick Hnodir Hlatest) as (k & Hk & _ & _ & Hrun).
  pose proof (fgen_revision_not_latest base k Hk) as Hnl.
  exists k. eexists. split; [exact Hrun|].
  assert (file_content
            (<[cdir := <["latest" := Symlink (fgen base k)]>
                         (<[fgen base k := File c]> d)]> (w_dirs w))
            (cdir, "latest") = Return c) as Hlat.
  { unfold file_content. cbn [fst snd]. rewrite lookup_insert_eq.
    by rewrite resolve_link_to_file. }
  cbn [w_dirs]. split_and!; [|done|].
  - unfold file_content, MAXSYMLINKS. cbn [fst snd resolve].
    rewrite lookup_insert_eq. cbn [resolve].
    rewrite lookup_insert_ne by done. by rewrite lookup_insert_eq.
  - by apply get_file_hash_quiet; [|apply default_bsize_pos|].
Qed.

Lemma backup_revision_is_latest_witness :
  ∃ k w',
    @run_backup plain_hasher generic_self None collision_world = (Return py_None, w')
    ∧ file_content (w_dirs w') ("/cfg/generic", fgen "config_2024-01-01" k)
      = Return (bytes_of "CONFIG_A=y")
    ∧ file_content (w_dirs w') ("/cfg/generic", "latest") = Return (bytes_of "CONFIG_A=y").
Proof.
  assert (map_Forall (λ k _, k = "config_2024-01-01" ∨ k = "latest") store_one_map)
    as Hkeys.
  { apply map_Forall_insert_2; [by left|]. apply map_Forall_singleton. by right. }
  assert (map_Forall (λ _ x, x ≠ Dir) store_one) as Hnodes.
  { apply map_Forall_insert_2; [done|]. by apply map_Forall_singleton. }
  assert (∀ j, is_Some (store_one_map !! fgen "config_2024-01-01" j) → j = 0) as Hzero.
  { intros j [e He]. destruct (Hkeys _ _ He) as [Hj|Hj].
    - by apply (fgen_inj "config_2024-01-01" j 0).
    - destruct j; [done|]. by apply fgen_revision_not_latest in Hj; [|lia]. }
  destruct (@backup_revision_is_latest plain_hasher generic_self None
              collision_world (bytes_of "CONFIG_A=y") store_one store_one_map
              "tmpaaaaaaaa.tmp" ["bbbbbbbb"])
    as (k & w' & Hrun & Hnew & Hlink & _).
  - reflexivity.
  - reflexivity.
  - reflexivity.
  - vm_compute. reflexivity.
  - by eexists.
  - intros j Hj. rewrite (Hzero j Hj).
    exists (entry_of "config_2024-01-01"), (bytes_of "CONFIG_A=n").
    split_and!; [reflexivity | reflexivity | by vm_compute].
  - reflexivity.
  - intros j Hj. by apply (Hnodes _ _ Hj).
  - discriminate.
  - exists k, w'. split; [exact Hrun | split; [exact Hnew | exact Hlink]].
Defined.

(** ** The names of revisions are names the scanner keeps *)

Lemma string_app_assoc (a b c : string) : (a +:+ b) +:+ c = a +:+ b +:+ c.
Proof.
  induction a as [|x a IH]; [done|].
  change (String x ((a +:+ b) +:+ c) = String x (a +:+ b +:+ c)). by rewrite IH.
Qed.

Lemma last_char_app a c b : last_char (a +:+ String c b) = last_char (String c b).
Proof.
  induction a as [|x a IH]; [done|].
  change (last_char (String x (a +:+ String c b)) = last_char (String c b)).
  cbn [last_char] in *. rewrite IH. by destruct (last_char b).
Qed.

Lemma endswith_tmp_last s :
  PyStr.endswith s ".tmp" = true → last_char s = Some "p"%char.
Proof. intros [r ->]%endswith_spec. by rewrite last_char_app. Qed.

Lemma pretty_N_go_suffix x s : ∃ pre, pretty_N_go x s = pre +:+ s.
Proof.
  revert s. induction (N.lt_wf_0 x) as [x _ IH]; intros s.
  destruct (decide (x = 0)%N) as [->|Hx].
  - exists "". by rewrite pretty_N_go_0.
  - rewrite pretty_N_go_step by lia.
    destruct (IH (x `div` 10)%N) with (s := String (pretty_N_char (x `mod` 10)) s)
      as [pre Hpre]; [apply N.div_lt; lia|].
    exists (pre +:+ String (pretty_N_char (x `mod` 10)) ""). rewrite Hpre.
    by rewrite string_app_assoc.
Qed.

Lemma pretty_nat_last (k : nat) : ∃ ch, last_char (pretty k) = Some ch ∧ ch ≠ "p"%char.
Proof.
  unfold pretty, pretty_nat, pretty, pretty_N.
  destruct (decide (N.of_nat k = 0)%N) as [_|Hk]; [by eexists|].
  rewrite pretty_N_go_step by lia.
  destruct (pretty_N_go_suffix (N.of_nat k `div` 10)
              (String (pretty_N_char (N.of_nat k `mod` 10)) "")) as [pre ->].
  rewrite last_char_app. eexists. split; [reflexivity|].
  unfold pretty_N_char. by repeat case_match.
Qed.

Lemma startswith_app_other x b t p :
  PyStr.contains x p = false →
  PyStr.startswith b p = false →
  PyStr.startswith (b +:+ String x t) p = false.
Proof.
  revert b. induction p as [|a p IH]; intros b Hx Hb; [done|].
  simpl in Hx. apply orb_false_iff in Hx as [Ha Hp].
  apply bool_decide_eq_false in Ha.
  destruct b as [|c b]; simpl in *.
  - by rewrite decide_False.
  - destruct (decide (a = c)); [by apply IH | done].
Qed.

Lemma keep_name_revision base k :
  0 < k → base ≠ "" → keep_name base = true → keep_name (fgen base k) = true.
Proof.
  intros Hk Hne Hkeep. destruct k as [|k]; [lia|]. cbn [fgen].
  destruct base as [|c0 base]; [done|].
  unfold keep_name in *.
  apply andb_true_iff in Hkeep as [[H1 H2]%andb_true_iff H3].
  apply negb_true_iff in H2.
  remember (String c0 base +:+ "-r" +:+ pretty (S k)) as n eqn:Hn.
  assert (n = String c0 (base +:+ "-r" +:+ pretty (S k))) as Hn'
    by (subst n; reflexivity).
  rewrite !andb_true_iff. split_and!.
  - rewrite Hn'. exact H1.
  - apply negb_true_iff. subst n.
    apply (startswith_app_other "-"%char (String c0 base) _ "README"); done.
  - apply negb_true_iff, not_true_is_false. intros Hend%endswith_tmp_last.
    destruct (pretty_nat_last (S k)) as (ch & Hch & Hp).
    destruct (pretty (S k)) as [|p0 ps] eqn:Hpretty; [done|].
    assert (n = (String c0 base +:+ "-r") +:+ String p0 ps) as Hn2
      by (subst n; by rewrite string_app_assoc).
    rewrite Hn2, last_char_app, Hch in Hend. congruence.
Qed.

(** ** A second backup of the same bytes *)

Lemma stored_file_listed cdir (d : directory) w m x cx :
  list_config_dir cdir w = (Return m, w) →
  w_dirs w !! cdir = Some d →
  d !! x = Some (File cx) →
  keep_name x = true →
  m !! x = Some {| name := x; epath := (cdir, x) |}
  ∧ file_content (w_dirs w) (cdir, x) = Return cx.
Proof.
  intros Hl Hd Hx Hkeep. apply list_config_dir_inv in Hl as (_ & d0 & Hd0 & Hm).
  assert (d0 = d) as -> by congruence.
  assert (resolve d MAXSYMLINKS x = Some (File cx)) as Hres.
  { unfold MAXSYMLINKS. cbn [resolve]. by rewrite Hx. }
  split.
  - rewrite Hm. unfold is_file. by rewrite Hres, Hkeep.
  - unfold file_content. cbn [fst snd]. by rewrite Hd, Hres.
Qed.

Lemma listed_is_node cdir (d : directory) w m x :
  list_config_dir cdir w = (Return m, w) →
  w_dirs w !! cdir = Some d →
  is_Some (m !! x) → is_Some (d !! x).
Proof.
  intros Hl Hd [e He]. apply list_config_dir_inv in Hl as (_ & d0 & Hd0 & Hm).
  assert (d0 = d) as -> by congruence.
  rewrite Hm in He. destruct (is_file d x) eqn:Hf; [|done].
  by apply regular_file_lookup, is_file_spec.
Qed.

(** X21: Backing up twice.  The store holds the name as a regular file the
    scanner keeps, every stored candidate [base], [base-r1], ... is a
    regular file with another digest than the build-config file, and
    nothing fails.  The first backup then makes a revision [base-rK]; a
    second backup of the same build directory under the same name (on
    the same day, when the name is the default) stops at that revision:
    it reports the file as not changed, and leaves every directory, the
    list of commands run and the temporary names as the first backup left
    them. *)
Theorem second_backup_stores_nothing `{Hasher}
    (self : BuildType) (n : option string) (w : world)
    (c c0 : bytes) (d : directory) (t : string) (rest : list string) :
  let cdir := get_config_dir_path self in
  let bcfile := get_build_config_file_path self in
  let base := backup_name n w in
  w_faults w = [] →
  file_content (w_dirs w) bcfile = Return c →
  bcfile.1 ≠ cdir →
  w_dirs w !! cdir = Some d →
  d !! "" = None →
  d !! base = Some (File c0) →
  keep_name base = true →
  base ≠ "latest" →
  (∀ j x, d !! fgen base j = Some x →
          ∃ c', x = File c' ∧ sha256_hexdigest c' ≠ sha256_hexdigest c) →
  mkstemp_pick d ".tmp" (w_tmpnames w) = Some (t, rest) →
  d !! "latest" ≠ Some Dir →
  ∃ k w1 w2,
    0 < k
    ∧ run_backup self n w = (Return py_None, w1)
    ∧ run_backup self n w1 = (Return py_None, w2)
    ∧ w_dirs w2 = w_dirs w1
    ∧ w_stdout w2 = w_stdout w1 ++ [unchanged_msg (fgen base k)]
    ∧ w_cmds w2 = w_cmds w1
    ∧ w_tmpnames w2 = w_tmpnames w1.
Proof.
  intros cdir bcfile base Hq Hc Hbuild Hd Hnil Hbase Hkeep Hnl Hcand Hpick Hlatest.
  assert (base ≠ "") as Hne by (intros Heq; rewrite Heq in Hbase; congruence).
  assert (∀ j, keep_name (fgen base j) = true) as Hkeeps.
  { intros [|j]; [done|]. apply keep_name_revision; [lia|done..]. }
  pose proof (list_config_dir_present cdir d w Hd Hnil) as Hl.
  set (m := map_imap _ d) in Hl.
  assert (∀ j, is_Some (m !! fgen base j) →
               differs w m (sha256_hexdigest c) (fgen base j)) as Hdiff.
  { intros j [x Hx]%(listed_is_node cdir d w m _ Hl Hd).
    destruct (Hcand j x Hx) as (c' & -> & Hh).
    destruct (stored_file_listed cdir d w m _ c' Hl Hd Hx (Hkeeps j)) as [Hm Hf].
    eexists _, c'. split_and!; [exact Hm | exact Hf | exact Hh]. }
  destruct (run_backup_collision_result self n w c d m t rest) as
    (k & Hk & Htaken & Hfree & Hrun); try done.
  { eexists. apply (stored_file_listed cdir d w m base c0 Hl Hd Hbase Hkeep). }
  { intros j Hj. by destruct (Hcand j _ Hj) as (c' & ? & _). }
  fold cdir bcfile base in Hrun.
  assert (d !! fgen base k = None) as Hknone.
  { destruct (d !! fgen base k) as [x|] eqn:Hx; [|done].
    destruct (Hcand k x Hx) as (c' & -> & _).
    destruct (stored_file_listed cdir d w m _ c' Hl Hd Hx (Hkeeps k)) as [Hm _].
    change (m !! fgen base k = None) in Hfree. rewrite Hfree in Hm. discriminate Hm. }
  pose proof (fgen_revision_not_latest base k Hk) as Hknl.
  set (d' := <["latest" := Symlink (fgen base k)]> (<[fgen base k := File c]> d)) in Hrun.
  match type of Hrun with _ = (_, ?x) => set (w1 := x) in Hrun end.
  assert (w_dirs w1 !! cdir = Some d') as Hd' by (subst w1; cbn [w_dirs]; by rewrite lookup_insert_eq).
  assert (d' !! "" = None) as Hnil'.
  { subst d'. rewrite lookup_insert_ne by done. rewrite lookup_insert_ne; [done|].
    intros Heq. destruct k as [|k']; [lia|].
    apply (f_equal String.length) in Heq. cbn [fgen] in Heq.
    rewrite !string_length_app in Heq. simpl in Heq. lia. }
  pose proof (list_config_dir_present cdir d' w1 Hd' Hnil') as Hl'.
  set (m' := map_imap _ d') in Hl'.
  assert (∀ j, j ≠ k → d' !! fgen base j = d !! fgen base j) as Hold.
  { intros j Hj. subst d'. rewrite !lookup_insert_ne; [done| |].
    - intros Heq. by apply fgen_inj in Heq.
    - intros Heq. destruct j; [by apply Hnl|].
      symmetry in Heq. by apply fgen_revision_not_latest in Heq; [|lia]. }
  assert (d' !! fgen base k = Some (File c)) as Hnew.
  { subst d'. rewrite lookup_insert_ne by done. by rewrite lookup_insert_eq. }
  assert (∀ j, j < k → differs w1 m' (sha256_hexdigest c) (fgen base j)) as Hdiff'.
  { intros j Hj. destruct (listed_is_node cdir d w m _ Hl Hd (Htaken j Hj)) as [x Hx].
    destruct (Hcand j x Hx) as (c' & -> & Hh).
    rewrite <- Hold in Hx by lia.
    destruct (stored_file_listed cdir d' w1 m' _ c' Hl' Hd' Hx (Hkeeps j)) as [Hm Hf].
    eexists _, c'. split_and!; [exact Hm | exact Hf | exact Hh]. }
  assert (matches w1 m' (sha256_hexdigest c) (fgen base k)) as Hmatch.
  { destruct (stored_file_listed cdir d' w1 m' _ c Hl' Hd' Hnew (Hkeeps k)) as [Hm Hf].
    eexists _, c. split_and!; [exact Hm | exact Hf | done]. }
  assert (k < S (size m')) as Hsize.
  { cut (S k ≤ size m'); [lia|].
    apply (candidates_bound base m' (S k)). intros j Hj.
    destruct (decide (j = k)) as [->|Hjk].
    - by destruct Hmatch as (e & _ & -> & _).
    - destruct (Hdiff' j) as (e & _ & -> & _); [lia | done]. }
  exists k, w1. eexists. split; [done|]. split; [exact Hrun|].
  assert (file_content (w_dirs w1) bcfile = Return c) as Hc'.
  { unfold file_content in *. subst w1. cbn [w_dirs].
    by rewrite lookup_insert_ne. }
  unfold run_backup.
  rewrite (bind_Return _ _ _ _ _ (backup_name_step self n w1)).
  rewrite (bind_Return _ _ _ _ _
             (get_file_hash_quiet _ _ _ w1 eq_refl default_bsize_pos Hc')).
  rewrite (bind_Return _ _ _ _ _ (get_config_dir_present self false w1 m' Hl')).
  change (backup_name n w1) with base.
  destruct (Hdiff' 0 Hk) as (e0 & _ & He0 & _). cbn [fgen] in He0. rewrite He0.
  erewrite bind_Return; cycle 1.
  { apply (probe_names_match _ 0 k); [done | lia | lia | | exact Hmatch].
    intros j Hj. apply Hdiff'. lia. }
  cbn iota beta. split; [reflexivity|]. done.
Qed.

Lemma second_backup_stores_nothing_witness :
  ∃ k w1 w2,
    0 < k
    ∧ @run_backup plain_hasher generic_self None collision_world = (Return py_None, w1)
    ∧ @run_backup plain_hasher generic_self None w1 = (Return py_None, w2)
    ∧ w_dirs w2 = w_dirs w1
    ∧ w_stdout w2 = w_stdout w1 ++ [unchanged_msg (fgen "config_2024-01-01" k)].
Proof.
  destruct (@second_backup_stores_nothing plain_hasher generic_self None
              collision_world (bytes_of "CONFIG_A=y") (bytes_of "CONFIG_A=n")
              store_one "tmpaaaaaaaa.tmp" ["bbbbbbbb"])
    as (k & w1 & w2 & Hk & Hrun1 & Hrun2 & Hdirs & Hout & _).
  - reflexivity.
  - reflexivity.
  - discriminate.
  - reflexivity.
  - reflexivity.
  - reflexivity.
  - reflexivity.
  - discriminate.
  - intros j x Hx. unfold store_one in Hx.
    apply lookup_insert_Some in Hx as [[_ <-]|[_ Hx]].
    + exists (bytes_of "CONFIG_A=n"). split; [reflexivity | by vm_compute].
    + apply lookup_singleton_Some in Hx as [Hj _].
      destruct j; [discriminate Hj|].
      symmetry in Hj. apply fgen_revision_not_latest in Hj; [contradiction | lia].
  - reflexivity.
  - discriminate.
  - exists k, w1, w2.
    split; [exact Hk|]. split; [exact Hrun1|]. split; [exact Hrun2|].
    split; [exact Hdirs | exact Hout].
Defined.

(** ** The default backup name *)

Lemma last_char_app_some a b ch :
  last_char b = Some ch → last_char (a +:+ b) = Some ch.
Proof.
  intros Hb. destruct b as [|c b]; [done|]. by rewrite last_char_app.
Qed.

Lemma pad2_last (k : nat) : ∃ ch, last_char (pad2 k) = Some ch ∧ ch ≠ "p"%char.
Proof.
  destruct (pretty_nat_last k) as (ch & Hch & Hp). exists ch. split; [|done].
  unfold pad2. destruct (decide (k < 10)); [|done]. by apply last_char_app_some.
Qed.

(** X22: The name a backup takes when none is given, [config_<date>], is for
    every date a name the scanner keeps, and it is not the name of the
    ["latest"] link: a file stored under it is listed, and is seen by the
    next backup of the same day. *)
Theorem default_backup_name_is_kept (self : BuildType) (w : world) :
  ∃ n, get_default_backup_name self w = (Return n, w)
       ∧ keep_name n = true
       ∧ n ≠ get_default_config_name self
       ∧ n ≠ "".
Proof.
  exists (strftime_config (w_today w)). split; [done|].
  destruct (w_today w) as [[y m] d]. unfold strftime_config.
  set (X := pretty y +:+ "-" +:+ pad2 m +:+ "-" +:+ pad2 d).
  assert (String.get 0 ("config_" +:+ X) = Some "c"%char) as Hhead by done.
  assert (∀ s, "config_" +:+ X = s → String.get 0 s = Some "c"%char) as Hfirst
    by (by intros s <-).
  split_and!.
  - apply keep_name_spec.
    + intros Heq%Hfirst. discriminate Heq.
    + split_and!.
      * intros [r Hr%Hfirst]. discriminate Hr.
      * intros [r Hr%Hfirst]. discriminate Hr.
      * intros [r Hr]. destruct (pad2_last d) as (ch & Hch & Hp).
        assert (last_char ("config_" +:+ X) = Some ch) as Hlast.
        { subst X. by do 5 apply last_char_app_some. }
        rewrite Hr in Hlast.
        change (r +:+ ".tmp") with (r +:+ String "."%char "tmp") in Hlast.
        rewrite last_char_app in Hlast. simpl in Hlast. congruence.
  - intros Heq%Hfirst. discriminate Heq.
  - intros Heq%Hfirst. discriminate Heq.
Qed.
